(** * Payroll calculation engine and payroll service: a shallow embedding

    The development follows [app/utils/helpers.py],
    [app/services/calculadora_nomina.py], [app/services/nomina_service.py]
    and the repositories and models they use, the validator of
    [app/schemas/nomina.py] and, by the status code they answer, the
    endpoints of [app/api/endpoints/nomina.py].

    Numbers are modelled as Python has them:
    - [Decimal] is a finite coefficient with a decimal exponent, or an
      infinity, or NaN; arithmetic goes through the default context
      (28 digits, ROUND_HALF_EVEN, trap on InvalidOperation).  The sign of a
      zero and the exponent limits of the context are not tracked.
    - [float] is IEEE 754 binary64, taken from the [SpecFloat] specification
      of the standard library (precision 53, emax 1024).
    - [round(x, 2)], [str(x)] and [float(d)] are the correctly rounded
      conversions of CPython. *)

From Stdlib Require Import ZArith List String Bool Lia DecimalString Permutation.
From Stdlib Require Import Reals Lra.
From Stdlib Require Import Floats.SpecFloat.
Import ListNotations.
Local Open Scope string_scope.
Local Open Scope Z_scope.

(** ** Exceptions and the error monad *)

Inductive excepcion : Type :=
| EmpleadoNoEncontradoException (empleado_id : Z)
| PeriodoNoEncontradoException (periodo_id : Z)
| PeriodoCerradoException (periodo_id : Z)
| NominaDuplicada (id_empleado id_periodo id_nomina_existente : Z)
| NominaNotFound (id_nomina : Z)
| SalarioNegativoException (salario_neto : spec_float) (empleado_id : Z)
| ValidacionNominaException (campo : string)
| TypeError
| AttributeError
| InvalidOperation.

Inductive resultado (A : Type) : Type :=
| Ok (a : A)
| Raise (e : excepcion).
Arguments Ok {A} a.
Arguments Raise {A} e.

Definition bind {A B : Type} (r : resultado A) (k : A -> resultado B) : resultado B :=
  match r with
  | Ok a => k a
  | Raise e => Raise e
  end.

Notation "x <- c ;; k" := (bind c (fun x => k))
  (at level 61, c at next level, right associativity).
Notation "' pat <- c ;; k" := (bind c (fun x => match x with pat => k end))
  (at level 61, pat pattern, c at next level, right associativity).

(** ** Integer helpers *)

(** Quotient of [a] by [b > 0] rounded to the nearest integer, ties to even. *)
Definition div_half_even (a b : Z) : Z :=
  let q := a / b in
  let r := a mod b in
  match (2 * r ?= b) with
  | Lt => q
  | Gt => q + 1
  | Eq => if Z.even q then q else q + 1
  end.

Fixpoint digitos_aux (fuel : nat) (n : Z) : Z :=
  match fuel with
  | O => 0
  | S f => if n =? 0 then 0 else 1 + digitos_aux f (n / 10)
  end.

(** Number of decimal digits of [|n|] (0 for 0). *)
Definition digitos10 (n : Z) : Z :=
  digitos_aux (S (Z.to_nat (Z.log2 (Z.abs n)))) (Z.abs n).

(** ** Python's [Decimal] *)

Inductive Decimal : Type :=
| DFin (c : Z) (e : Z)
| DInf (neg : bool)
| DNaN.

Definition ctx_prec : Z := 28.

(** [Decimal._fix]: a finite result is rounded half-even to the 28
    significant digits of the default context.  The exponent limits of the
    context (Emax = 999999) are not modelled: exponents are unbounded. *)
Definition dfix (c e : Z) : Decimal :=
  let len := digitos10 c in
  if len <=? ctx_prec then DFin c e
  else
    let k := len - ctx_prec in
    let m := Z.sgn c * div_half_even (Z.abs c) (10 ^ k) in
    if digitos10 m >? ctx_prec then DFin (m / 10) (e + k + 1)
    else DFin m (e + k).

Definition dadd (x y : Decimal) : resultado Decimal :=
  match x, y with
  | DNaN, _ | _, DNaN => Ok DNaN
  | DInf a, DInf b => if Bool.eqb a b then Ok (DInf a) else Raise InvalidOperation
  | DInf a, _ => Ok (DInf a)
  | _, DInf b => Ok (DInf b)
  | DFin c1 e1, DFin c2 e2 =>
      let e := Z.min e1 e2 in
      Ok (dfix (c1 * 10 ^ (e1 - e) + c2 * 10 ^ (e2 - e)) e)
  end.

Definition dneg (x : Decimal) : Decimal :=
  match x with
  | DFin c e => DFin (- c) e
  | DInf a => DInf (negb a)
  | DNaN => DNaN
  end.

Definition dsub (x y : Decimal) : resultado Decimal := dadd x (dneg y).

Definition dmul (x y : Decimal) : resultado Decimal :=
  match x, y with
  | DNaN, _ | _, DNaN => Ok DNaN
  | DInf a, DInf b => Ok (DInf (xorb a b))
  | DInf a, DFin c _ =>
      if c =? 0 then Raise InvalidOperation else Ok (DInf (xorb a (c <? 0)))
  | DFin c _, DInf b =>
      if c =? 0 then Raise InvalidOperation else Ok (DInf (xorb (c <? 0) b))
  | DFin c1 e1, DFin c2 e2 => Ok (dfix (c1 * c2) (e1 + e2))
  end.

(** Three-way comparison by value; [None] when a NaN is involved (Python
    raises InvalidOperation on an ordering comparison with NaN). *)
Definition dcompare (x y : Decimal) : option comparison :=
  match x, y with
  | DNaN, _ | _, DNaN => None
  | DInf a, DInf b => Some (if a then (if b then Eq else Lt) else (if b then Gt else Eq))
  | DInf a, DFin _ _ => Some (if a then Lt else Gt)
  | DFin _ _, DInf b => Some (if b then Gt else Lt)
  | DFin c1 e1, DFin c2 e2 =>
      let e := Z.min e1 e2 in
      Some (c1 * 10 ^ (e1 - e) ?= c2 * 10 ^ (e2 - e))
  end.

Definition dlt (x y : Decimal) : resultado bool :=
  match dcompare x y with
  | Some Lt => Ok true
  | Some _ => Ok false
  | None => Raise InvalidOperation
  end.

Definition dgt (x y : Decimal) : resultado bool := dlt y x.

(** Truth value of a Decimal: false exactly for zero. *)
Definition dtruthy (x : Decimal) : bool :=
  match x with
  | DFin c _ => negb (c =? 0)
  | _ => true
  end.

Definition dzero : Decimal := DFin 0 0.

(** ** Python's [float] : IEEE 754 binary64 *)

Definition prec : Z := 53.
Definition emax : Z := 1024.

Definition float := spec_float.

Definition fmul : float -> float -> float := SFmul prec emax.
Definition fdiv : float -> float -> float := SFdiv prec emax.

Definition float_of_Z (n : Z) : float := binary_normalize prec emax n 0 false.

(** The correctly rounded quotient of two integers, [d > 0]. *)
Definition float_of_ratio (n d : Z) : float :=
  match n with
  | Z0 => S754_zero false
  | Zpos p => SFdiv prec emax (S754_finite false p 0) (S754_finite false (Z.to_pos d) 0)
  | Zneg p => SFdiv prec emax (S754_finite true p 0) (S754_finite false (Z.to_pos d) 0)
  end.

(** [float(d)] for a Decimal [d]: the binary64 nearest to its value. *)
Definition float_of_decimal (d : Decimal) : float :=
  match d with
  | DFin c e =>
      if 0 <=? e then float_of_Z (c * 10 ^ e)
      else float_of_ratio c (10 ^ (- e))
  | DInf s => S754_infinity s
  | DNaN => S754_nan
  end.

(** [round(x, 2)] on a float: the exact binary value is rounded half-even
    to two decimals, and the result is read back as a float. *)
Definition round2 (x : float) : float :=
  match x with
  | S754_finite s m e =>
      if 0 <=? e then x
      else
        let k := div_half_even (Zpos m * 100) (2 ^ (- e)) in
        if k =? 0 then S754_zero s
        else float_of_ratio (if s then - k else k) 100
  | _ => x
  end.

Definition float_eqb (x y : float) : bool :=
  match x, y with
  | S754_zero a, S754_zero b => Bool.eqb a b
  | S754_infinity a, S754_infinity b => Bool.eqb a b
  | S754_nan, S754_nan => true
  | S754_finite a m e, S754_finite b n f => Bool.eqb a b && Pos.eqb m n && Z.eqb e f
  | _, _ => false
  end.

(** *** [str(x)]: the shortest decimal string that reads back as [x] *)

(** [floor (log10 (n / d))] for positive [n], [d]. *)
Definition floor_log10 (n d : Z) : Z :=
  let p := digitos10 n - digitos10 d in
  let le10 (p : Z) := if 0 <=? p then d * 10 ^ p <=? n else d <=? n * 10 ^ (- p) in
  if le10 p then p else p - 1.

(** [floor (n / (d * 10^s))]. *)
Definition floor_scaled (n d s : Z) : Z :=
  if 0 <=? s then n / (d * 10 ^ s) else (n * 10 ^ (- s)) / d.

(** Twice the distance from [n/d] to [c * 10^s], scaled by [d * 10^max(-s,0)]. *)
Definition dist_scaled (n d c s : Z) : Z :=
  if 0 <=? s then Z.abs (n - c * d * 10 ^ s)
  else Z.abs (n * 10 ^ (- s) - c * d).

(** The candidate with [k] significant digits, if one reads back as the
    float [S754_finite false m e]. *)
Definition candidato (m : positive) (e : Z) (k : Z) : option (Z * Z) :=
  let n := Zpos m * 2 ^ (Z.max e 0) in
  let d := 2 ^ (Z.max (- e) 0) in
  let p := floor_log10 n d in
  let s := p - k + 1 in
  let lo := floor_scaled n d s in
  let hi := lo + 1 in
  let x := S754_finite false m e in
  let oklo := float_eqb (float_of_decimal (DFin lo s)) x in
  let okhi := float_eqb (float_of_decimal (DFin hi s)) x in
  match oklo, okhi with
  | true, true =>
      if dist_scaled n d lo s <=? dist_scaled n d hi s then Some (lo, s) else Some (hi, s)
  | true, false => Some (lo, s)
  | false, true => Some (hi, s)
  | false, false => None
  end.

Fixpoint mas_corto (m : positive) (e : Z) (fuel : nat) (k : Z) : Z * Z :=
  match fuel with
  | O =>
      let n := Zpos m * 2 ^ (Z.max e 0) in
      let d := 2 ^ (Z.max (- e) 0) in
      let s := floor_log10 n d - k + 1 in
      (if 0 <=? s then div_half_even n (d * 10 ^ s)
       else div_half_even (n * 10 ^ (- s)) d, s)
  | S f =>
      match candidato m e k with
      | Some r => r
      | None => mas_corto m e f (k + 1)
      end
  end.

Fixpoint quitar_ceros (fuel : nat) (c s : Z) : Z * Z :=
  match fuel with
  | O => (c, s)
  | S f => if (c mod 10 =? 0) && negb (c =? 0) then quitar_ceros f (c / 10) (s + 1) else (c, s)
  end.

(** Digits and exponent of [repr] for a positive finite float. *)
Definition repr_digitos (m : positive) (e : Z) : Z * Z :=
  let '(c, s) := mas_corto m e 16 1 in
  quitar_ceros 18 c s.

(** [Decimal(str(x))]: the Decimal read from the string [repr] prints.
    Fixed notation is printed when [-4 < decpt <= 16] (with a trailing
    [.0] for integers), exponent notation otherwise. *)
Definition decimal_of_str_float (x : float) : Decimal :=
  match x with
  | S754_zero _ => DFin 0 (-1)
  | S754_infinity s => DInf s
  | S754_nan => DNaN
  | S754_finite sg m e =>
      let '(c, s) := repr_digitos m e in
      let decpt := digitos10 c + s in
      let c' := if sg then - c else c in
      if (-4 <? decpt) && (decpt <=? 16) && (0 <=? s)
      then DFin (c' * 10 ^ (s + 1)) (-1)
      else DFin c' s
  end.

(** ** Dates and [dateutil.relativedelta] *)

Record date : Type := mkdate { year : Z; month : Z; day : Z }.

Definition isleap (y : Z) : bool :=
  (y mod 4 =? 0) && (negb (y mod 100 =? 0) || (y mod 400 =? 0)).

(** [calendar.monthrange(y, m)[1]] *)
Definition dias_del_mes (y m : Z) : Z :=
  if m =? 2 then (if isleap y then 29 else 28)
  else if (m =? 4) || (m =? 6) || (m =? 9) || (m =? 11) then 30
  else 31.

Definition date_ltb (a b : date) : bool :=
  (year a <? year b)
  || ((year a =? year b)
      && ((month a <? month b) || ((month a =? month b) && (day a <? day b)))).

Definition date_leb (a b : date) : bool := negb (date_ltb b a).

Definition fecha_valida (d : date) : bool :=
  (1 <=? month d) && (month d <=? 12) && (1 <=? day d)
  && (day d <=? dias_del_mes (year d) (month d)).

Record relativedelta : Type := mkrd { rd_years : Z; rd_months : Z }.

(** [relativedelta._set_months] *)
Definition set_months (months : Z) : relativedelta :=
  if Z.abs months >? 11 then
    let s := if months <? 0 then -1 else 1 in
    mkrd ((months * s / 12) * s) ((months * s mod 12) * s)
  else mkrd 0 months.

(** [dt + relativedelta] for a delta that only has years and months. *)
Definition rd_radd (r : relativedelta) (dt : date) : date :=
  let y0 := year dt + rd_years r in
  let m0 := month dt + rd_months r in
  let '(y, m) :=
    if rd_months r =? 0 then (y0, month dt)
    else if m0 >? 12 then (y0 + 1, m0 - 12)
    else if m0 <? 1 then (y0 - 1, m0 + 12)
    else (y0, m0) in
  mkdate y m (Z.min (dias_del_mes y m) (day dt)).

(** The adjustment loop of [relativedelta(dt1, dt2)]: while the target is
    overshot, move one month back (towards [dt2]). *)
Fixpoint rd_ajustar (fuel : nat) (dt1 dt2 : date) (atras : bool) (months : Z) : Z :=
  match fuel with
  | O => months
  | S f =>
      let dtm := rd_radd (set_months months) dt2 in
      let pasado := if atras then date_ltb dtm dt1 else date_ltb dt1 dtm in
      if pasado then rd_ajustar f dt1 dt2 atras (if atras then months + 1 else months - 1)
      else months
  end.

(** [relativedelta(dt1, dt2)], years and months components. *)
Definition relativedelta_entre (dt1 dt2 : date) : relativedelta :=
  let months := (year dt1 - year dt2) * 12 + (month dt1 - month dt2) in
  set_months (rd_ajustar 12 dt1 dt2 (date_ltb dt1 dt2) months).

(** ** [app/utils/helpers.py] *)

(** [calcular_anios_antiguedad(fecha_ingreso, fecha_referencia)]; the
    caller's [date.today()] is the explicit argument [fecha_referencia]. *)
Definition calcular_anios_antiguedad (fecha_ingreso fecha_referencia : date) : Z :=
  rd_years (relativedelta_entre fecha_referencia fecha_ingreso).

Definition calcular_anio_antiguedad := calcular_anios_antiguedad.

(** [redondear_decimal(valor)] is [Decimal(str(round(valor, 2)))]. *)
Definition redondear_decimal (valor : float) : Decimal :=
  decimal_of_str_float (round2 valor).

Definition cien : float := float_of_Z 100.

(** [calcular_porcentaje(valor, porcentaje)] *)
Definition calcular_porcentaje (valor porcentaje : float) : Decimal :=
  let resultado := fdiv (fmul valor porcentaje) cien in
  redondear_decimal resultado.

(** ** [app/utils/enums.py] and the employee model *)

Inductive EstadoEmpleadoEnum : Type := ACTIVO | INACTIVO | SUSPENDIDO.
Inductive EstadoPeriodoEnum : Type := ABIERTO | EN_PROCESO | CERRADO | PAGADO.

Definition ASALARIADO : string := "ASALARIADO".
Definition POR_HORAS : string := "POR_HORAS".
Definition POR_COMISION : string := "POR_COMISION".
Definition TEMPORAL : string := "TEMPORAL".

(** An employee with its type resolved: [nombre_tipo] stands for
    [empleado.tipo_empleado.nombre_tipo].  The salary columns are nullable. *)
Record Empleado : Type := mkEmpleado {
  id_empleado : Z;
  nombres : string;
  apellidos : string;
  nombre_tipo : string;
  fecha_ingreso : date;
  estado : EstadoEmpleadoEnum;
  salario_base : option Decimal;
  tarifa_hora : option Decimal;
  porcentaje_comision : option Decimal;
  acepta_fondo_ahorro : bool
}.

Definition nombre_completo (e : Empleado) : string :=
  (nombres e ++ " " ++ apellidos e)%string.

(** [Decimal(str(x or 0))] on a nullable Decimal column. *)
Definition decimal_or_0 (x : option Decimal) : Decimal :=
  match x with
  | Some d => if dtruthy d then d else dzero
  | None => dzero
  end.

(** [float(x)] on a nullable Decimal column: [float(None)] is a TypeError. *)
Definition float_de_columna (x : option Decimal) : resultado float :=
  match x with
  | Some d => Ok (float_of_decimal d)
  | None => Raise TypeError
  end.

(** ** [app/services/calculadora_nomina.py] *)

Definition BONO_ANTIGUEDAD_PORCENTAJE : Decimal := DFin 1000 (-2).
Definition anio_PARA_BONO_ANTIGUEDAD : Z := 5.
Definition BONO_ALIMENTACION : Decimal := DFin 100000000 (-2).
Definition COMISION_VENTAS_LIMITE : Decimal := DFin 2000000000 (-2).
Definition BONO_VENTAS_PORCENTAJE : Decimal := DFin 300 (-2).
Definition MULTIPLICADOR_HORA_EXTRA : Decimal := DFin 15 (-1).
Definition DEDUCCION_SEGURIDAD_SOCIAL_PENSION : Decimal := DFin 400 (-2).
Definition DEDUCCION_ARL : Decimal := DFin 522 (-3).
Definition FONDO_AHORRO_PORCENTAJE : Decimal := DFin 200 (-2).
Definition anio_PARA_FONDO_AHORRO : Z := 1.

(** The detail dictionaries ([bono_data], [beneficio_data],
    [deduccion_data]); absent keys are [None]. *)
Record detalle : Type := mkDetalle {
  tipo : string;
  descripcion : string;
  monto : Decimal;
  porcentaje_aplicado : option Decimal;
  base_calculo : option Decimal
}.

(** A [dict] keyed by the type code, in insertion order. *)
Definition detalles : Type := list (string * detalle).

Definition poner (k : string) (v : detalle) (d : detalles) : detalles :=
  if existsb (fun kv => String.eqb (fst kv) k) d
  then map (fun kv => if String.eqb (fst kv) k then (k, v) else kv) d
  else (d ++ [(k, v)])%list.

Definition buscar (k : string) (d : detalles) : option detalle :=
  match find (fun kv => String.eqb (fst kv) k) d with
  | Some kv => Some (snd kv)
  | None => None
  end.

Definition _calcular_asalariado (empleado : Empleado) : resultado Decimal :=
  Ok (decimal_or_0 (salario_base empleado)).

Definition _calcular_por_horas (empleado : Empleado)
    (horas_trabajadas horas_extras : Decimal) : resultado Decimal :=
  neg_h <- dlt horas_trabajadas dzero ;;
  if neg_h then Raise (ValidacionNominaException "horas_trabajadas")
  else
    neg_e <- dlt horas_extras dzero ;;
    if neg_e then Raise (ValidacionNominaException "horas_extras")
    else
      let tarifa := decimal_or_0 (tarifa_hora empleado) in
      pago_normal <- dmul horas_trabajadas tarifa ;;
      pe <- dmul horas_extras tarifa ;;
      pago_extras <- dmul pe MULTIPLICADOR_HORA_EXTRA ;;
      suma <- dadd pago_normal pago_extras ;;
      Ok (redondear_decimal (float_of_decimal suma)).

Definition _calcular_por_comision (empleado : Empleado)
    (ventas_realizadas : Decimal) : resultado Decimal :=
  neg_v <- dlt ventas_realizadas dzero ;;
  if neg_v then Raise (ValidacionNominaException "ventas_realizadas")
  else
    let salario_base := decimal_or_0 (salario_base empleado) in
    let porcentaje_comision := decimal_or_0 (porcentaje_comision empleado) in
    let comision :=
      calcular_porcentaje (float_of_decimal ventas_realizadas)
                          (float_of_decimal porcentaje_comision) in
    dadd salario_base comision.

Definition _calcular_temporal (empleado : Empleado) : resultado Decimal :=
  Ok (decimal_or_0 (salario_base empleado)).

Definition calcular_salario_bruto (empleado : Empleado)
    (horas_trabajadas horas_extras ventas_realizadas : Decimal) : resultado Decimal :=
  let tipo_nombre := nombre_tipo empleado in
  if String.eqb tipo_nombre ASALARIADO then _calcular_asalariado empleado
  else if String.eqb tipo_nombre POR_HORAS then
    _calcular_por_horas empleado horas_trabajadas horas_extras
  else if String.eqb tipo_nombre POR_COMISION then
    _calcular_por_comision empleado ventas_realizadas
  else if String.eqb tipo_nombre TEMPORAL then _calcular_temporal empleado
  else Raise (ValidacionNominaException "tipo_empleado").

(** [str(n)] for an integer. *)
Definition str_Z (n : Z) : string := NilZero.string_of_int (Z.to_int n).

Definition calcular_bonos (hoy : date) (empleado : Empleado)
    (ventas_realizadas : Decimal) : resultado (Decimal * detalles) :=
  let bonos : detalles := [] in
  let total := dzero in
  let tipo_nombre := nombre_tipo empleado in
  '(total, bonos) <-
    (if String.eqb tipo_nombre ASALARIADO then
       let anio_antiguedad := calcular_anio_antiguedad (fecha_ingreso empleado) hoy in
       if anio_antiguedad >=? anio_PARA_BONO_ANTIGUEDAD then
         base <- float_de_columna (salario_base empleado) ;;
         let monto_bono :=
           calcular_porcentaje base (float_of_decimal BONO_ANTIGUEDAD_PORCENTAJE) in
         let bonos := poner "BONO_ANTIGUEDAD"
           (mkDetalle "BONO_ANTIGUEDAD"
              ("Bono por " ++ str_Z anio_antiguedad ++ " anio de antigüedad")%string
              monto_bono (Some BONO_ANTIGUEDAD_PORCENTAJE) None) bonos in
         total <- dadd total monto_bono ;;
         Ok (total, bonos)
       else Ok (total, bonos)
     else Ok (total, bonos)) ;;
  if String.eqb tipo_nombre POR_COMISION then
    supera <- dgt ventas_realizadas COMISION_VENTAS_LIMITE ;;
    if supera then
      let monto_bono :=
        calcular_porcentaje (float_of_decimal ventas_realizadas)
                            (float_of_decimal BONO_VENTAS_PORCENTAJE) in
      let bonos := poner "BONO_VENTAS"
        (mkDetalle "BONO_VENTAS" "Bono por ventas superiores a $20,000,000"
           monto_bono (Some BONO_VENTAS_PORCENTAJE) None) bonos in
      total <- dadd total monto_bono ;;
      Ok (total, bonos)
    else Ok (total, bonos)
  else Ok (total, bonos).

Definition calcular_beneficios (hoy : date) (empleado : Empleado)
    : resultado (Decimal * detalles) :=
  let beneficios : detalles := [] in
  let total := dzero in
  let tipo_nombre := nombre_tipo empleado in
  '(total, beneficios) <-
    (if String.eqb tipo_nombre ASALARIADO || String.eqb tipo_nombre POR_COMISION then
       let beneficios := poner "BONO_ALIMENTACION"
         (mkDetalle "BONO_ALIMENTACION" "Subsidio de alimentación mensual"
            BONO_ALIMENTACION None None) beneficios in
       total <- dadd total BONO_ALIMENTACION ;;
       Ok (total, beneficios)
     else Ok (total, beneficios)) ;;
  if String.eqb tipo_nombre POR_HORAS then
    let anio_antiguedad := calcular_anio_antiguedad (fecha_ingreso empleado) hoy in
    if (anio_antiguedad >=? anio_PARA_FONDO_AHORRO) && acepta_fondo_ahorro empleado then
      let beneficio_fondo := dzero in
      positivo <- dgt beneficio_fondo dzero ;;
      if positivo then
        let beneficios := poner "FONDO_AHORRO"
          (mkDetalle "FONDO_AHORRO" "Aporte empresarial a fondo de ahorro"
             beneficio_fondo None None) beneficios in
        total <- dadd total beneficio_fondo ;;
        Ok (total, beneficios)
      else Ok (total, beneficios)
    else Ok (total, beneficios)
  else Ok (total, beneficios).

Definition calcular_deducciones (hoy : date) (empleado : Empleado)
    (salario_bruto : Decimal) : resultado (Decimal * detalles) :=
  let deducciones : detalles := [] in
  let total := dzero in
  let deduccion_ss :=
    calcular_porcentaje (float_of_decimal salario_bruto)
                        (float_of_decimal DEDUCCION_SEGURIDAD_SOCIAL_PENSION) in
  let deducciones := poner "SEGURIDAD_SOCIAL_PENSION"
    (mkDetalle "SEGURIDAD_SOCIAL_PENSION" "Aporte a Seguridad Social y Pensión"
       deduccion_ss (Some DEDUCCION_SEGURIDAD_SOCIAL_PENSION) (Some salario_bruto))
    deducciones in
  total <- dadd total deduccion_ss ;;
  let deduccion_arl :=
    calcular_porcentaje (float_of_decimal salario_bruto)
                        (float_of_decimal DEDUCCION_ARL) in
  let deducciones := poner "ARL"
    (mkDetalle "ARL" "Aporte a Riesgos Laborales"
       deduccion_arl (Some DEDUCCION_ARL) (Some salario_bruto)) deducciones in
  total <- dadd total deduccion_arl ;;
  let tipo_nombre := nombre_tipo empleado in
  if String.eqb tipo_nombre POR_HORAS then
    let anio_antiguedad := calcular_anio_antiguedad (fecha_ingreso empleado) hoy in
    if (anio_antiguedad >=? anio_PARA_FONDO_AHORRO) && acepta_fondo_ahorro empleado then
      let deduccion_fondo :=
        calcular_porcentaje (float_of_decimal salario_bruto)
                            (float_of_decimal FONDO_AHORRO_PORCENTAJE) in
      let deducciones := poner "FONDO_AHORRO_EMPLEADO"
        (mkDetalle "FONDO_AHORRO_EMPLEADO" "Aporte del empleado a fondo de ahorro"
           deduccion_fondo (Some FONDO_AHORRO_PORCENTAJE) (Some salario_bruto))
        deducciones in
      total <- dadd total deduccion_fondo ;;
      Ok (total, deducciones)
    else Ok (total, deducciones)
  else Ok (total, deducciones).

(** The dictionary [calcular_nomina_completa] returns. *)
Record calculo : Type := mkCalculo {
  c_salario_bruto : Decimal;
  c_total_bonos : Decimal;
  c_total_beneficios : Decimal;
  c_total_deducciones : Decimal;
  c_salario_neto : Decimal;
  c_detalles_bonos : detalles;
  c_detalles_beneficios : detalles;
  c_detalles_deducciones : detalles
}.

Definition calcular_nomina_completa (hoy : date) (empleado : Empleado)
    (horas_trabajadas horas_extras ventas_realizadas : Decimal) : resultado calculo :=
  salario_bruto <-
    calcular_salario_bruto empleado horas_trabajadas horas_extras ventas_realizadas ;;
  '(total_bonos, detalles_bonos) <- calcular_bonos hoy empleado ventas_realizadas ;;
  '(total_beneficios, detalles_beneficios) <- calcular_beneficios hoy empleado ;;
  '(total_deducciones, detalles_deducciones) <-
    calcular_deducciones hoy empleado salario_bruto ;;
  s1 <- dadd salario_bruto total_bonos ;;
  s2 <- dadd s1 total_beneficios ;;
  salario_neto <- dsub s2 total_deducciones ;;
  negativo <- dlt salario_neto dzero ;;
  if negativo then
    Raise (SalarioNegativoException (float_of_decimal salario_neto) (id_empleado empleado))
  else
    Ok (mkCalculo salario_bruto total_bonos total_beneficios total_deducciones
          salario_neto detalles_bonos detalles_beneficios detalles_deducciones).

(** ** Models and repositories *)

Record PeriodoNomina : Type := mkPeriodo {
  id_periodo : Z;
  anio : Z;
  mes : Z;
  estado_periodo : EstadoPeriodoEnum
}.

(** [PeriodoNomina.esta_cerrado] *)
Definition esta_cerrado (p : PeriodoNomina) : bool :=
  match estado_periodo p with
  | CERRADO | PAGADO => true
  | _ => false
  end.

Record Nomina : Type := mkNomina {
  id_nomina : Z;
  n_id_empleado : Z;
  n_id_periodo : Z;
  horas_trabajadas : Decimal;
  horas_extras : Decimal;
  ventas_realizadas : Decimal;
  salario_bruto : Decimal;
  total_bonos : Decimal;
  total_beneficios : Decimal;
  total_deducciones : Decimal;
  salario_neto : Decimal;
  calculado_por : string
}.

(** A row of a detail table: the payroll it belongs to and the fields the
    service sets.  The row's own key is assigned by the storage engine and
    never read by the service; it is not part of the model. *)
Definition fila_detalle : Type := (Z * detalle)%type.

Record AuditoriaNomina : Type := mkAuditoria {
  a_id_nomina : Z;
  accion : string;
  usuario : string;
  a_descripcion : string;
  valores_anteriores : option (list (string * float));
  valores_nuevos : option (list (string * float))
}.

(** The database as one committed state. *)
Record BD : Type := mkBD {
  empleados : list Empleado;
  periodos : list PeriodoNomina;
  nominas : list Nomina;
  bonos : list fila_detalle;
  beneficios : list fila_detalle;
  deducciones : list fila_detalle;
  auditorias : list AuditoriaNomina;
  sig_id_nomina : Z
}.

Definition es_activo (e : Empleado) : bool :=
  match estado e with ACTIVO => true | _ => false end.

(** [EmpleadoRepository.get_by_id] *)
Definition empleado_get_by_id (bd : BD) (id : Z) : option Empleado :=
  find (fun e => id_empleado e =? id) (empleados bd).

(** [EmpleadoRepository.get_all_activos(skip, limit)] *)
Definition get_all_activos (bd : BD) (skip limit : nat) : list Empleado :=
  firstn limit (skipn skip (filter es_activo (empleados bd))).

(** [PeriodoNominaRepository.get_by_id] *)
Definition periodo_get_by_id (bd : BD) (id : Z) : option PeriodoNomina :=
  find (fun p => id_periodo p =? id) (periodos bd).

(** [NominaRepository.get_by_id] *)
Definition nomina_get_by_id (bd : BD) (id : Z) : option Nomina :=
  find (fun n => id_nomina n =? id) (nominas bd).

(** [NominaRepository.get_by_empleado_periodo] *)
Definition get_by_empleado_periodo (bd : BD) (id_empleado id_periodo : Z) : option Nomina :=
  find (fun n => (n_id_empleado n =? id_empleado) && (n_id_periodo n =? id_periodo))
       (nominas bd).

(** [NominaRepository.exists_nomina] *)
Definition exists_nomina (bd : BD) (id_empleado id_periodo : Z) : bool :=
  match get_by_empleado_periodo bd id_empleado id_periodo with
  | Some _ => true
  | None => false
  end.

(** ** [app/schemas/nomina.py] *)

Record NominaCreate : Type := mkNominaCreate {
  nc_id_empleado : Z;
  nc_id_periodo : Z;
  nc_horas_trabajadas : option Decimal;
  nc_horas_extras : option Decimal;
  nc_ventas_realizadas : option Decimal
}.

Record NominaUpdate : Type := mkNominaUpdate {
  nu_horas_trabajadas : option Decimal;
  nu_horas_extras : option Decimal;
  nu_ventas_realizadas : option Decimal
}.

(** ** [app/services/nomina_service.py] *)

Definition filas (id : Z) (d : detalles) : list fila_detalle :=
  map (fun kv => (id, snd kv)) d.

Definition calcular_y_crear_nomina (hoy : date) (bd : BD)
    (nomina_data : NominaCreate) (usuario : string) : BD * resultado Nomina :=
  match empleado_get_by_id bd (nc_id_empleado nomina_data) with
  | None => (bd, Raise (EmpleadoNoEncontradoException (nc_id_empleado nomina_data)))
  | Some empleado =>
  match periodo_get_by_id bd (nc_id_periodo nomina_data) with
  | None => (bd, Raise (PeriodoNoEncontradoException (nc_id_periodo nomina_data)))
  | Some periodo =>
  if esta_cerrado periodo
  then (bd, Raise (PeriodoCerradoException (nc_id_periodo nomina_data)))
  else
  match get_by_empleado_periodo bd (nc_id_empleado nomina_data) (nc_id_periodo nomina_data) with
  | Some nomina_existente =>
      (bd, Raise (NominaDuplicada (nc_id_empleado nomina_data)
                    (nc_id_periodo nomina_data) (id_nomina nomina_existente)))
  | None =>
  match calcular_nomina_completa hoy empleado
          (decimal_or_0 (nc_horas_trabajadas nomina_data))
          (decimal_or_0 (nc_horas_extras nomina_data))
          (decimal_or_0 (nc_ventas_realizadas nomina_data)) with
  | Raise ex => (bd, Raise ex)
  | Ok calculo =>
      let nomina := mkNomina (sig_id_nomina bd)
        (nc_id_empleado nomina_data) (nc_id_periodo nomina_data)
        (decimal_or_0 (nc_horas_trabajadas nomina_data))
        (decimal_or_0 (nc_horas_extras nomina_data))
        (decimal_or_0 (nc_ventas_realizadas nomina_data))
        (c_salario_bruto calculo) (c_total_bonos calculo)
        (c_total_beneficios calculo) (c_total_deducciones calculo)
        (c_salario_neto calculo) usuario in
      let auditoria := mkAuditoria (id_nomina nomina) "CREAR" usuario
        ("Nómina calculada para " ++ nombre_completo empleado)%string
        None
        (Some [("salario_bruto", float_of_decimal (c_salario_bruto calculo));
               ("salario_neto", float_of_decimal (c_salario_neto calculo));
               ("total_bonos", float_of_decimal (c_total_bonos calculo));
               ("total_beneficios", float_of_decimal (c_total_beneficios calculo));
               ("total_deducciones", float_of_decimal (c_total_deducciones calculo))]) in
      (mkBD (empleados bd) (periodos bd)
         (nominas bd ++ [nomina])
         (bonos bd ++ filas (id_nomina nomina) (c_detalles_bonos calculo))
         (beneficios bd ++ filas (id_nomina nomina) (c_detalles_beneficios calculo))
         (deducciones bd ++ filas (id_nomina nomina) (c_detalles_deducciones calculo))
         (auditorias bd ++ [auditoria])
         (sig_id_nomina bd + 1),
       Ok nomina)
  end end end end.

Definition actualizar (nuevo : option Decimal) (actual : Decimal) : Decimal :=
  match nuevo with
  | Some v => v
  | None => actual
  end.

Definition no_es_de (id : Z) (f : fila_detalle) : bool := negb (fst f =? id).

Definition reemplazar_nomina (n : Nomina) (l : list Nomina) : list Nomina :=
  map (fun x => if id_nomina x =? id_nomina n then n else x) l.

Definition recalcular_nomina (hoy : date) (bd : BD) (id : Z)
    (nomina_update : NominaUpdate) (usuario : string) : BD * resultado Nomina :=
  match nomina_get_by_id bd id with
  | None => (bd, Raise (NominaNotFound id))
  | Some nomina =>
  match periodo_get_by_id bd (n_id_periodo nomina) with
  | None => (bd, Raise AttributeError)
  | Some periodo =>
  if esta_cerrado periodo then (bd, Raise (PeriodoCerradoException (n_id_periodo nomina)))
  else
    let valores_anteriores :=
      [("horas_trabajadas", float_of_decimal (horas_trabajadas nomina));
       ("horas_extras", float_of_decimal (horas_extras nomina));
       ("ventas_realizadas", float_of_decimal (ventas_realizadas nomina));
       ("salario_bruto", float_of_decimal (salario_bruto nomina));
       ("salario_neto", float_of_decimal (salario_neto nomina))] in
    let horas_trabajadas := actualizar (nu_horas_trabajadas nomina_update) (horas_trabajadas nomina) in
    let horas_extras := actualizar (nu_horas_extras nomina_update) (horas_extras nomina) in
    let ventas_realizadas := actualizar (nu_ventas_realizadas nomina_update) (ventas_realizadas nomina) in
    match empleado_get_by_id bd (n_id_empleado nomina) with
    | None => (bd, Raise AttributeError)
    | Some empleado =>
    match calcular_nomina_completa hoy empleado horas_trabajadas horas_extras ventas_realizadas with
    | Raise ex => (bd, Raise ex)
    | Ok calculo =>
        let nomina' := mkNomina (id_nomina nomina) (n_id_empleado nomina) (n_id_periodo nomina)
          horas_trabajadas horas_extras ventas_realizadas
          (c_salario_bruto calculo) (c_total_bonos calculo)
          (c_total_beneficios calculo) (c_total_deducciones calculo)
          (c_salario_neto calculo) usuario in
        let auditoria := mkAuditoria (id_nomina nomina) "RECALCULAR" usuario
          "Nómina recalculada con nuevos datos"
          (Some valores_anteriores)
          (Some [("horas_trabajadas", float_of_decimal horas_trabajadas);
                 ("horas_extras", float_of_decimal horas_extras);
                 ("ventas_realizadas", float_of_decimal ventas_realizadas);
                 ("salario_bruto", float_of_decimal (c_salario_bruto calculo));
                 ("salario_neto", float_of_decimal (c_salario_neto calculo))]) in
        (mkBD (empleados bd) (periodos bd)
           (reemplazar_nomina nomina' (nominas bd))
           (filter (no_es_de (id_nomina nomina)) (bonos bd)
              ++ filas (id_nomina nomina) (c_detalles_bonos calculo))
           (filter (no_es_de (id_nomina nomina)) (beneficios bd)
              ++ filas (id_nomina nomina) (c_detalles_beneficios calculo))
           (filter (no_es_de (id_nomina nomina)) (deducciones bd)
              ++ filas (id_nomina nomina) (c_detalles_deducciones calculo))
           (auditorias bd ++ [auditoria])
           (sig_id_nomina bd),
         Ok nomina')
    end end
  end end.

(** What a failure entry records as its [error]: the fixed text of the
    duplicate pre-check, or [str(e)] of the exception caught. *)
Inductive error_fallida : Type :=
| YaExisteNomina
| StrExcepcion (e : excepcion).

Record exitosa : Type := mkExitosa {
  ex_empleado_id : Z;
  ex_empleado_nombre : string;
  ex_nomina_id : Z;
  ex_salario_neto : float
}.

Record fallida : Type := mkFallida {
  fa_empleado_id : Z;
  fa_empleado_nombre : string;
  fa_error : error_fallida
}.

Record resultados : Type := mkResultados {
  periodo_id : Z;
  total_empleados : Z;
  nominas_exitosas : list exitosa;
  nominas_fallidas : list fallida;
  total_exitosas : Z;
  total_fallidas : Z
}.

Definition agregar_fallida (r : resultados) (f : fallida) : resultados :=
  mkResultados (periodo_id r) (total_empleados r) (nominas_exitosas r)
    (nominas_fallidas r ++ [f]) (total_exitosas r) (total_fallidas r + 1).

Definition agregar_exitosa (r : resultados) (x : exitosa) : resultados :=
  mkResultados (periodo_id r) (total_empleados r) (nominas_exitosas r ++ [x])
    (nominas_fallidas r) (total_exitosas r + 1) (total_fallidas r).

(** The body of the loop of [calcular_nominas_periodo] for one employee. *)
Definition procesar_empleado (hoy : date) (id_periodo : Z) (usuario : string)
    (st : BD * resultados) (empleado : Empleado) : BD * resultados :=
  let '(bd, r) := st in
  if exists_nomina bd (id_empleado empleado) id_periodo then
    (bd, agregar_fallida r
           (mkFallida (id_empleado empleado) (nombre_completo empleado) YaExisteNomina))
  else
    let nomina_data := mkNominaCreate (id_empleado empleado) id_periodo
                         (Some dzero) (Some dzero) (Some dzero) in
    match calcular_y_crear_nomina hoy bd nomina_data usuario with
    | (bd', Ok nomina) =>
        (bd', agregar_exitosa r
                (mkExitosa (id_empleado empleado) (nombre_completo empleado)
                   (id_nomina nomina) (float_of_decimal (salario_neto nomina))))
    | (bd', Raise e) =>
        (bd', agregar_fallida r
                (mkFallida (id_empleado empleado) (nombre_completo empleado)
                   (StrExcepcion e)))
    end.

Definition calcular_nominas_periodo (hoy : date) (bd : BD) (id_periodo : Z)
    (usuario : string) : BD * resultado resultados :=
  match periodo_get_by_id bd id_periodo with
  | None => (bd, Raise (PeriodoNoEncontradoException id_periodo))
  | Some periodo =>
      if esta_cerrado periodo then (bd, Raise (PeriodoCerradoException id_periodo))
      else
        let empleados_activos := get_all_activos bd 0 100 in
        let r0 := mkResultados id_periodo (Z.of_nat (List.length empleados_activos)) [] [] 0 0 in
        let '(bd', r) :=
          fold_left (procesar_empleado hoy id_periodo usuario) empleados_activos (bd, r0) in
        (bd', Ok r)
  end.

(** ** The rounding the specification words describe

    Quantisation of a Decimal to two places, ties to even on its decimal
    value ([Decimal.quantize(Decimal("0.01"), ROUND_HALF_EVEN)]).  This is
    the reference the claims on rounding are compared with; the code never
    calls it. *)
Definition spec_redondeo_half_even (d : Decimal) : Decimal :=
  match d with
  | DFin c e =>
      if -2 <=? e then DFin (c * 10 ^ (e + 2)) (-2)
      else DFin (Z.sgn c * div_half_even (Z.abs c) (10 ^ (- 2 - e))) (-2)
  | _ => d
  end.

(** ** Concrete databases and employees used by the examples *)

Definition hoy_ej : date := mkdate 2024 6 15.

Definition emp_temporal (i : Z) : Empleado :=
  mkEmpleado i "Empleado" (str_Z i) TEMPORAL (mkdate 2023 1 10) ACTIVO
    (Some (DFin 250000000 (-2))) None None false.

(** 101 active employees and one open period. *)
Definition bd_101 : BD :=
  mkBD (map (fun i => emp_temporal (Z.of_nat i)) (seq 1 101))
       [mkPeriodo 1 2024 6 ABIERTO] [] [] [] [] [] 1.

Definition emp_por_horas : Empleado :=
  mkEmpleado 3 "Juan David" "Martinez" POR_HORAS (mkdate 2022 3 10) ACTIVO
    None (Some (DFin 2500000 (-2))) None true.


Definition emp_comision : Empleado :=
  mkEmpleado 5 "Laura" "Gomez" POR_COMISION (mkdate 2021 9 1) ACTIVO
    (Some (DFin 200000000 (-2))) None (Some (DFin 500 (-2))) false.

Definition nomina_ej : Nomina :=
  mkNomina 1 3 1 (DFin 160 0) (DFin 10 0) (DFin 0 0)
    (DFin 43750000 (-1)) (DFin 0 0) (DFin 0 0) (DFin 2853375 (-1))
    (DFin 40896625 (-1)) "SYSTEM".

(** One employee with a payroll in an open period. *)
Definition bd_abierta : BD :=
  mkBD [emp_por_horas] [mkPeriodo 1 2024 6 ABIERTO] [nomina_ej] [] [] [] [] 2.

(** The same payroll, its period closed. *)
Definition bd_cerrada : BD :=
  mkBD [emp_por_horas] [mkPeriodo 1 2024 6 CERRADO] [nomina_ej] [] [] [] [] 2.

Definition datos_ej : NominaCreate :=
  mkNominaCreate 3 1 (Some (DFin 160 0)) (Some (DFin 10 0)) None.

Definition update_ej : NominaUpdate :=
  mkNominaUpdate (Some (DFin 168 0)) None None.

(** * Definitions of the statements *)

(** The employee ids of both detail lists, successes first. *)
Definition ids_detalle (r : resultados) : list Z :=
  (map ex_empleado_id (nominas_exitosas r) ++ map fa_empleado_id (nominas_fallidas r))%list.

(** The rows of payroll [id] in a detail table. *)
Definition filas_de (id : Z) (t : list fila_detalle) : list fila_detalle :=
  filter (fun f => fst f =? id) t.

(** The example database after one recalculation of payroll 1, and the
    payroll that recalculation returns. *)
Definition bd_recalculada : BD :=
  Eval vm_compute in fst (recalcular_nomina hoy_ej bd_abierta 1 update_ej "ana").

Definition nomina_recalculada : Nomina :=
  Eval vm_compute in
    match snd (recalcular_nomina hoy_ej bd_abierta 1 update_ej "ana") with
    | Ok n => n
    | Raise _ => nomina_ej
    end.




(** [fecha + relativedelta(years=n)]: the [n]-th anniversary, the day
    clipped to the length of the month (29 February becomes 28 February
    in a common year). *)
Definition aniversario (n : Z) (fecha : date) : date := rd_radd (mkrd n 0) fecha.

(** The result of the end-to-end scenario: 160 hours and 10 overtime
    hours for [emp_por_horas]. *)
Definition calculo_ej : calculo :=
  Eval vm_compute in
    match calcular_nomina_completa hoy_ej emp_por_horas (DFin 160 0) (DFin 10 0) dzero with
    | Ok c => c
    | Raise _ => mkCalculo dzero dzero dzero dzero dzero [] [] []
    end.

(** An hourly employee at 10.70 and a commission employee with a base
    salary of one cent. *)
Definition emp_horas_1070 : Empleado :=
  mkEmpleado 7 "Ana" "Gonzalez" POR_HORAS (mkdate 2024 1 10) ACTIVO
    None (Some (DFin 1070 (-2))) None false.

Definition emp_comision_centavo : Empleado :=
  mkEmpleado 8 "Luis" "Perez" POR_COMISION (mkdate 2024 1 10) ACTIVO
    (Some (DFin 1 (-2))) None (Some (DFin 100 (-2))) false.

(** ** Values and error model of the float helpers *)

(** The exponent of the last place of a binary64 of magnitude [2^t]. *)
Definition fexp64 (t : Z) : Z := Z.max (t - 53) (-1074).

(** Powers of two, as reals. *)
Definition B2 (e : Z) : R := powerRZ 2 e.

(** Value of a finite float; zeros (and, by convention, the non-finite) are 0. *)
Definition fval (x : float) : R :=
  match x with
  | S754_finite s m e => ((if s then -1 else 1) * IZR (Zpos m) * B2 e)%R
  | _ => 0%R
  end.

(** Finite and not negative. *)
Definition fnn (x : float) : Prop :=
  match x with
  | S754_zero _ => True
  | S754_finite s _ _ => s = false
  | _ => False
  end.

(** The relative spacing of binary64 and its smallest positive value. *)
Definition eps : R := B2 (-52).
Definition eta : R := B2 (-1074).

(** The error model of one rounding: the value [r] of the result against
    the exact value [Q]. *)
Definition aprox (Q r : R) : Prop :=
  (Q * (1 - 3 * eps) - 3 * eta <= r <= Q * (1 + eps) + eta)%R.

(** The outcome of one rounding: finite and within the error model, or
    an overflow to infinity, which needs a large exact value. *)
Definition aprox_o (Q : R) (r : float) : Prop :=
  (fnn r /\ aprox Q (fval r)) \/ (r = S754_infinity false /\ (B2 971 <= Q)%R).

(** Powers of ten, as reals. *)
Definition B10 (e : Z) : R := powerRZ 10 e.

(** Value of a finite Decimal (0 for the others). *)
Definition dval (d : Decimal) : R :=
  match d with
  | DFin c e => (IZR c * B10 e)%R
  | _ => 0%R
  end.

(** Finite and not negative. *)
Definition dnn (d : Decimal) : Prop :=
  match d with
  | DFin c _ => 0 <= c
  | _ => False
  end.

(** A Decimal in the range of the bounded cases: [0 <= d < 10^100], read
    with the program's own comparisons. *)
Definition en_rango (d : Decimal) : Prop :=
  dlt d dzero = Ok false /\ dlt d (DFin 1 100) = Ok true.

(** The same for a nullable column; NULL is in range. *)
Definition columna_en_rango (x : option Decimal) : Prop :=
  match x with
  | Some d => en_rango d
  | None => True
  end.

(** A temporary employee with a base salary of 1E+308. *)
Definition emp_enorme : Empleado :=
  mkEmpleado 9 "Marta" "Ruiz" TEMPORAL (mkdate 2024 1 10) ACTIVO
    (Some (DFin 1 308)) None None false.

(** * More of the repositories, the service and its callers *)

(** ** [app/repositories/nomina_repository.py] and [empleado_repository.py] *)

(** [NominaRepository.get_by_periodo(id_periodo, skip, limit)]: the query
    has no ORDER BY; rows come in table order, as in [get_all_activos]. *)
Definition get_by_periodo (bd : BD) (id_periodo : Z) (skip limit : nat) : list Nomina :=
  firstn limit (skipn skip (filter (fun n => n_id_periodo n =? id_periodo) (nominas bd))).

(** [NominaRepository.count_by_periodo] *)
Definition count_by_periodo (bd : BD) (id_periodo : Z) : nat :=
  List.length (filter (fun n => n_id_periodo n =? id_periodo) (nominas bd)).

(** [EmpleadoRepository.count_activos] *)
Definition count_activos (bd : BD) : nat :=
  List.length (filter es_activo (empleados bd)).

(** [NominaRepository.delete(id)]: [db.delete(obj)] and commit.  The
    relationships [bonos], [beneficios], [deducciones] and [auditorias] of
    the model [Nomina] cascade with "all, delete-orphan" (and the foreign
    keys with ON DELETE CASCADE): the rows of the four tables that belong
    to the payroll go with it. *)
Definition nomina_delete (bd : BD) (id : Z) : BD * bool :=
  match nomina_get_by_id bd id with
  | Some obj =>
      (mkBD (empleados bd) (periodos bd)
         (filter (fun n => negb (id_nomina n =? id_nomina obj)) (nominas bd))
         (filter (no_es_de (id_nomina obj)) (bonos bd))
         (filter (no_es_de (id_nomina obj)) (beneficios bd))
         (filter (no_es_de (id_nomina obj)) (deducciones bd))
         (filter (fun a => negb (a_id_nomina a =? id_nomina obj)) (auditorias bd))
         (sig_id_nomina bd),
       true)
  | None => (bd, false)
  end.

(** [date.replace(year=y)]: ValueError ([None]) when the year is outside
    [1, 9999] or the day does not exist in that year. *)
Definition date_replace_year (d : date) (y : Z) : option date :=
  let d' := mkdate y (month d) (day d) in
  if (1 <=? y) && (y <=? 9999) && fecha_valida d' then Some d' else None.

(** [EmpleadoRepository.get_con_antiguedad_mayor_a(anios, tipo_empleado)];
    [date.today()] is the argument [hoy], [None] is the ValueError of
    [date.replace]. *)
Definition get_con_antiguedad_mayor_a (hoy : date) (bd : BD) (anios : Z)
    (tipo_empleado : option string) : option (list Empleado) :=
  match date_replace_year hoy (year hoy - anios) with
  | None => None
  | Some fecha_limite =>
      let query :=
        filter (fun e => date_leb (fecha_ingreso e) fecha_limite && es_activo e)
               (empleados bd) in
      Some (match tipo_empleado with
            | Some t => filter (fun e => String.eqb (nombre_tipo e) t) query
            | None => query
            end)
  end.

(** ** [app/schemas/nomina.py]: the validator of [NominaCreate] *)

Inductive error_validador : Type :=
| ValueError
| InvalidOperationValidador.

(** [NominaCreate.validar_no_negativo(v)]: [v < 0] on a NaN raises
    InvalidOperation. *)
Definition validar_no_negativo (v : option Decimal) : Decimal + error_validador :=
  match v with
  | None => inl dzero
  | Some d =>
      match dlt d dzero with
      | Raise _ => inr InvalidOperationValidador
      | Ok true => inr ValueError
      | Ok false => inl (if dtruthy d then d else dzero)
      end
  end.

(** ** [app/services/nomina_service.py], continued *)

(** [NominaService.obtener_nomina_detallada] *)
Definition obtener_nomina_detallada (bd : BD) (id_nomina : Z) : option Nomina :=
  nomina_get_by_id bd id_nomina.

(** [NominaService.listar_nominas_periodo] *)
Definition listar_nominas_periodo (bd : BD) (id_periodo : Z) (skip limit : nat) : list Nomina :=
  get_by_periodo bd id_periodo skip limit.

(** [NominaService.eliminar_nomina]: the audit entry is committed first,
    then the repository deletes the payroll. *)
Definition eliminar_nomina (bd : BD) (id : Z) (usuario : string) : BD * resultado bool :=
  match nomina_get_by_id bd id with
  | None => (bd, Ok false)
  | Some nomina =>
      match periodo_get_by_id bd (n_id_periodo nomina) with
      | None => (bd, Raise AttributeError)
      | Some periodo =>
          if esta_cerrado periodo
          then (bd, Raise (PeriodoCerradoException (n_id_periodo nomina)))
          else
            let auditoria := mkAuditoria (id_nomina nomina) "ELIMINAR" usuario
              "Nómina eliminada"
              (Some [("salario_bruto", float_of_decimal (salario_bruto nomina));
                     ("salario_neto", float_of_decimal (salario_neto nomina))])
              None in
            let bd1 := mkBD (empleados bd) (periodos bd) (nominas bd) (bonos bd)
                         (beneficios bd) (deducciones bd)
                         (auditorias bd ++ [auditoria]) (sig_id_nomina bd) in
            let '(bd2, eliminado) := nomina_delete bd1 id in
            (bd2, Ok eliminado)
      end
  end.

(** A number of the summary dictionary: the literal [0] of the empty case
    is an [int], the sums are [float]s. *)
Inductive numero : Type :=
| Entero (z : Z)
| Flotante (f : float).

Record resumen : Type := mkResumen {
  r_periodo_id : Z;
  r_total_nominas : Z;
  r_total_salario_bruto : numero;
  r_total_salario_neto : numero;
  r_total_bonos : numero;
  r_total_beneficios : numero;
  r_total_deducciones : numero;
  r_promedio_salario_neto : option float
}.

Section Resumen.

(** The builtin [sum] over floats.  Its algorithm depends on the
    interpreter (plain left-to-right addition up to Python 3.11,
    compensated summation from 3.12 on); the summary is modelled for any. *)
Variable sum : list float -> float.

(** [NominaService.obtener_resumen_periodo]: [get_by_periodo] is called
    with its defaults, [skip=0] and [limit=100]. *)
Definition obtener_resumen_periodo (bd : BD) (id_periodo : Z) : resumen :=
  let nominas := get_by_periodo bd id_periodo 0 100 in
  match nominas with
  | [] => mkResumen id_periodo 0 (Entero 0) (Entero 0) (Entero 0) (Entero 0) (Entero 0) None
  | _ :: _ =>
      let total f := sum (map (fun n => float_of_decimal (f n)) nominas) in
      mkResumen id_periodo (Z.of_nat (List.length nominas))
        (Flotante (total salario_bruto)) (Flotante (total salario_neto))
        (Flotante (total total_bonos)) (Flotante (total total_beneficios))
        (Flotante (total total_deducciones))
        (Some (fdiv (total salario_neto) (float_of_Z (Z.of_nat (List.length nominas)))))
  end.

End Resumen.

(** ** [app/api/endpoints/nomina.py]: what the endpoints answer *)

(** What the body of a [try] raises in an endpoint: an exception coming
    out of the service, or FastAPI's [HTTPException] with its status. *)
Inductive lanzada : Type :=
| DelServicio (e : excepcion)
| HTTPException (status_code : Z).

(** The classes named by the [except] clauses. *)
Inductive clase : Type :=
| C_EmpleadoNoEncontradoException
| C_PeriodoNoEncontradoException
| C_PeriodoCerradoException
| C_SalarioNegativoException
| C_NominaException
| C_Exception.

(** [isinstance(e, NominaException)]: the exceptions of
    [app/utils/exceptions.py] all derive from it; TypeError,
    AttributeError and decimal.InvalidOperation do not. *)
Definition es_NominaException (e : excepcion) : bool :=
  match e with
  | TypeError | AttributeError | InvalidOperation => false
  | _ => true
  end.

Definition isinstance (x : lanzada) (c : clase) : bool :=
  match c, x with
  | C_Exception, _ => true
  | C_NominaException, DelServicio e => es_NominaException e
  | C_EmpleadoNoEncontradoException, DelServicio (EmpleadoNoEncontradoException _) => true
  | C_PeriodoNoEncontradoException, DelServicio (PeriodoNoEncontradoException _) => true
  | C_PeriodoCerradoException, DelServicio (PeriodoCerradoException _) => true
  | C_SalarioNegativoException, DelServicio (SalarioNegativoException _ _) => true
  | _, _ => false
  end.

(** [try: ... except C1: raise HTTPException(s1) except C2: ...]: the
    first clause whose class matches handles the exception; with no match
    it propagates. *)
Fixpoint try_except {A : Type} (cuerpo : A + lanzada) (clausulas : list (clase * Z))
    : A + lanzada :=
  match cuerpo with
  | inl a => inl a
  | inr x =>
      match clausulas with
      | [] => inr x
      | (c, status) :: resto =>
          if isinstance x c then inr (HTTPException status)
          else try_except (inr x) resto
      end
  end.

(** The status code of the response: the one declared by the route when
    the function returns, the one of the [HTTPException] raised, and 500
    for any other exception. *)
Definition status_de {A : Type} (declarado : Z) (r : A + lanzada) : Z :=
  match r with
  | inl _ => declarado
  | inr (HTTPException s) => s
  | inr (DelServicio _) => 500
  end.

Definition subir {A : Type} (r : resultado A) : A + lanzada :=
  match r with
  | Ok a => inl a
  | Raise e => inr (DelServicio e)
  end.

(** [POST /calcular] *)
Definition ep_calcular_nomina (hoy : date) (bd : BD) (nomina_data : NominaCreate)
    (usuario : string) : BD * Z :=
  let '(bd', r) := calcular_y_crear_nomina hoy bd nomina_data usuario in
  (bd', status_de 201
          (try_except (subir r)
             [(C_EmpleadoNoEncontradoException, 404);
              (C_PeriodoNoEncontradoException, 404);
              (C_PeriodoCerradoException, 400);
              (C_SalarioNegativoException, 400);
              (C_NominaException, 400);
              (C_Exception, 500)])).

(** [POST /calcular-periodo] *)
Definition ep_calcular_nominas_periodo (hoy : date) (bd : BD) (id_periodo : Z)
    (usuario : string) : BD * Z :=
  let '(bd', r) := calcular_nominas_periodo hoy bd id_periodo usuario in
  (bd', status_de 200
          (try_except (subir r)
             [(C_PeriodoNoEncontradoException, 404);
              (C_PeriodoCerradoException, 400);
              (C_Exception, 500)])).

(** [PUT /{id_nomina}] *)
Definition ep_recalcular_nomina (hoy : date) (bd : BD) (id_nomina : Z)
    (nomina_update : NominaUpdate) (usuario : string) : BD * Z :=
  let '(bd', r) := recalcular_nomina hoy bd id_nomina nomina_update usuario in
  (bd', status_de 200
          (try_except (subir r)
             [(C_NominaException, 400);
              (C_PeriodoCerradoException, 400);
              (C_SalarioNegativoException, 400);
              (C_Exception, 500)])).

(** [DELETE /{id_nomina}]: the 404 is raised inside the [try]. *)
Definition ep_eliminar_nomina (bd : BD) (id_nomina : Z) (usuario : string) : BD * Z :=
  let '(bd', r) := eliminar_nomina bd id_nomina usuario in
  let cuerpo : unit + lanzada :=
    match subir r with
    | inl eliminado => if negb eliminado then inr (HTTPException 404) else inl tt
    | inr x => inr x
    end in
  (bd', status_de 204
          (try_except cuerpo
             [(C_PeriodoCerradoException, 400);
              (C_Exception, 500)])).

(** ** Definitions of the statements about them *)

(** The (employee, period) pair of a payroll. *)
Definition par_de (n : Nomina) : Z * Z := (n_id_empleado n, n_id_periodo n).

Definition par_eqb (a b : Z * Z) : bool := (fst a =? fst b) && (snd a =? snd b).

(** No element occurs twice. *)
Fixpoint sin_repetidos {A : Type} (eqb : A -> A -> bool) (l : list A) : bool :=
  match l with
  | [] => true
  | x :: r => negb (existsb (eqb x) r) && sin_repetidos eqb r
  end.

(** A well-formed store: payroll ids are below the counter of the next id
    and pairwise distinct, the rows of the detail and audit tables refer to
    ids below the counter, and no two payrolls share their (employee,
    period) pair. *)
Definition bd_ok (bd : BD) : bool :=
  forallb (fun n => id_nomina n <? sig_id_nomina bd) (nominas bd)
  && forallb (fun f => fst f <? sig_id_nomina bd) (bonos bd)
  && forallb (fun f => fst f <? sig_id_nomina bd) (beneficios bd)
  && forallb (fun f => fst f <? sig_id_nomina bd) (deducciones bd)
  && forallb (fun a => a_id_nomina a <? sig_id_nomina bd) (auditorias bd)
  && sin_repetidos Z.eqb (map id_nomina (nominas bd))
  && sin_repetidos par_eqb (map par_de (nominas bd)).

(** An empty store with one hourly employee and one open period. *)
Definition bd_nueva : BD :=
  mkBD [emp_por_horas] [mkPeriodo 1 2024 6 ABIERTO] [] [] [] [] [] 1.

(** The store after the creation of the example payroll on [bd_nueva],
    and the payroll created. *)
Definition bd_creada : BD :=
  Eval vm_compute in fst (calcular_y_crear_nomina hoy_ej bd_nueva datos_ej "ana").

Definition nomina_creada : Nomina :=
  Eval vm_compute in
    match snd (calcular_y_crear_nomina hoy_ej bd_nueva datos_ej "ana") with
    | Ok n => n
    | Raise _ => nomina_ej
    end.

(** The audit entries that refer to payroll [id]. *)
Definition auditorias_de (id : Z) (t : list AuditoriaNomina) : list AuditoriaNomina :=
  filter (fun a => a_id_nomina a =? id) t.

(** The data the batch builds for an employee. *)
Definition datos_lote (e : Empleado) (id_periodo : Z) : NominaCreate :=
  mkNominaCreate (id_empleado e) id_periodo (Some dzero) (Some dzero) (Some dzero).

(** A payroll as the batch creates it: of the period, with no hours and no
    sales. *)
Definition nomina_de_lote (id_periodo : Z) (n : Nomina) : Prop :=
  n_id_periodo n = id_periodo /\ horas_trabajadas n = dzero /\ horas_extras n = dzero
  /\ ventas_realizadas n = dzero.

(** The store a batch run leaves on [bd_nueva]. *)
Definition bd_lote : BD :=
  Eval vm_compute in fst (calcular_nominas_periodo hoy_ej bd_nueva 1 "ana").

(** The creation fails for an employee on every store that has the
    employees and periods of [bd] and no payroll for the pair. *)
Definition falla_en_todas (hoy : date) (bd : BD) (e : Empleado) (idp : Z) : Prop :=
  forall bdx usr,
    empleados bdx = empleados bd -> periodos bdx = periodos bd ->
    exists_nomina bdx (id_empleado e) idp = false ->
    exists ex, calcular_y_crear_nomina hoy bdx (datos_lote e idp) usr = (bdx, Raise ex).

(** An ASALARIADO employee hired in 2018 whose base salary is NULL, alone
    in a store with one open period. *)
Definition emp_sin_salario : Empleado :=
  mkEmpleado 4 "Rosa" "Diaz" ASALARIADO (mkdate 2018 1 15) ACTIVO None None None false.

Definition bd_sin_salario : BD :=
  mkBD [emp_sin_salario] [mkPeriodo 1 2024 6 ABIERTO] [] [] [] [] [] 1.

(** An employee hired on 29 February 2020. *)
Definition emp_bisiesto : Empleado :=
  mkEmpleado 6 "Elena" "Mora" ASALARIADO (mkdate 2020 2 29) ACTIVO
    (Some (DFin 300000000 (-2))) None None false.

Definition bd_bisiesto : BD :=
  mkBD [emp_bisiesto] [mkPeriodo 1 2025 2 ABIERTO] [] [] [] [] [] 1.

(** The type is one of the four the engine supports. *)
Definition tipo_soportado (e : Empleado) : bool :=
  String.eqb (nombre_tipo e) ASALARIADO || String.eqb (nombre_tipo e) POR_HORAS
  || String.eqb (nombre_tipo e) POR_COMISION || String.eqb (nombre_tipo e) TEMPORAL.

(** The salaried employee whose bonus cannot be computed: NULL base
    salary and at least five years of tenure. *)
Definition sin_base_con_antiguedad (hoy : date) (e : Empleado) : Prop :=
  nombre_tipo e = ASALARIADO /\ salario_base e = None
  /\ 5 <= calcular_anio_antiguedad (fecha_ingreso e) hoy.

(** The hourly employee in the savings fund: a year of tenure, and the
    fund accepted. *)
Definition en_fondo_ahorro (hoy : date) (e : Empleado) : bool :=
  String.eqb (nombre_tipo e) POR_HORAS
  && ((calcular_anio_antiguedad (fecha_ingreso e) hoy >=? anio_PARA_FONDO_AHORRO)
      && acepta_fondo_ahorro e).

(** The rate of the deductions of an employee, as a fraction of the gross
    salary: 4 percent and 0.522 percent, and 2 percent more in the savings
    fund. *)
Definition tasa_deducciones (hoy : date) (e : Empleado) : R :=
  if en_fondo_ahorro hoy e then (6522 / 100000)%R else (4522 / 100000)%R.

(** * Theorems *)

(** ** The bulk processor *)

Lemma procesar_empleado_cuentas hoy idp usr bd r e bd' r' :
  procesar_empleado hoy idp usr (bd, r) e = (bd', r') ->
  (exists x, nominas_exitosas r' = (nominas_exitosas r ++ [x])%list
             /\ ex_empleado_id x = id_empleado e
             /\ nominas_fallidas r' = nominas_fallidas r
             /\ total_exitosas r' = total_exitosas r + 1
             /\ total_fallidas r' = total_fallidas r)
  \/ (exists f, nominas_fallidas r' = (nominas_fallidas r ++ [f])%list
             /\ fa_empleado_id f = id_empleado e
             /\ nominas_exitosas r' = nominas_exitosas r
             /\ total_exitosas r' = total_exitosas r
             /\ total_fallidas r' = total_fallidas r + 1).
Proof.
  unfold procesar_empleado.
  destruct (exists_nomina bd (id_empleado e) idp).
  - intros H; inversion H; subst; clear H. right. eexists; repeat split; reflexivity.
  - destruct (calcular_y_crear_nomina hoy bd _ usr) as [bd1 [n | ex]];
      intros H; inversion H; subst; clear H.
    + left. eexists; repeat split; reflexivity.
    + right. eexists; repeat split; reflexivity.
Qed.

Lemma procesar_empleado_fijos hoy idp usr st e :
  total_empleados (snd (procesar_empleado hoy idp usr st e)) = total_empleados (snd st)
  /\ periodo_id (snd (procesar_empleado hoy idp usr st e)) = periodo_id (snd st).
Proof.
  destruct st as [bd r]. unfold procesar_empleado.
  destruct (exists_nomina bd (id_empleado e) idp); [split; reflexivity|].
  destruct (calcular_y_crear_nomina hoy bd _ usr) as [bd1 [n | ex]]; split; reflexivity.
Qed.

(** The loop accounts for every employee it is given, once: the ids of the
    two detail lists are those already recorded plus the ids of the
    employees, and the counters follow the lists. *)
Lemma bucle_cuentas hoy idp usr (l : list Empleado) : forall bd r bd' r',
  fold_left (procesar_empleado hoy idp usr) l (bd, r) = (bd', r') ->
  Permutation (ids_detalle r') (ids_detalle r ++ map id_empleado l)
  /\ total_exitosas r' - total_exitosas r
     = Z.of_nat (List.length (nominas_exitosas r')) - Z.of_nat (List.length (nominas_exitosas r))
  /\ total_fallidas r' - total_fallidas r
     = Z.of_nat (List.length (nominas_fallidas r')) - Z.of_nat (List.length (nominas_fallidas r))
  /\ total_empleados r' = total_empleados r.
Proof.
  induction l as [|e l IH]; intros bd r bd' r' H; cbn [fold_left] in H.
  - inversion H; subst. rewrite app_nil_r. repeat split; try lia. apply Permutation_refl.
  - destruct (procesar_empleado hoy idp usr (bd, r) e) as [bd1 r1] eqn:E.
    pose proof (procesar_empleado_fijos hoy idp usr (bd, r) e) as [Ht _].
    rewrite E in Ht; simpl in Ht.
    destruct (IH _ _ _ _ H) as (P & Hx & Hf & Hn).
    apply procesar_empleado_cuentas in E.
    assert (P1 : Permutation (ids_detalle r1) (ids_detalle r ++ [id_empleado e])).
    { unfold ids_detalle.
      destruct E as [(x & Ex & Ix & Ef & _) | (f & Ef & If & Ex & _)]; rewrite Ex, Ef.
      - rewrite map_app; simpl. rewrite Ix. rewrite <- !app_assoc.
        apply Permutation_app_head. apply Permutation_app_comm.
      - rewrite map_app; simpl. rewrite If. rewrite app_assoc.
        apply Permutation_refl. }
    split; [|split; [|split]].
    + eapply perm_trans; [exact P|].
      simpl. replace (id_empleado e :: map id_empleado l)
        with ([id_empleado e] ++ map id_empleado l)%list by reflexivity.
      rewrite app_assoc. apply Permutation_app_tail. exact P1.
    + destruct E as [(x & Ex & _ & _ & Tx & _) | (f & _ & _ & Ex & Tx & _)];
        rewrite Ex in Hx; try rewrite length_app in Hx; simpl in Hx; lia.
    + destruct E as [(x & _ & _ & Ef & _ & Tf) | (f & Ef & _ & _ & _ & Tf)];
        rewrite Ef in Hf; try rewrite length_app in Hf; simpl in Hf; lia.
    + congruence.
Qed.

(** On an existing open period the batch returns, and accounts for exactly
    the employees [get_all_activos] hands it: the first 100 active ones. *)
Lemma calcular_nominas_periodo_procesa hoy bd idp usr per :
  periodo_get_by_id bd idp = Some per ->
  esta_cerrado per = false ->
  exists bd' r,
    calcular_nominas_periodo hoy bd idp usr = (bd', Ok r)
    /\ total_empleados r = Z.of_nat (List.length (get_all_activos bd 0 100))
    /\ Permutation (ids_detalle r) (map id_empleado (get_all_activos bd 0 100))
    /\ total_exitosas r = Z.of_nat (List.length (nominas_exitosas r))
    /\ total_fallidas r = Z.of_nat (List.length (nominas_fallidas r))
    /\ total_exitosas r + total_fallidas r = total_empleados r.
Proof.
  intros Hp Hc. unfold calcular_nominas_periodo. rewrite Hp, Hc.
  set (l := get_all_activos bd 0 100).
  set (r0 := mkResultados idp (Z.of_nat (List.length l)) [] [] 0 0).
  destruct (fold_left (procesar_empleado hoy idp usr) l (bd, r0)) as [bd' r] eqn:E.
  exists bd', r. destruct (bucle_cuentas _ _ _ _ _ _ _ _ E) as (P & Hx & Hf & Hn).
  simpl in *. assert (Hl := Permutation_length P).
  unfold ids_detalle in Hl. rewrite length_app, !length_map in Hl.
  repeat split; try assumption; try lia.
Qed.

(** C1: evaluated at 101 ACTIVE employees and one open period, the batch
    reports a total of 100, and the 101st active employee is in neither
    detail list.  The docstring of [calcular_nominas_periodo] promises the
    payrolls of all active employees; [get_all_activos] is called with its
    default limit of 100. *)
Theorem C1_lote_trunca_a_100 :
  List.length (filter es_activo (empleados bd_101)) = 101%nat
  /\ In (emp_temporal 101) (filter es_activo (empleados bd_101))
  /\ exists bd' r,
       calcular_nominas_periodo hoy_ej bd_101 1 "SYSTEM" = (bd', Ok r)
       /\ total_empleados r = 100
       /\ total_exitosas r + total_fallidas r = 100
       /\ ~ In 101 (ids_detalle r).
Proof.
  split; [reflexivity|]. split.
  { vm_compute. do 100 right. left. reflexivity. }
  destruct (calcular_nominas_periodo_procesa hoy_ej bd_101 1 "SYSTEM"
              (mkPeriodo 1 2024 6 ABIERTO) eq_refl eq_refl)
    as (bd' & r & E & Ht & P & _ & _ & Hs).
  exists bd', r. split; [exact E|]. split; [rewrite Ht; reflexivity|].
  split; [rewrite Hs, Ht; reflexivity|].
  intro Hin. apply (Permutation_in _ P) in Hin.
  assert (F : forallb (fun x => x <=? 100)
                (map id_empleado (get_all_activos bd_101 0 100)) = true)
    by (vm_compute; reflexivity).
  rewrite forallb_forall in F. specialize (F _ Hin). discriminate F.
Qed.

(** ** Creation on an existing payroll *)

(** C8, as the code has it: when the employee and the period resolve and a
    payroll already exists for the pair, [calcular_y_crear_nomina] leaves
    the whole database as it was; it raises PeriodoCerradoException when the
    period is closed (the check comes first), and otherwise the duplicate
    error, whose details carry the id of the existing payroll. *)
Theorem C8_crear_duplicada_sin_escrituras hoy bd datos usr emp per n :
  empleado_get_by_id bd (nc_id_empleado datos) = Some emp ->
  periodo_get_by_id bd (nc_id_periodo datos) = Some per ->
  get_by_empleado_periodo bd (nc_id_empleado datos) (nc_id_periodo datos) = Some n ->
  calcular_y_crear_nomina hoy bd datos usr
  = (bd, Raise (if esta_cerrado per
                then PeriodoCerradoException (nc_id_periodo datos)
                else NominaDuplicada (nc_id_empleado datos) (nc_id_periodo datos)
                       (id_nomina n))).
Proof.
  intros He Hp Hn. unfold calcular_y_crear_nomina. rewrite He, Hp.
  destruct (esta_cerrado per); [reflexivity|]. rewrite Hn. reflexivity.
Qed.

Lemma C8_crear_duplicada_testigo :
  calcular_y_crear_nomina hoy_ej bd_abierta datos_ej "SYSTEM"
  = (bd_abierta, Raise (NominaDuplicada 3 1 1)).
Proof.
  exact (C8_crear_duplicada_sin_escrituras hoy_ej bd_abierta datos_ej "SYSTEM"
           emp_por_horas (mkPeriodo 1 2024 6 ABIERTO) nomina_ej
           eq_refl eq_refl eq_refl).
Defined.

(** C8 as stated fails: a payroll exists for the pair (3, 1) and its period
    is closed; creation raises PeriodoCerradoException, not the duplicate
    error. *)
Lemma C8_contraejemplo_periodo_cerrado :
  get_by_empleado_periodo bd_cerrada 3 1 = Some nomina_ej
  /\ calcular_y_crear_nomina hoy_ej bd_cerrada datos_ej "SYSTEM"
     = (bd_cerrada, Raise (PeriodoCerradoException 1))
  /\ PeriodoCerradoException 1 <> NominaDuplicada 3 1 1.
Proof. repeat split. discriminate. Qed.

(** ** Recalculation *)

Lemma find_reemplazar (n : Nomina) (l : list Nomina) m :
  find (fun x => id_nomina x =? id_nomina n) l = Some m ->
  find (fun x => id_nomina x =? id_nomina n) (reemplazar_nomina n l) = Some n.
Proof.
  induction l as [|x l IH]; simpl; [discriminate|].
  destruct (id_nomina x =? id_nomina n) eqn:E.
  - intros _. simpl. rewrite Z.eqb_refl. reflexivity.
  - intros H. simpl. rewrite E. auto.
Qed.

Lemma reemplazar_idem (n : Nomina) (l : list Nomina) :
  reemplazar_nomina n (reemplazar_nomina n l) = reemplazar_nomina n l.
Proof.
  unfold reemplazar_nomina. rewrite map_map. apply map_ext. intros x.
  destruct (id_nomina x =? id_nomina n) eqn:E; [rewrite Z.eqb_refl | rewrite E]; reflexivity.
Qed.

Lemma filtrar_filas id (d : detalles) : filter (no_es_de id) (filas id d) = [].
Proof.
  induction d as [|kv d IH]; simpl; [reflexivity|].
  unfold no_es_de at 1; simpl. rewrite Z.eqb_refl. exact IH.
Qed.

Lemma reinsertar_idem id (t : list fila_detalle) (d : detalles) :
  (filter (no_es_de id) (filter (no_es_de id) t ++ filas id d) ++ filas id d
   = filter (no_es_de id) t ++ filas id d)%list.
Proof.
  rewrite filter_app, filtrar_filas, app_nil_r.
  f_equal. induction t as [|f t IH]; simpl; [reflexivity|].
  destruct (no_es_de id f) eqn:E; simpl; [rewrite E|]; congruence.
Qed.

Lemma find_id_nomina (l : list Nomina) id n :
  find (fun x => id_nomina x =? id) l = Some n -> id_nomina n = id.
Proof.
  intros H. apply find_some in H. destruct H as [_ H]. apply Z.eqb_eq in H. exact H.
Qed.

(** C9: when a recalculation of payroll [id] succeeds, a second one with
    the same update, actor and date succeeds as well; it returns the same
    payroll record, leaves the stored payrolls and the three detail tables
    exactly as the first call left them, and each of the two calls appends
    exactly one audit entry, with action RECALCULAR. *)
Theorem C9_recalcular_idempotente hoy bd id upd usr bd1 n1 :
  recalcular_nomina hoy bd id upd usr = (bd1, Ok n1) ->
  exists bd2 a1 a2,
    recalcular_nomina hoy bd1 id upd usr = (bd2, Ok n1)
    /\ nominas bd2 = nominas bd1
    /\ bonos bd2 = bonos bd1
    /\ beneficios bd2 = beneficios bd1
    /\ deducciones bd2 = deducciones bd1
    /\ auditorias bd1 = (auditorias bd ++ [a1])%list
    /\ auditorias bd2 = (auditorias bd1 ++ [a2])%list
    /\ accion a1 = "RECALCULAR" /\ accion a2 = "RECALCULAR"
    /\ a_id_nomina a1 = id /\ a_id_nomina a2 = id.
Proof.
  unfold recalcular_nomina at 1.
  destruct (nomina_get_by_id bd id) as [n|] eqn:Hn; [|intros H; inversion H].
  destruct (periodo_get_by_id bd (n_id_periodo n)) as [per|] eqn:Hp; [|intros H; inversion H].
  destruct (esta_cerrado per) eqn:Hc; [intros H; inversion H|].
  destruct (empleado_get_by_id bd (n_id_empleado n)) as [emp|] eqn:He; [|intros H; inversion H].
  destruct (calcular_nomina_completa hoy emp _ _ _) as [c|ex] eqn:Hcalc; [|intros H; inversion H].
  intros H; inversion H; subst bd1 n1; clear H.
  pose proof (find_id_nomina _ _ _ Hn) as Hid. subst id.
  unfold recalcular_nomina, nomina_get_by_id, periodo_get_by_id, empleado_get_by_id.
  cbn [nominas periodos empleados].
  unfold nomina_get_by_id in Hn.
  match goal with |- context [reemplazar_nomina ?n' (nominas bd)] => set (n1 := n') end.
  assert (F : find (fun x => id_nomina x =? id_nomina n) (reemplazar_nomina n1 (nominas bd))
              = Some n1).
  { change (id_nomina n) with (id_nomina n1) in Hn |- *. eapply find_reemplazar. exact Hn. }
  rewrite F. cbn [n_id_periodo n_id_empleado n1].
  unfold periodo_get_by_id in Hp. rewrite Hp, Hc.
  unfold empleado_get_by_id in He. rewrite He.
  cbn [horas_trabajadas horas_extras ventas_realizadas n1].
  assert (A : forall o d, actualizar o (actualizar o d) = actualizar o d)
    by (intros [v|] d; reflexivity).
  rewrite !A, Hcalc.
  cbn [bonos beneficios deducciones auditorias sig_id_nomina id_nomina n1
       salario_bruto salario_neto].
  do 3 eexists. split.
  { rewrite reemplazar_idem, !reinsertar_idem. reflexivity. }
  cbn [nominas bonos beneficios deducciones auditorias accion a_id_nomina].
  repeat split; reflexivity.
Qed.

Lemma C9_recalcular_testigo :
  recalcular_nomina hoy_ej bd_abierta 1 update_ej "ana"
  = (bd_recalculada, Ok nomina_recalculada)
  /\ exists bd2 a1 a2,
    recalcular_nomina hoy_ej bd_recalculada 1 update_ej "ana" = (bd2, Ok nomina_recalculada)
    /\ nominas bd2 = nominas bd_recalculada
    /\ bonos bd2 = bonos bd_recalculada
    /\ beneficios bd2 = beneficios bd_recalculada
    /\ deducciones bd2 = deducciones bd_recalculada
    /\ auditorias bd_recalculada = (auditorias bd_abierta ++ [a1])%list
    /\ auditorias bd2 = (auditorias bd_recalculada ++ [a2])%list
    /\ accion a1 = "RECALCULAR" /\ accion a2 = "RECALCULAR"
    /\ a_id_nomina a1 = 1 /\ a_id_nomina a2 = 1.
Proof.
  assert (E : recalcular_nomina hoy_ej bd_abierta 1 update_ej "ana"
              = (bd_recalculada, Ok nomina_recalculada)) by (vm_compute; reflexivity).
  split; [exact E|].
  exact (C9_recalcular_idempotente hoy_ej bd_abierta 1 update_ej "ana"
           bd_recalculada nomina_recalculada E).
Defined.

(** ** Signs through the float helpers *)






Lemma div_half_even_nonneg a b : 0 <= a -> 0 < b -> 0 <= div_half_even a b.
Proof.
  intros Ha Hb. unfold div_half_even.
  assert (0 <= a / b) by (apply Z.div_pos; lia).
  destruct (2 * (a mod b) ?= b); [destruct (Z.even (a / b))| |]; lia.
Qed.








Lemma dadd_finito_izq c e y : exists z, dadd (DFin c e) y = Ok z.
Proof. destruct y; simpl; eauto. Qed.


Arguments calcular_porcentaje : simpl never.
Arguments redondear_decimal : simpl never.
Arguments float_of_decimal : simpl never.
Arguments calcular_anio_antiguedad : simpl never.
Arguments dadd : simpl never.
Arguments dmul : simpl never.
Arguments dlt : simpl never.


(** ** Deductions *)


(** ** Bonuses *)

Lemma dgt_limite_entero n :
  dgt (DFin n 0) COMISION_VENTAS_LIMITE = Ok (20000000 <? n).
Proof.
  unfold dgt, dlt, dcompare, COMISION_VENTAS_LIMITE. cbn [Z.min Z.compare].
  replace (2000000000 * 10 ^ (-2 - -2)) with 2000000000 by reflexivity.
  replace (n * 10 ^ (0 - -2)) with (n * 100) by reflexivity.
  destruct (20000000 <? n) eqn:E.
  - apply Z.ltb_lt in E. assert (H : (2000000000 ?= n * 100) = Lt) by (apply Z.compare_lt_iff; lia).
    rewrite H. reflexivity.
  - apply Z.ltb_ge in E. destruct (2000000000 ?= n * 100) eqn:H; try reflexivity.
    rewrite Z.compare_lt_iff in H. exfalso; lia.
Qed.

(** C7: the sales bonus.  For a POR_COMISION employee the only bonus line is
    BONO_VENTAS, 3.00 percent of the sales (the amount the percentage helper
    returns), present exactly when the sales are strictly above 20,000,000;
    at exactly 20,000,000 there is no line, at 20,000,001 the line is
    600,000.03.  For an employee of any other type no result of
    [calcular_bonos] has a BONO_VENTAS line. *)
Theorem C7_bono_ventas hoy e v supera :
  dgt v COMISION_VENTAS_LIMITE = Ok supera ->
  (nombre_tipo e = POR_COMISION ->
   if supera then
     exists total,
       dadd dzero (calcular_porcentaje (float_of_decimal v)
                     (float_of_decimal BONO_VENTAS_PORCENTAJE)) = Ok total
       /\ calcular_bonos hoy e v
          = Ok (total,
                [("BONO_VENTAS",
                  mkDetalle "BONO_VENTAS" "Bono por ventas superiores a $20,000,000"
                    (calcular_porcentaje (float_of_decimal v)
                       (float_of_decimal BONO_VENTAS_PORCENTAJE))
                    (Some BONO_VENTAS_PORCENTAJE) None)])
   else calcular_bonos hoy e v = Ok (dzero, []))
  /\ (nombre_tipo e <> POR_COMISION ->
      forall total lineas, calcular_bonos hoy e v = Ok (total, lineas) ->
      buscar "BONO_VENTAS" lineas = None)
  /\ BONO_VENTAS_PORCENTAJE = DFin 300 (-2)
  /\ (forall n, dgt (DFin n 0) COMISION_VENTAS_LIMITE = Ok (20000000 <? n))
  /\ calcular_bonos hoy emp_comision (DFin 20000000 0) = Ok (dzero, [])
  /\ calcular_porcentaje (float_of_decimal (DFin 20000001 0))
       (float_of_decimal BONO_VENTAS_PORCENTAJE) = DFin 60000003 (-2).
Proof.
  intros Hs. split; [|split; [|split; [reflexivity|split; [exact dgt_limite_entero|split]]]].
  - intros Ht. unfold calcular_bonos. rewrite Ht. cbn [String.eqb Ascii.eqb Bool.eqb POR_COMISION ASALARIADO bind].
    rewrite Hs. cbn [bind]. destruct supera; [|reflexivity].
    destruct (dadd_finito_izq 0 0 (calcular_porcentaje (float_of_decimal v)
                (float_of_decimal BONO_VENTAS_PORCENTAJE))) as [t Ht'].
    exists t. split; [exact Ht'|]. fold dzero in Ht'. rewrite Ht'. reflexivity.
  - intros Ht total lineas. unfold calcular_bonos.
    apply String.eqb_neq in Ht. rewrite Ht.
    destruct (String.eqb (nombre_tipo e) ASALARIADO).
    + destruct (_ >=? _).
      * destruct (float_de_columna (salario_base e)) as [b|ex]; cbn [bind]; [|discriminate].
        destruct (dadd dzero _) as [t|ex]; cbn [bind]; [|discriminate].
        intros H; inversion H; subst. reflexivity.
      * cbn [bind]. intros H; inversion H; subst. reflexivity.
    + cbn [bind]. intros H; inversion H; subst. reflexivity.
  - vm_compute. reflexivity.
  - vm_compute. reflexivity.
Qed.

Lemma C7_bono_ventas_testigo :
  dgt (DFin 20000001 0) COMISION_VENTAS_LIMITE = Ok true
  /\ nombre_tipo emp_comision = POR_COMISION
  /\ exists total,
       dadd dzero (calcular_porcentaje (float_of_decimal (DFin 20000001 0))
                     (float_of_decimal BONO_VENTAS_PORCENTAJE)) = Ok total
       /\ calcular_bonos hoy_ej emp_comision (DFin 20000001 0)
          = Ok (total,
                [("BONO_VENTAS",
                  mkDetalle "BONO_VENTAS" "Bono por ventas superiores a $20,000,000"
                    (calcular_porcentaje (float_of_decimal (DFin 20000001 0))
                       (float_of_decimal BONO_VENTAS_PORCENTAJE))
                    (Some BONO_VENTAS_PORCENTAJE) None)]).
Proof.
  split; [reflexivity|]. split; [reflexivity|].
  exact (proj1 (C7_bono_ventas hoy_ej emp_comision (DFin 20000001 0) true eq_refl) eq_refl).
Defined.

(** ** Tenure *)

Ltac Zify.zify_post_hook ::= Z.to_euclidean_division_equations.

(** Adding [M] months lands in the month numbered [12 * year + month - 1 + M]. *)
Lemma rd_radd_set_months M dt :
  1 <= month dt <= 12 ->
  let t := 12 * year dt + (month dt - 1) + M in
  rd_radd (set_months M) dt
  = mkdate (t / 12) (t mod 12 + 1)
      (Z.min (dias_del_mes (t / 12) (t mod 12 + 1)) (day dt)).
Proof.
  intros Hm t. subst t. unfold rd_radd, set_months.
  destruct (Z.abs M >? 11) eqn:A; cbn [rd_years rd_months].
  - destruct (M <? 0) eqn:S.
    + apply Z.ltb_lt in S.
      destruct (M * -1 mod 12 * -1 =? 0) eqn:Z0.
      * apply Z.eqb_eq in Z0.
        replace ((12 * year dt + (month dt - 1) + M) / 12) with (year dt + M * -1 / 12 * -1) by lia.
        replace ((12 * year dt + (month dt - 1) + M) mod 12 + 1) with (month dt) by lia.
        reflexivity.
      * apply Z.eqb_neq in Z0.
        destruct (month dt + M * -1 mod 12 * -1 >? 12) eqn:G; [exfalso; lia|].
        destruct (month dt + M * -1 mod 12 * -1 <? 1) eqn:L.
        -- apply Z.ltb_lt in L.
           replace ((12 * year dt + (month dt - 1) + M) / 12)
             with (year dt + M * -1 / 12 * -1 - 1) by lia.
           replace ((12 * year dt + (month dt - 1) + M) mod 12 + 1)
             with (month dt + M * -1 mod 12 * -1 + 12) by lia.
           reflexivity.
        -- apply Z.ltb_ge in L.
           replace ((12 * year dt + (month dt - 1) + M) / 12)
             with (year dt + M * -1 / 12 * -1) by lia.
           replace ((12 * year dt + (month dt - 1) + M) mod 12 + 1)
             with (month dt + M * -1 mod 12 * -1) by lia.
           reflexivity.
    + apply Z.ltb_ge in S.
      destruct (M * 1 mod 12 * 1 =? 0) eqn:Z0.
      * apply Z.eqb_eq in Z0.
        replace ((12 * year dt + (month dt - 1) + M) / 12) with (year dt + M * 1 / 12 * 1) by lia.
        replace ((12 * year dt + (month dt - 1) + M) mod 12 + 1) with (month dt) by lia.
        reflexivity.
      * apply Z.eqb_neq in Z0.
        destruct (month dt + M * 1 mod 12 * 1 >? 12) eqn:G.
        -- apply Z.gtb_lt in G.
           replace ((12 * year dt + (month dt - 1) + M) / 12)
             with (year dt + M * 1 / 12 * 1 + 1) by lia.
           replace ((12 * year dt + (month dt - 1) + M) mod 12 + 1)
             with (month dt + M * 1 mod 12 * 1 - 12) by lia.
           reflexivity.
        -- destruct (month dt + M * 1 mod 12 * 1 <? 1) eqn:L; [exfalso; lia|].
           assert (G' : month dt + M * 1 mod 12 * 1 <= 12).
           { destruct (Z.gtb_spec (month dt + M * 1 mod 12 * 1) 12); [discriminate|lia]. }
           replace ((12 * year dt + (month dt - 1) + M) / 12)
             with (year dt + M * 1 / 12 * 1) by lia.
           replace ((12 * year dt + (month dt - 1) + M) mod 12 + 1)
             with (month dt + M * 1 mod 12 * 1) by lia.
           reflexivity.
  - assert (A' : -11 <= M <= 11).
    { destruct (Z.gtb_spec (Z.abs M) 11); [discriminate|lia]. }
    destruct (M =? 0) eqn:Z0.
    + apply Z.eqb_eq in Z0. subst M.
      replace ((12 * year dt + (month dt - 1) + 0) / 12) with (year dt + 0) by lia.
      replace ((12 * year dt + (month dt - 1) + 0) mod 12 + 1) with (month dt) by lia.
      reflexivity.
    + destruct (month dt + M >? 12) eqn:G.
      * apply Z.gtb_lt in G.
        replace ((12 * year dt + (month dt - 1) + M) / 12) with (year dt + 0 + 1) by lia.
        replace ((12 * year dt + (month dt - 1) + M) mod 12 + 1) with (month dt + M - 12) by lia.
        reflexivity.
      * assert (G' : month dt + M <= 12).
        { destruct (Z.gtb_spec (month dt + M) 12); [discriminate|lia]. }
        destruct (month dt + M <? 1) eqn:L.
        -- apply Z.ltb_lt in L.
           replace ((12 * year dt + (month dt - 1) + M) / 12) with (year dt + 0 - 1) by lia.
           replace ((12 * year dt + (month dt - 1) + M) mod 12 + 1) with (month dt + M + 12) by lia.
           reflexivity.
        -- apply Z.ltb_ge in L.
           replace ((12 * year dt + (month dt - 1) + M) / 12) with (year dt + 0) by lia.
           replace ((12 * year dt + (month dt - 1) + M) mod 12 + 1) with (month dt + M) by lia.
           reflexivity.
Qed.

Lemma date_ltb_iff a b :
  date_ltb a b = true
  <-> year a < year b
      \/ (year a = year b
          /\ (month a < month b \/ (month a = month b /\ day a < day b))).
Proof.
  unfold date_ltb.
  destruct (Z.ltb_spec (year a) (year b)), (Z.eqb_spec (year a) (year b)),
    (Z.ltb_spec (month a) (month b)), (Z.eqb_spec (month a) (month b)),
    (Z.ltb_spec (day a) (day b)); cbn; split; intros; try lia; try reflexivity;
    try discriminate.
Qed.

Lemma date_ltb_false_iff a b :
  date_ltb a b = false
  <-> ~ (year a < year b
         \/ (year a = year b
             /\ (month a < month b \/ (month a = month b /\ day a < day b)))).
Proof.
  rewrite <- date_ltb_iff. destruct (date_ltb a b); split; intros; congruence.
Qed.

Lemma fecha_valida_iff d :
  fecha_valida d = true
  <-> 1 <= month d <= 12 /\ 1 <= day d <= dias_del_mes (year d) (month d).
Proof.
  unfold fecha_valida. rewrite !andb_true_iff, !Z.leb_le. lia.
Qed.

(** The adjustment loop of [relativedelta] stops after at most one step. *)
Lemma rd_ajustar_un_paso f dt1 dt2 atras :
  1 <= month dt1 <= 12 -> 1 <= month dt2 <= 12 ->
  let M0 := (year dt1 - year dt2) * 12 + (month dt1 - month dt2) in
  let dtm := mkdate (year dt1) (month dt1)
               (Z.min (dias_del_mes (year dt1) (month dt1)) (day dt2)) in
  rd_ajustar (S (S f)) dt1 dt2 atras M0
  = if atras then (if date_ltb dtm dt1 then M0 + 1 else M0)
    else (if date_ltb dt1 dtm then M0 - 1 else M0).
Proof.
  intros H1 H2 M0 dtm.
  assert (E0 : rd_radd (set_months M0) dt2 = dtm).
  { rewrite (rd_radd_set_months M0 dt2 H2). unfold dtm, M0. cbv zeta.
    replace ((12 * year dt2 + (month dt2 - 1)
              + ((year dt1 - year dt2) * 12 + (month dt1 - month dt2))) / 12)
      with (year dt1) by lia.
    replace ((12 * year dt2 + (month dt2 - 1)
              + ((year dt1 - year dt2) * 12 + (month dt1 - month dt2))) mod 12 + 1)
      with (month dt1) by lia.
    reflexivity. }
  cbn [rd_ajustar]. rewrite E0. destruct atras.
  - destruct (date_ltb dtm dt1); [|reflexivity].
    rewrite (rd_radd_set_months (M0 + 1) dt2 H2). cbv zeta.
    match goal with |- (if date_ltb ?x dt1 then _ else _) = _ =>
      assert (E : date_ltb x dt1 = false) end.
    { apply date_ltb_false_iff. cbn [year month day]. unfold M0. lia. }
    rewrite E. reflexivity.
  - destruct (date_ltb dt1 dtm); [|reflexivity].
    rewrite (rd_radd_set_months (M0 - 1) dt2 H2). cbv zeta.
    match goal with |- (if date_ltb dt1 ?x then _ else _) = _ =>
      assert (E : date_ltb dt1 x = false) end.
    { apply date_ltb_false_iff. cbn [year month day]. unfold M0. lia. }
    rewrite E. reflexivity.
Qed.

(** Tenure counts whole years and is aware of month and day: it reaches
    [n] exactly from the [n]-th anniversary of the hire date on. *)
Lemma antiguedad_aniversario ingreso referencia n :
  fecha_valida ingreso = true -> fecha_valida referencia = true -> 1 <= n ->
  (n <= calcular_anios_antiguedad ingreso referencia
   <-> date_leb (aniversario n ingreso) referencia = true).
Proof.
  intros Vi Vr Hn. apply fecha_valida_iff in Vi, Vr.
  destruct Vi as [Mi Di], Vr as [Mr Dr].
  unfold calcular_anios_antiguedad, relativedelta_entre.
  rewrite (rd_ajustar_un_paso 10 referencia ingreso _ Mr Mi). cbv zeta.
  unfold date_leb, aniversario, rd_radd. cbn [rd_years rd_months Z.eqb].
  rewrite negb_true_iff, date_ltb_false_iff. cbn [year month day].
  destruct ingreso as [y2 m2 d2], referencia as [y1 m1 d1]. cbn [year month day] in *.
  destruct (date_ltb (mkdate y1 m1 d1) (mkdate y2 m2 d2)) eqn:A;
    [apply date_ltb_iff in A | apply date_ltb_false_iff in A]; cbn [year month day] in A;
    (destruct (date_ltb _ _) eqn:B;
     [apply date_ltb_iff in B | apply date_ltb_false_iff in B]; cbn [year month day] in B);
    unfold set_months;
    (destruct (Z.abs _ >? 11) eqn:C; cbn [rd_years]; [destruct (_ <? 0) eqn:S|]);
    try lia;
    (destruct (Z.eq_dec y1 (y2 + n)) as [->|]; [destruct (Z.eq_dec m1 m2) as [->|]|]; lia).
Qed.



(** With the salary column NULL and five years of tenure the bonus
    computation stops on [float(None)]. *)
Lemma bono_antiguedad_sin_salario hoy e v :
  nombre_tipo e = ASALARIADO -> salario_base e = None ->
  5 <= calcular_anio_antiguedad (fecha_ingreso e) hoy ->
  calcular_bonos hoy e v = Raise TypeError.
Proof.
  intros Ht Hb H5. unfold calcular_bonos. rewrite Ht, Hb.
  cbn [String.eqb Ascii.eqb Bool.eqb POR_COMISION ASALARIADO].
  unfold anio_PARA_BONO_ANTIGUEDAD.
  assert (G : (calcular_anio_antiguedad (fecha_ingreso e) hoy >=? 5) = true)
    by (apply Z.geb_le; exact H5).
  rewrite G. reflexivity.
Qed.

(** ** Gross salary by the hour *)




(** ** The full calculation *)

(** The four steps run in order: the first one that raises decides the
    exception of [calcular_nomina_completa]. *)
Lemma nomina_completa_orden hoy e h x v :
  (forall ex, calcular_salario_bruto e h x v = Raise ex ->
              calcular_nomina_completa hoy e h x v = Raise ex)
  /\ (forall bruto ex, calcular_salario_bruto e h x v = Ok bruto ->
        calcular_bonos hoy e v = Raise ex ->
        calcular_nomina_completa hoy e h x v = Raise ex)
  /\ (forall bruto tb ex, calcular_salario_bruto e h x v = Ok bruto ->
        calcular_bonos hoy e v = Ok tb ->
        calcular_beneficios hoy e = Raise ex ->
        calcular_nomina_completa hoy e h x v = Raise ex)
  /\ (forall bruto tb tben ex, calcular_salario_bruto e h x v = Ok bruto ->
        calcular_bonos hoy e v = Ok tb ->
        calcular_beneficios hoy e = Ok tben ->
        calcular_deducciones hoy e bruto = Raise ex ->
        calcular_nomina_completa hoy e h x v = Raise ex).
Proof.
  unfold calcular_nomina_completa. repeat split.
  - intros ex ->. reflexivity.
  - intros b ex ->. cbn [bind]. intros ->. reflexivity.
  - intros b [tb db] ex ->. cbn [bind]. intros ->. cbn [bind]. intros ->. reflexivity.
  - intros b [tb db] [tben dben] ex ->. cbn [bind]. intros ->. cbn [bind]. intros ->.
    cbn [bind]. intros ->. reflexivity.
Qed.

(** C2: when the four steps return (gross; bonuses from the sales;
    benefits; deductions from the gross), the net is
    gross + total_bonos + total_beneficios - total_deducciones in Decimal
    arithmetic; [calcular_nomina_completa] raises SalarioNegativoException
    when that net is below zero, and returns no result then; otherwise it
    returns the five totals and the three collections of lines. *)
Theorem C2_nomina_completa hoy e h x v bruto tb db tben dben tded dded s1 s2 neto :
  calcular_salario_bruto e h x v = Ok bruto ->
  calcular_bonos hoy e v = Ok (tb, db) ->
  calcular_beneficios hoy e = Ok (tben, dben) ->
  calcular_deducciones hoy e bruto = Ok (tded, dded) ->
  dadd bruto tb = Ok s1 -> dadd s1 tben = Ok s2 -> dsub s2 tded = Ok neto ->
  (dlt neto dzero = Ok true ->
   calcular_nomina_completa hoy e h x v
   = Raise (SalarioNegativoException (float_of_decimal neto) (id_empleado e)))
  /\ (dlt neto dzero = Ok false ->
      calcular_nomina_completa hoy e h x v
      = Ok (mkCalculo bruto tb tben tded neto db dben dded))
  /\ (forall c, calcular_nomina_completa hoy e h x v = Ok c ->
        dlt neto dzero = Ok false /\ c_salario_neto c = neto)
  /\ (forall f i, calcular_nomina_completa hoy e h x v = Raise (SalarioNegativoException f i) ->
        dlt neto dzero = Ok true).
Proof.
  intros Hb Hbo Hbe Hd A1 A2 A3.
  assert (U : calcular_nomina_completa hoy e h x v
              = (negativo <- dlt neto dzero ;;
                 if negativo
                 then Raise (SalarioNegativoException (float_of_decimal neto) (id_empleado e))
                 else Ok (mkCalculo bruto tb tben tded neto db dben dded))).
  { unfold calcular_nomina_completa. rewrite Hb. cbn [bind]. rewrite Hbo. cbn [bind].
    rewrite Hbe. cbn [bind]. rewrite Hd. cbn [bind]. rewrite A1. cbn [bind].
    rewrite A2. cbn [bind]. rewrite A3. reflexivity. }
  rewrite U. split; [|split; [|split]].
  - intros ->. reflexivity.
  - intros ->. reflexivity.
  - intros c H. destruct (dlt neto dzero) as [[|]|ex]; cbn [bind] in H; try discriminate.
    inversion H. split; reflexivity.
  - intros f i H. destruct (dlt neto dzero) as [[|]|ex] eqn:E; cbn [bind] in H;
      try discriminate.
    + reflexivity.
    + exfalso. unfold dlt in E. destruct (dcompare neto dzero) as [[| |]|];
        inversion E; subst ex; discriminate.
Qed.

(** The end-to-end scenario of the specification: 160 hours and 10 overtime
    hours at 25000 give a gross of 4,375,000, deductions of 285,337.50 and a
    net of 4,089,662.50. *)
Lemma C2_nomina_completa_testigo :
  calcular_nomina_completa hoy_ej emp_por_horas (DFin 160 0) (DFin 10 0) dzero
  = Ok calculo_ej
  /\ c_salario_bruto calculo_ej = DFin 43750000 (-1)
  /\ c_total_deducciones calculo_ej = DFin 2853375 (-1)
  /\ c_salario_neto calculo_ej = DFin 40896625 (-1).
Proof.
  split; [|repeat split].
  refine (proj1 (proj2 (C2_nomina_completa hoy_ej emp_por_horas (DFin 160 0) (DFin 10 0) dzero
            (c_salario_bruto calculo_ej) (c_total_bonos calculo_ej)
            (c_detalles_bonos calculo_ej) (c_total_beneficios calculo_ej)
            (c_detalles_beneficios calculo_ej) (c_total_deducciones calculo_ej)
            (c_detalles_deducciones calculo_ej)
            (DFin 43750000 (-1)) (DFin 43750000 (-1)) (c_salario_neto calculo_ej)
            _ _ _ _ _ _ _)) _); vm_compute; reflexivity.
Defined.

(** ** Rounding *)

(** C3 as stated fails, twice.  A quarter of an hour at 10.70 is 2.6750;
    half-even on that amount gives 2.68, the code returns 2.67 (the binary64
    nearest to 2.675 lies below it).  A base salary of 0.01 with a commission
    of 1.00 percent on sales of 12.50 is 0.135; half-even at the final step
    gives 0.14, the code rounds the commission term alone (0.125 to 0.12) and
    returns 0.13. *)
Lemma C3_contraejemplo :
  dmul (DFin 25 (-2)) (DFin 1070 (-2)) = Ok (DFin 26750 (-4))
  /\ spec_redondeo_half_even (DFin 26750 (-4)) = DFin 268 (-2)
  /\ calcular_salario_bruto emp_horas_1070 (DFin 25 (-2)) dzero dzero = Ok (DFin 267 (-2))
  /\ spec_redondeo_half_even (DFin 135 (-3)) = DFin 14 (-2)
  /\ calcular_salario_bruto emp_comision_centavo dzero dzero (DFin 1250 (-2))
     = Ok (DFin 13 (-2)).
Proof. repeat split; vm_compute; reflexivity. Qed.

Lemma div_half_even_cercano a b :
  0 < b ->
  Z.abs (2 * a - 2 * div_half_even a b * b) <= b
  /\ (Z.abs (2 * a - 2 * div_half_even a b * b) = b -> Z.even (div_half_even a b) = true).
Proof.
  intros Hb. unfold div_half_even.
  pose proof (Z.div_mod a b ltac:(lia)) as E.
  pose proof (Z.mod_pos_bound a b Hb) as R.
  set (q := a / b) in *. set (r := a mod b) in *.
  destruct (2 * r ?= b) eqn:C.
  - apply Z.compare_eq_iff in C. destruct (Z.even q) eqn:Q.
    + split; [nia|]. intros _. exact Q.
    + split; [nia|]. intros _. rewrite Z.even_add, Q. reflexivity.
  - rewrite Z.compare_lt_iff in C. split; [nia|]. intros K. exfalso. nia.
  - rewrite Z.compare_gt_iff in C. split; [nia|]. intros K. exfalso. nia.
Qed.

(** C3, as the code has it.  [round(x, 2)] on a float with a fractional part
    takes the whole number of cents [k] nearest to the exact binary value
    (ties to the even [k]) and returns the float nearest to [k / 100].  Each
    percentage amount and the POR_HORAS gross pass through that rounding
    once, at the end of their own computation; the salaried and temporary
    gross is the stored base salary, the commission gross is the base salary
    plus the rounded commission, and the food benefit is a constant. *)
Theorem C3_redondeo :
  (forall s m e, e < 0 ->
     let k := div_half_even (Zpos m * 100) (2 ^ (- e)) in
     0 <= k
     /\ round2 (S754_finite s m e)
        = (if k =? 0 then S754_zero s else float_of_ratio (if s then - k else k) 100)
     /\ Z.abs (2 * (Zpos m * 100) - 2 * k * 2 ^ (- e)) <= 2 ^ (- e)
     /\ (Z.abs (2 * (Zpos m * 100) - 2 * k * 2 ^ (- e)) = 2 ^ (- e) -> Z.even k = true))
  /\ (forall s m e, 0 <= e -> round2 (S754_finite s m e) = S754_finite s m e)
  /\ (forall valor porcentaje,
        calcular_porcentaje valor porcentaje
        = decimal_of_str_float (round2 (fdiv (fmul valor porcentaje) (float_of_Z 100))))
  /\ (forall e h x v bruto,
        nombre_tipo e = POR_HORAS -> calcular_salario_bruto e h x v = Ok bruto ->
        exists suma, bruto = decimal_of_str_float (round2 (float_of_decimal suma)))
  /\ (forall e h x v,
        nombre_tipo e = ASALARIADO \/ nombre_tipo e = TEMPORAL ->
        calcular_salario_bruto e h x v = Ok (decimal_or_0 (salario_base e)))
  /\ (forall e h x v bruto,
        nombre_tipo e = POR_COMISION -> calcular_salario_bruto e h x v = Ok bruto ->
        dadd (decimal_or_0 (salario_base e))
             (calcular_porcentaje (float_of_decimal v)
                (float_of_decimal (decimal_or_0 (porcentaje_comision e)))) = Ok bruto)
  /\ (forall hoy e total lineas,
        calcular_beneficios hoy e = Ok (total, lineas) ->
        forall k d, In (k, d) lineas -> monto d = DFin 100000000 (-2)).
Proof.
  split; [|split; [|split; [|split; [|split; [|split]]]]].
  - intros s m e He k.
    assert (P : 0 < 2 ^ (- e)) by (apply Z.pow_pos_nonneg; lia).
    split; [apply div_half_even_nonneg; lia|]. split.
    + unfold round2. destruct (Z.leb_spec 0 e); [lia|]. reflexivity.
    + exact (div_half_even_cercano (Zpos m * 100) (2 ^ (- e)) P).
  - intros s m e He. unfold round2. destruct (Z.leb_spec 0 e); [reflexivity|lia].
  - reflexivity.
  - intros e h x v bruto Ht. unfold calcular_salario_bruto. rewrite Ht.
    cbn [String.eqb Ascii.eqb Bool.eqb POR_HORAS ASALARIADO].
    unfold _calcular_por_horas.
    destruct (dlt h dzero) as [[|]|]; cbn [bind]; try discriminate.
    destruct (dlt x dzero) as [[|]|]; cbn [bind]; try discriminate.
    destruct (dmul h _) as [pn|]; cbn [bind]; try discriminate.
    destruct (dmul x _) as [px|]; cbn [bind]; try discriminate.
    destruct (dmul px _) as [pe|]; cbn [bind]; try discriminate.
    destruct (dadd pn pe) as [suma|]; cbn [bind]; try discriminate.
    intros H; inversion H. exists suma. reflexivity.
  - intros e h x v [Ht|Ht]; unfold calcular_salario_bruto; rewrite Ht; reflexivity.
  - intros e h x v bruto Ht. unfold calcular_salario_bruto. rewrite Ht.
    cbn [String.eqb Ascii.eqb Bool.eqb POR_HORAS ASALARIADO POR_COMISION].
    unfold _calcular_por_comision.
    destruct (dlt v dzero) as [[|]|]; cbn [bind]; try discriminate.
    intros H; exact H.
  - intros hoy e total lineas. unfold calcular_beneficios.
    destruct (String.eqb (nombre_tipo e) ASALARIADO || String.eqb (nombre_tipo e) POR_COMISION).
    + destruct (dadd dzero BONO_ALIMENTACION) as [t|]; cbn [bind]; [|discriminate].
      destruct (String.eqb (nombre_tipo e) POR_HORAS).
      * destruct (_ && _); cbn [bind dgt dlt dcompare dzero]; intros H; inversion H; subst;
          intros k d [K|[]]; inversion K; subst; reflexivity.
      * intros H; inversion H; subst. intros k d [K|[]]; inversion K; subst; reflexivity.
    + cbn [bind]. destruct (String.eqb (nombre_tipo e) POR_HORAS).
      * destruct (_ && _); cbn [bind dgt dlt dcompare dzero]; intros H; inversion H; subst;
          intros k d [].
      * intros H; inversion H; subst. intros k d [].
Qed.

(** ** Net salary *)

(** *** Shifts and binary digits of the rounding of SpecFloat *)

Lemma shr_1_m r :
  0 <= shr_m r -> shr_m (shr_1 r) = shr_m r / 2 /\ 0 <= shr_m (shr_1 r).
Proof.
  destruct r as [m rb sb]. cbn [shr_m]. intros H.
  destruct m as [|[p|p|]|p]; cbn [shr_1 shr_m]; lia.
Qed.

Lemma iter_pos_shr_m p : forall r,
  0 <= shr_m r ->
  shr_m (iter_pos shr_1 p r) = shr_m r / 2 ^ Zpos p /\ 0 <= shr_m (iter_pos shr_1 p r).
Proof.
  induction p as [p IH|p IH|]; intros r H; cbn [iter_pos].
  - destruct (shr_1_m r H) as [E1 P1].
    destruct (IH _ P1) as [E2 P2]. destruct (IH _ P2) as [E3 P3].
    split; [|exact P3]. rewrite E3, E2, E1.
    assert (Q : 0 < 2 ^ Z.pos p) by (apply Z.pow_pos_nonneg; lia).
    rewrite !Z.div_div by lia.
    replace (Z.pos p~1) with (1 + Z.pos p + Z.pos p) by lia.
    rewrite !Z.pow_add_r by lia. f_equal. change (2 ^ 1) with 2. ring.
  - destruct (IH _ H) as [E2 P2]. destruct (IH _ P2) as [E3 P3].
    split; [|exact P3]. rewrite E3, E2.
    assert (Q : 0 < 2 ^ Z.pos p) by (apply Z.pow_pos_nonneg; lia).
    rewrite !Z.div_div by lia.
    replace (Z.pos p~0) with (Z.pos p + Z.pos p) by lia.
    rewrite !Z.pow_add_r by lia. reflexivity.
  - exact (shr_1_m r H).
Qed.

Lemma shr_spec mrs e n :
  0 <= shr_m mrs ->
  snd (shr mrs e n) = e + Z.max n 0
  /\ shr_m (fst (shr mrs e n)) = shr_m mrs / 2 ^ Z.max n 0
  /\ 0 <= shr_m (fst (shr mrs e n)).
Proof.
  intros H. destruct n as [|p|p]; cbn [shr fst snd].
  - rewrite Z.div_1_r. repeat split; lia.
  - destruct (iter_pos_shr_m p mrs H) as [E P]. repeat split; try lia; assumption.
  - rewrite Z.div_1_r. repeat split; lia.
Qed.

Lemma shr_record_of_loc_m m l : shr_m (shr_record_of_loc m l) = m.
Proof. destruct l as [|[| |]]; reflexivity. Qed.

Lemma round_nearest_even_rango m l :
  round_nearest_even m l = m \/ round_nearest_even m l = m + 1.
Proof.
  destruct l as [|[| |]]; cbn; auto. destruct (Z.even m); auto.
Qed.

Lemma digits2_pos_spec p :
  2 ^ (Zpos (digits2_pos p) - 1) <= Zpos p < 2 ^ Zpos (digits2_pos p).
Proof.
  induction p as [p IH|p IH|]; cbn [digits2_pos].
  - rewrite Pos2Z.inj_succ. replace (Z.succ (Z.pos (digits2_pos p)) - 1) with (Z.succ (Z.pos (digits2_pos p) - 1)) by lia.
    rewrite !Z.pow_succ_r by lia. lia.
  - rewrite Pos2Z.inj_succ. replace (Z.succ (Z.pos (digits2_pos p)) - 1) with (Z.succ (Z.pos (digits2_pos p) - 1)) by lia.
    rewrite !Z.pow_succ_r by lia. lia.
  - cbn. lia.
Qed.

Lemma Zdigits2_spec m :
  0 < m -> 0 < Zdigits2 m /\ 2 ^ (Zdigits2 m - 1) <= m < 2 ^ Zdigits2 m.
Proof.
  destruct m as [|p|p]; try lia. intros _. cbn [Zdigits2]. split; [lia|apply digits2_pos_spec].
Qed.

Lemma Zdigits2_0 : Zdigits2 0 = 0.
Proof. reflexivity. Qed.

Lemma Zdigits2_le m k : 0 <= m < 2 ^ k -> 0 <= k -> Zdigits2 m <= k.
Proof.
  intros [H0 H] Hk. destruct (Z.eq_dec m 0) as [->|N]; [cbn; lia|].
  destruct (Zdigits2_spec m ltac:(lia)) as [P [L U]].
  destruct (Z.le_gt_cases (Zdigits2 m) k) as [|G]; [assumption|exfalso].
  assert (2 ^ k <= 2 ^ (Zdigits2 m - 1)) by (apply Z.pow_le_mono_r; lia). lia.
Qed.

Lemma Zdigits2_ge m k : 2 ^ k <= m -> 0 <= k -> k + 1 <= Zdigits2 m.
Proof.
  intros H Hk. assert (0 < 2 ^ k) by (apply Z.pow_pos_nonneg; lia).
  destruct (Zdigits2_spec m ltac:(lia)) as [P [L U]].
  destruct (Z.le_gt_cases (k + 1) (Zdigits2 m)) as [|G]; [assumption|exfalso].
  assert (2 ^ Zdigits2 m <= 2 ^ k) by (apply Z.pow_le_mono_r; lia). lia.
Qed.

(** *** One rounding to binary64 *)

Lemma fexp_fexp64 t : fexp prec emax t = fexp64 t.
Proof. reflexivity. Qed.

(** [binary_round_aux] on a mantissa at or below the last place: the sign
    is kept and the result is within two units of the last place below and
    one above the exact value; an overflow needs an exponent at the top of
    the range. *)
Lemma bra_spec s m e l :
  0 <= m -> e <= fexp64 (Zdigits2 m + e) ->
  let fe := fexp64 (Zdigits2 m + e) in
  match binary_round_aux prec emax s m e l with
  | S754_zero s' => s' = s /\ m < 2 * 2 ^ (fe - e)
  | S754_finite s' m2 e2 =>
      s' = s /\ fe <= e2 <= 971
      /\ m - 2 * 2 ^ (fe - e) < Zpos m2 * 2 ^ (e2 - e) <= m + 2 ^ (fe - e)
  | S754_infinity s' => s' = s /\ 971 <= fe
  | S754_nan => False
  end.
Proof.
  intros Hm Hn fe.
  unfold binary_round_aux, shr_fexp. rewrite !fexp_fexp64. fold fe.
  set (n := fe - e). assert (Hn0 : 0 <= n) by (unfold n; lia).
  pose proof (shr_spec (shr_record_of_loc m l) e n) as S1.
  rewrite shr_record_of_loc_m in S1. specialize (S1 Hm).
  destruct (shr (shr_record_of_loc m l) e n) as [mrs1 e1]. cbn [fst snd] in S1.
  destruct S1 as (Ee1 & Em1 & Pm1).
  rewrite Z.max_l in Ee1, Em1 by lia.
  set (mr := round_nearest_even (shr_m mrs1) (loc_of_shr_record mrs1)).
  assert (Hmr : shr_m mrs1 <= mr <= shr_m mrs1 + 1).
  { destruct (round_nearest_even_rango (shr_m mrs1) (loc_of_shr_record mrs1)) as [E|E];
      fold mr in E; lia. }
  change (fexp prec emax (Zdigits2 mr + e1)) with (fexp64 (Zdigits2 mr + e1)).
  set (n2 := fexp64 (Zdigits2 mr + e1) - e1).
  pose proof (shr_spec (shr_record_of_loc mr loc_Exact) e1 n2) as S2.
  rewrite shr_record_of_loc_m in S2. specialize (S2 ltac:(lia)).
  destruct (shr (shr_record_of_loc mr loc_Exact) e1 n2) as [mrs2 e2]. cbn [fst snd] in S2.
  destruct S2 as (Ee2 & Em2 & Pm2).
  assert (PN : 0 < 2 ^ n) by (apply Z.pow_pos_nonneg; lia).
  set (d := Zdigits2 m) in *.
  assert (Hd : 0 <= d /\ m < 2 ^ d).
  { destruct (Z.eq_dec m 0) as [->|N0]; [cbn; lia|].
    destruct (Zdigits2_spec m ltac:(lia)) as [P [L U]]. fold d in P, U. lia. }
  assert (Hk2 : Z.max n2 0 <= 1).
  { destruct (Z.le_gt_cases n d) as [Hnd|Hnd].
    - assert (U : shr_m mrs1 < 2 ^ (d - n)).
      { rewrite Em1. apply Z.div_lt_upper_bound; [lia|].
        rewrite <- Z.pow_add_r by lia. replace (n + (d - n)) with d by lia. lia. }
      assert (D2 : Zdigits2 mr <= d - n + 1).
      { apply Zdigits2_le; [|lia]. rewrite Z.pow_add_r by lia. change (2 ^ 1) with 2.
        assert (0 < 2 ^ (d - n)) by (apply Z.pow_pos_nonneg; lia). lia. }
      unfold n2, fexp64. unfold fe, fexp64 in n. fold d in n. lia.
    - assert (U : shr_m mrs1 = 0).
      { rewrite Em1. apply Z.div_small. split; [lia|].
        assert (2 ^ d <= 2 ^ n) by (apply Z.pow_le_mono_r; lia). lia. }
      assert (D2 : Zdigits2 mr <= 1) by (apply Zdigits2_le; [change (2 ^ 1) with 2|]; lia).
      unfold n2, fexp64. unfold fe, fexp64 in n. fold d in n. unfold fe, fexp64 in Ee1. lia. }
  set (k2 := Z.max n2 0) in *.
  assert (Hk2' : 0 <= k2) by (unfold k2; lia).
  assert (PK : 2 ^ k2 = 1 \/ 2 ^ k2 = 2).
  { assert (k2 = 0 \/ k2 = 1) as [->| ->] by lia; [left|right]; reflexivity. }
  assert (Ex : 2 ^ (e2 - e) = 2 ^ n * 2 ^ k2).
  { replace (e2 - e) with (n + k2) by lia. apply Z.pow_add_r; lia. }
  assert (Efe : 2 ^ (fe - e) = 2 ^ n) by reflexivity.
  assert (B1 : shr_m mrs1 * 2 ^ n <= m < shr_m mrs1 * 2 ^ n + 2 ^ n).
  { rewrite Em1. pose proof (Z.div_mod m (2 ^ n) ltac:(lia)).
    pose proof (Z.mod_pos_bound m (2 ^ n) PN). nia. }
  assert (B2 : mr - 1 <= shr_m mrs2 * 2 ^ k2 <= mr).
  { rewrite Em2. pose proof (Z.div_mod mr (2 ^ k2) ltac:(lia)).
    pose proof (Z.mod_pos_bound mr (2 ^ k2) ltac:(lia)). nia. }
  cbv beta iota zeta. destruct (shr_m mrs2) as [|p|p] eqn:M2.
  - split; [reflexivity|]. fold n. nia.
  - destruct (Z.leb_spec e2 (emax - prec)) as [L|L]; change (emax - prec) with 971 in L.
    + split; [reflexivity|]. split; [lia|]. fold n. rewrite Ex. nia.
    + split; [reflexivity|]. lia.
  - lia.
Qed.

(** *** The error model over the reals *)

Lemma B2_pos e : (0 < B2 e)%R.
Proof. apply powerRZ_lt. lra. Qed.

Lemma B2_add a b : B2 (a + b) = (B2 a * B2 b)%R.
Proof. apply powerRZ_add. lra. Qed.

Lemma B2_Z k : 0 <= k -> IZR (2 ^ k) = B2 k.
Proof.
  intros H. unfold B2. rewrite <- (Z2Nat.id k H). rewrite <- pow_IZR, <- pow_powerRZ. reflexivity.
Qed.

Lemma B2_le a b : a <= b -> (B2 a <= B2 b)%R.
Proof.
  intros H. replace b with (a + (b - a)) by lia. rewrite B2_add.
  rewrite <- (B2_Z (b - a)) by lia.
  assert (1 <= 2 ^ (b - a)) by (assert (0 < 2 ^ (b - a)) by (apply Z.pow_pos_nonneg; lia); lia).
  apply IZR_le in H0. pose proof (B2_pos a). nra.
Qed.

Lemma fval_nonneg x : fnn x -> (0 <= fval x)%R.
Proof.
  destruct x as [s|s| |s m e]; cbn; try lra. intros ->.
  pose proof (B2_pos e). assert (0 < IZR (Z.pos m))%R by (apply IZR_lt; lia). nra.
Qed.

(** The same in the reals, with the unit of the last place bounded by the
    relative and the absolute error. *)
Lemma bra_error m e l :
  0 <= m -> e <= fexp64 (Zdigits2 m + e) ->
  let X := (IZR m * B2 e)%R in
  let r := binary_round_aux prec emax false m e l in
  (fnn r /\ (X - 2 * B2 (fexp64 (Zdigits2 m + e)) <= fval r <= X + B2 (fexp64 (Zdigits2 m + e)))%R
   /\ (B2 (fexp64 (Zdigits2 m + e)) <= X * eps + eta)%R)
  \/ (r = S754_infinity false /\ (B2 1023 <= X)%R).
Proof.
  intros Hm Hn X r.
  pose proof (bra_spec false m e l Hm Hn) as S. cbv zeta in S. fold r in S.
  set (fe := fexp64 (Zdigits2 m + e)) in *.
  assert (Hfe : (B2 fe = B2 (fe - e) * B2 e)%R).
  { rewrite <- B2_add. f_equal. lia. }
  assert (Pe := B2_pos e).
  assert (Hd : (B2 fe <= X * eps + eta)%R /\ (971 <= fe -> (B2 1023 <= X)%R)).
  { unfold eps, eta, X. destruct (Z.eq_dec m 0) as [->|N0].
    - cbn [Zdigits2] in *. unfold fexp64 in *. split.
      + replace fe with (-1074) by (unfold fe; lia). lra.
      + intros. exfalso. unfold fe in *. lia.
    - destruct (Zdigits2_spec m ltac:(lia)) as [P [L U]].
      set (d := Zdigits2 m) in *.
      assert (LR : (B2 (d - 1) <= IZR m)%R).
      { rewrite <- B2_Z by lia. apply IZR_le. exact L. }
      assert (LX : (B2 (d - 1 + e) <= IZR m * B2 e)%R).
      { rewrite B2_add. nra. }
      split.
      + unfold fe, fexp64. destruct (Z.max_spec (d + e - 53) (-1074)) as [[_ ->]|[_ ->]].
        * pose proof (B2_pos (-52)). pose proof (B2_pos (d - 1 + e)). nra.
        * replace (d + e - 53) with ((d - 1 + e) + -52) by lia. rewrite B2_add.
          pose proof (B2_pos (-1074)). pose proof (B2_pos (-52)). nra.
      + intros G. assert (1023 <= d - 1 + e) by (unfold fe, fexp64 in G; lia).
        pose proof (B2_le 1023 (d - 1 + e) ltac:(lia)). lra. }
  destruct Hd as [Hd Hov].
  destruct r as [s|s| |s m2 e2].
  - left. destruct S as [-> S]. split; [exact I|]. split; [|exact Hd].
    cbn [fval]. assert (S' := IZR_lt _ _ S). rewrite mult_IZR, B2_Z in S' by lia.
    pose proof (B2_pos (fe - e)). pose proof (IZR_le _ _ Hm). unfold X. rewrite Hfe. nra.
  - right. destruct S as [-> S]. split; [reflexivity|]. apply Hov. exact S.
  - contradiction.
  - left. destruct S as (-> & [E1 E2] & [L U]). split; [reflexivity|]. split; [|exact Hd].
    cbn [fval].
    assert (Ev : (IZR (Z.pos m2) * B2 e2 = IZR (Z.pos m2 * 2 ^ (e2 - e)) * B2 e)%R).
    { rewrite mult_IZR, B2_Z by lia. rewrite Rmult_assoc, <- B2_add. do 2 f_equal. lia. }
    apply IZR_lt in L. apply IZR_le in U.
    rewrite minus_IZR, mult_IZR, B2_Z in L by lia. rewrite plus_IZR, B2_Z in U by lia.
    pose proof (B2_pos (fe - e)). pose proof (IZR_le _ _ Hm).
    rewrite Rmult_1_l, Ev. unfold X. rewrite Hfe. nra.
Qed.

Lemma fexp64_mono a b : a <= b -> fexp64 a <= fexp64 b.
Proof. unfold fexp64. lia. Qed.

Lemma eps_eta_pos : (0 < eps /\ 0 < eta)%R.
Proof. split; apply B2_pos. Qed.

Lemma aprox_0 : aprox 0 0.
Proof. destruct eps_eta_pos. unfold aprox. lra. Qed.

Lemma aprox_o_fin Q r : aprox_o Q r -> (Q < B2 971)%R -> fnn r /\ aprox Q (fval r).
Proof. intros [H|[_ H]] L; [exact H|exfalso; lra]. Qed.

Lemma aprox_o_fnn Q r : aprox_o Q r -> fnn r -> aprox Q (fval r).
Proof. intros [[_ H]|[-> _]] F; [exact H|contradiction]. Qed.

Lemma aprox_exacto X : (0 <= X)%R -> aprox X X.
Proof. intros H. destruct eps_eta_pos. unfold aprox. split; nra. Qed.

(** From the bounds of the core rounding to the error model. *)
Lemma bra_aprox m e l (Q : R) :
  0 <= m -> e <= fexp64 (Zdigits2 m + e) ->
  (IZR m * B2 e <= Q < IZR m * B2 e + B2 e)%R ->
  aprox_o Q (binary_round_aux prec emax false m e l).
Proof.
  intros Hm Hn HQ.
  destruct (bra_error m e l Hm Hn) as [(F & B & D)|(E & O)].
  - left. split; [exact F|]. pose proof (B2_le _ _ Hn) as L.
    destruct eps_eta_pos. pose proof (B2_pos e).
    assert (0 <= IZR m)%R by (apply IZR_le; exact Hm).
    unfold aprox. split; nra.
  - right. split; [exact E|]. pose proof (B2_le 971 1023 ltac:(lia)). lra.
Qed.

(** With more room than needed the core rounding is exact. *)
Lemma bra_sin_desplazar m e :
  fexp64 (Zdigits2 (Zpos m) + e) < e ->
  binary_round_aux prec emax false (Zpos m) e loc_Exact
  = if e <=? 971 then S754_finite false m e else S754_infinity false.
Proof.
  intros H. unfold binary_round_aux, shr_fexp.
  assert (E : forall n, n < 0 ->
                shr (shr_record_of_loc (Z.pos m) loc_Exact) e n
                = (shr_record_of_loc (Z.pos m) loc_Exact, e)).
  { intros n Hneg. destruct n; try reflexivity; lia. }
  rewrite E by (rewrite fexp_fexp64; change IntDef.Z.sub with Z.sub;
                change IntDef.Z.add with Z.add; lia).
  cbn [shr_record_of_loc shr_m loc_of_shr_record round_nearest_even].
  rewrite E by (rewrite fexp_fexp64; change IntDef.Z.sub with Z.sub;
                change IntDef.Z.add with Z.add; lia).
  cbn [shr_record_of_loc shr_m]. reflexivity.
Qed.

Lemma bra_exacto_aprox m e :
  aprox_o (IZR (Zpos m) * B2 e) (binary_round_aux prec emax false (Zpos m) e loc_Exact).
Proof.
  pose proof (B2_pos e). assert (1 <= IZR (Zpos m))%R by (apply IZR_le; lia).
  destruct (Z.le_gt_cases e (fexp64 (Zdigits2 (Zpos m) + e))) as [Hn|Hn].
  - apply bra_aprox; try lia; try lra.
  - rewrite (bra_sin_desplazar m e Hn). destruct (Z.leb_spec e 971).
    + left. split; [reflexivity|]. cbn [fval]. rewrite Rmult_1_l. apply aprox_exacto. nra.
    + right. split; [reflexivity|]. pose proof (B2_le 971 e ltac:(lia)). nra.
Qed.

(** The float product of two finite non-negative floats. *)
Lemma fmul_error x y :
  fnn x -> fnn y -> aprox_o (fval x * fval y) (fmul x y).
Proof.
  intros Fx Fy.
  destruct x as [s|s| |s mx ex]; cbn [fnn] in Fx; try contradiction;
    destruct y as [t|t| |t my ey]; cbn [fnn] in Fy; try contradiction;
    try (left; cbn [fmul SFmul fnn fval]; split; [exact I|];
         rewrite ?Rmult_0_l, ?Rmult_0_r; apply aprox_0).
  subst s t. unfold fmul, SFmul. cbn [xorb].
  replace (fval (S754_finite false mx ex) * fval (S754_finite false my ey))%R
    with (IZR (Z.pos (mx * my)) * B2 (ex + ey))%R
    by (cbn [fval]; rewrite Pos2Z.inj_mul, mult_IZR, B2_add; ring).
  apply bra_exacto_aprox.
Qed.

Lemma shiftl_caso s m :
  0 <= s -> match s with Z.pos _ => Z.shiftl m s | 0 => m | Z.neg _ => 0 end = m * 2 ^ s.
Proof.
  intros H. destruct s as [|p|p]; [cbn; lia| |lia]. apply Z.shiftl_mul_pow2. lia.
Qed.

Lemma SFdiv_core_spec m1 e1 m2 e2 :
  0 < m1 -> 0 < m2 ->
  let '(q, e', l) := SFdiv_core_binary prec emax m1 e1 m2 e2 in
  0 <= q /\ e' <= e1 - e2 /\ e' <= fexp64 (Zdigits2 q + e')
  /\ q * m2 <= m1 * 2 ^ (e1 - e2 - e') < (q + 1) * m2.
Proof.
  intros H1 H2. unfold SFdiv_core_binary. rewrite fexp_fexp64.
  set (d1 := Zdigits2 m1). set (d2 := Zdigits2 m2).
  set (e' := Z.min (fexp64 (d1 + e1 - (d2 + e2))) (e1 - e2)).
  set (s := e1 - e2 - e'). assert (Hs : 0 <= s) by (unfold s, e'; lia).
  rewrite (shiftl_caso s m1 Hs). pose proof (Z_div_mod (m1 * 2 ^ s) m2 ltac:(lia)) as DM.
  destruct (Z.div_eucl (m1 * 2 ^ s) m2) as [q r]. destruct DM as [DM R].
  assert (Ps : 0 < 2 ^ s) by (apply Z.pow_pos_nonneg; lia).
  assert (Hq : 0 <= q) by nia.
  split; [exact Hq|]. split; [unfold e'; lia|]. split; [|fold s; nia].
  (* enough digits in the quotient *)
  destruct (Zdigits2_spec m1 H1) as [P1 [L1 U1]]. destruct (Zdigits2_spec m2 H2) as [P2 [L2 U2]].
  fold d1 in P1, L1, U1. fold d2 in P2, L2, U2.
  assert (Dq : d1 + s - d2 <= Zdigits2 q).
  { destruct (Z.le_gt_cases (d1 + s - d2) 0) as [|G].
    - destruct (Z.eq_dec q 0) as [->|]; [cbn; lia|].
      destruct (Zdigits2_spec q ltac:(lia)); lia.
    - replace (d1 + s - d2) with ((d1 + s - d2 - 1) + 1) by lia.
      apply Zdigits2_ge; [|lia].
      destruct (Z.le_gt_cases (2 ^ (d1 + s - d2 - 1)) q) as [|C]; [assumption|exfalso].
      assert (K : (q + 1) * m2 <= 2 ^ (d1 + s - d2 - 1) * m2) by nia.
      assert (K2 : 2 ^ (d1 + s - d2 - 1) * 2 ^ d2 = 2 ^ (d1 - 1) * 2 ^ s).
      { rewrite <- !Z.pow_add_r by lia. f_equal. lia. }
      assert (0 < 2 ^ (d1 + s - d2 - 1)) by (apply Z.pow_pos_nonneg; lia).
      nia. }
  apply Z.le_trans with (fexp64 (d1 + e1 - (d2 + e2))); [unfold e'; lia|].
  apply fexp64_mono. unfold s in Dq. lia.
Qed.

(** The float quotient of two finite positive floats. *)
Lemma SFdiv_error mx ex my ey :
  let x := S754_finite false mx ex in
  let y := S754_finite false my ey in
  aprox_o (fval x / fval y) (SFdiv prec emax x y).
Proof.
  intros x y. unfold x, y, SFdiv. cbn [xorb].
  pose proof (SFdiv_core_spec (Zpos mx) ex (Zpos my) ey ltac:(lia) ltac:(lia)) as S.
  destruct (SFdiv_core_binary prec emax (Z.pos mx) ex (Z.pos my) ey) as [[q e'] l].
  destruct S as (Hq & He & Hn & [L U]).
  set (Q := (fval x / fval y)%R) in *.
  assert (Py : (0 < fval y)%R).
  { unfold y. cbn [fval]. pose proof (B2_pos ey).
    assert (0 < IZR (Z.pos my))%R by (apply IZR_lt; lia). nra. }
  assert (EQ : (Q * fval y = fval x)%R) by (unfold Q; field; lra).
  assert (Es : (B2 ex = B2 (ex - ey - e') * B2 e' * B2 ey)%R).
  { rewrite <- !B2_add. f_equal. lia. }
  apply IZR_le in L. apply IZR_lt in U.
  rewrite !mult_IZR, B2_Z in L, U by lia. rewrite plus_IZR in U.
  assert (HQ : (IZR q * B2 e' <= Q < IZR q * B2 e' + B2 e')%R).
  { assert (EQ' : (Q * (IZR (Z.pos my) * B2 ey)
                   = IZR (Z.pos mx) * (B2 (ex - ey - e') * B2 e' * B2 ey))%R).
    { rewrite <- Es. unfold x, y in EQ. cbn [fval] in EQ. lra. }
    clear EQ. rename EQ' into EQ.
    pose proof (B2_pos e'). pose proof (B2_pos ey). pose proof (B2_pos (ex - ey - e')).
    assert (0 < IZR (Z.pos my))%R by (apply IZR_lt; lia).
    assert (0 < IZR (Z.pos my) * B2 ey)%R by nra.
    assert (0 < B2 e' * B2 ey)%R by nra.
    split.
    - apply (Rmult_le_reg_r (IZR (Z.pos my) * B2 ey)); [assumption|]. rewrite EQ.
      replace (IZR q * B2 e' * (IZR (Z.pos my) * B2 ey))%R
        with (IZR q * IZR (Z.pos my) * (B2 e' * B2 ey))%R by ring.
      replace (IZR (Z.pos mx) * (B2 (ex - ey - e') * B2 e' * B2 ey))%R
        with (IZR (Z.pos mx) * B2 (ex - ey - e') * (B2 e' * B2 ey))%R by ring.
      apply Rmult_le_compat_r; lra.
    - apply (Rmult_lt_reg_r (IZR (Z.pos my) * B2 ey)); [assumption|]. rewrite EQ.
      replace ((IZR q * B2 e' + B2 e') * (IZR (Z.pos my) * B2 ey))%R
        with ((IZR q + 1) * IZR (Z.pos my) * (B2 e' * B2 ey))%R by ring.
      replace (IZR (Z.pos mx) * (B2 (ex - ey - e') * B2 e' * B2 ey))%R
        with (IZR (Z.pos mx) * B2 (ex - ey - e') * (B2 e' * B2 ey))%R by ring.
      apply Rmult_lt_compat_r; lra. }
  apply bra_aprox; assumption.
Qed.

Lemma fdiv_error x my ey :
  fnn x ->
  aprox_o (fval x / fval (S754_finite false my ey)) (fdiv x (S754_finite false my ey)).
Proof.
  intros Fx. destruct x as [s|s| |s mx ex]; cbn [fnn] in Fx; try contradiction.
  - left. cbn [fdiv SFdiv fnn fval]. split; [exact I|]. unfold Rdiv. rewrite Rmult_0_l.
    apply aprox_0.
  - subst s. apply SFdiv_error.
Qed.

(** The float read from a quotient of integers. *)
Lemma float_of_ratio_error n d :
  0 <= n -> 0 < d -> aprox_o (IZR n / IZR d) (float_of_ratio n d).
Proof.
  intros Hn Hd. destruct n as [|p|p]; [| |lia].
  - left. cbn [float_of_ratio fnn fval]. split; [exact I|]. unfold Rdiv. rewrite Rmult_0_l.
    apply aprox_0.
  - cbn [float_of_ratio].
    replace (IZR (Z.pos p) / IZR d)%R
      with (fval (S754_finite false p 0) / fval (S754_finite false (Z.to_pos d) 0))%R.
    + apply SFdiv_error.
    + cbn [fval]. rewrite Z2Pos.id by lia. unfold B2. cbn [powerRZ]. field.
      apply not_0_IZR. lia.
Qed.

Lemma Zdigits2_mul_pow2 m k :
  0 < m -> 0 <= k -> Zdigits2 (m * 2 ^ k) = Zdigits2 m + k.
Proof.
  intros Hm Hk. destruct (Zdigits2_spec m Hm) as [P [L U]].
  assert (Pk : 0 < 2 ^ k) by (apply Z.pow_pos_nonneg; lia).
  apply Z.le_antisymm.
  - apply Zdigits2_le; [|lia]. rewrite Z.pow_add_r by lia. nia.
  - replace (Zdigits2 m + k) with ((Zdigits2 m - 1 + k) + 1) by lia.
    apply Zdigits2_ge; [|lia]. rewrite Z.pow_add_r by lia. nia.
Qed.

Lemma shl_align_spec mx ex ex' :
  let '(mz, ez) := shl_align mx ex ex' in
  ez = Z.min ex ex' /\ Zpos mz = Zpos mx * 2 ^ (ex - ez).
Proof.
  unfold shl_align. destruct (ex' - ex) as [|d|d] eqn:E.
  - split; [lia|]. replace (ex - ex) with 0 by lia. cbn. lia.
  - split; [lia|]. replace (ex - ex) with 0 by lia. cbn. lia.
  - split; [lia|]. change (Pos.iter xO mx d) with (shift_pos d mx).
    rewrite shift_pos_correct. replace (ex - ex') with (Z.pos d) by lia.
    rewrite Z.pow_pos_fold. lia.
Qed.

(** The float read from an integer. *)
Lemma float_of_Z_error n : 0 <= n -> aprox_o (IZR n) (float_of_Z n).
Proof.
  intros Hn. destruct n as [|m|m]; [| |lia].
  - left. cbn. split; [exact I|]. apply aprox_0.
  - unfold float_of_Z, binary_normalize, binary_round. rewrite fexp_fexp64.
    pose proof (shl_align_spec m 0 (fexp64 (Z.pos (digits2_pos m) + 0))) as S.
    destruct (shl_align m 0 (fexp64 (Z.pos (digits2_pos m) + 0))) as [mz ez].
    destruct S as [Ez Em].
    replace (IZR (Z.pos m)) with (IZR (Z.pos mz) * B2 ez)%R.
    + apply bra_exacto_aprox.
    + rewrite Em, mult_IZR, B2_Z by lia. rewrite Rmult_assoc, <- B2_add.
      replace (0 - ez + ez) with 0 by lia. unfold B2. cbn [powerRZ]. ring.
Qed.

(** *** Values of Decimals *)

Lemma B10_pos e : (0 < B10 e)%R.
Proof. apply powerRZ_lt. lra. Qed.

Lemma B10_add a b : B10 (a + b) = (B10 a * B10 b)%R.
Proof. apply powerRZ_add. lra. Qed.

Lemma B10_Z k : 0 <= k -> IZR (10 ^ k) = B10 k.
Proof.
  intros H. unfold B10. rewrite <- (Z2Nat.id k H). rewrite <- pow_IZR, <- pow_powerRZ. reflexivity.
Qed.

Lemma B10_le a b : a <= b -> (B10 a <= B10 b)%R.
Proof.
  intros H. replace b with (a + (b - a)) by lia. rewrite B10_add.
  rewrite <- (B10_Z (b - a)) by lia.
  assert (1 <= 10 ^ (b - a)) by (assert (0 < 10 ^ (b - a)) by (apply Z.pow_pos_nonneg; lia); lia).
  apply IZR_le in H0. pose proof (B10_pos a). nra.
Qed.

Lemma dval_nonneg d : dnn d -> (0 <= dval d)%R.
Proof.
  destruct d as [c e| |]; cbn; try contradiction. intros H.
  apply IZR_le in H. pose proof (B10_pos e). nra.
Qed.

Lemma digitos_aux_0 fuel : digitos_aux fuel 0 = 0.
Proof. destruct fuel; reflexivity. Qed.

Lemma digitos_aux_spec fuel : forall n,
  0 < n -> n < 2 ^ Z.of_nat fuel ->
  0 < digitos_aux fuel n /\ 10 ^ (digitos_aux fuel n - 1) <= n < 10 ^ digitos_aux fuel n.
Proof.
  induction fuel as [|f IH]; intros n Hn Hf.
  - cbn in Hf. lia.
  - cbn [digitos_aux]. destruct (Z.eqb_spec n 0) as [|_]; [lia|].
    rewrite Nat2Z.inj_succ, Z.pow_succ_r in Hf by lia.
    destruct (Z.eq_dec (n / 10) 0) as [E|E].
    + rewrite E, digitos_aux_0. cbn. lia.
    + destruct (IH (n / 10) ltac:(lia) ltac:(lia)) as [P [L U]].
      set (k := digitos_aux f (n / 10)) in *.
      split; [lia|]. replace (1 + k - 1) with (Z.succ (k - 1)) by lia.
      replace (1 + k) with (Z.succ k) by lia.
      rewrite !Z.pow_succ_r by lia. lia.
Qed.

Lemma digitos10_spec n :
  0 < n -> 0 < digitos10 n /\ 10 ^ (digitos10 n - 1) <= n < 10 ^ digitos10 n.
Proof.
  intros Hn. unfold digitos10. rewrite Z.abs_eq by lia.
  apply digitos_aux_spec; [exact Hn|].
  rewrite Nat2Z.inj_succ, Z2Nat.id by (apply Z.log2_nonneg).
  apply Z.log2_spec. exact Hn.
Qed.

Lemma digitos10_nonneg n : 0 <= digitos10 n.
Proof.
  unfold digitos10. generalize (Z.abs n) at 2. generalize (S (Z.to_nat (Z.log2 (Z.abs n)))).
  intros f; induction f as [|f IH]; intros z; cbn [digitos_aux]; [lia|].
  destruct (z =? 0); [lia|]. specialize (IH (z / 10)). lia.
Qed.

(** [float(d)] of a finite non-negative Decimal. *)
Lemma float_of_decimal_error c e :
  0 <= c -> aprox_o (dval (DFin c e)) (float_of_decimal (DFin c e)).
Proof.
  intros Hc. unfold float_of_decimal. cbn [dval]. destruct (Z.leb_spec 0 e) as [He|He].
  - rewrite <- B10_Z, <- mult_IZR by lia. apply float_of_Z_error.
    assert (0 < 10 ^ e) by (apply Z.pow_pos_nonneg; lia). nia.
  - replace (IZR c * B10 e)%R with (IZR c / IZR (10 ^ (- e)))%R.
    + apply float_of_ratio_error; [exact Hc|]. apply Z.pow_pos_nonneg; lia.
    + rewrite B10_Z by lia. unfold Rdiv. f_equal.
      assert (E : (B10 e * B10 (- e) = 1)%R)
        by (rewrite <- B10_add; replace (e + - e) with 0 by lia; reflexivity).
      pose proof (B10_pos (- e)). apply Rmult_eq_reg_r with (B10 (- e)); [|lra].
      rewrite E. field. lra.
Qed.

(** [round(x, 2)] on a finite non-negative float: the number of cents [k]
    is within half a cent of the value, and the result approximates
    [k / 100]; it is a zero exactly when [k] is 0. *)
Lemma round2_error x :
  fnn x ->
  exists k : Z,
    0 <= k /\ (- (1 / 2) <= IZR k - 100 * fval x <= 1 / 2)%R
    /\ aprox_o (IZR k / 100) (round2 x)
    /\ (k = 0 -> exists s, round2 x = S754_zero s).
Proof.
  intros Fx. destruct x as [s|s| |s m e]; cbn [fnn] in Fx; try contradiction.
  - exists 0. cbn [round2 fval]. split; [lia|]. split.
    + rewrite Rmult_0_r, Rminus_0_r. lra.
    + split; [|eauto]. left. split; [exact I|]. unfold Rdiv. rewrite Rmult_0_l. apply aprox_0.
  - subst s. unfold round2. destruct (Z.leb_spec 0 e) as [He|He].
    + exists (Z.pos m * 2 ^ e * 100).
      assert (0 < 2 ^ e) by (apply Z.pow_pos_nonneg; lia).
      split; [nia|]. cbn [fval]. rewrite !mult_IZR, B2_Z by lia. split.
      * replace (IZR (Z.pos m) * B2 e * 100 - 100 * (1 * IZR (Z.pos m) * B2 e))%R with 0%R by ring.
        lra.
      * split; [|intros K; exfalso; nia]. left. split; [reflexivity|]. cbn [fval].
        replace (IZR (Z.pos m) * B2 e * 100 / 100)%R with (1 * IZR (Z.pos m) * B2 e)%R by field.
        apply aprox_exacto. pose proof (B2_pos e).
        assert (0 < IZR (Z.pos m))%R by (apply IZR_lt; lia). nra.
    + set (k := div_half_even (Z.pos m * 100) (2 ^ (- e))).
      assert (P : 0 < 2 ^ (- e)) by (apply Z.pow_pos_nonneg; lia).
      assert (Hk : 0 <= k) by (apply div_half_even_nonneg; lia).
      exists k. split; [exact Hk|]. split.
      * destruct (div_half_even_cercano (Z.pos m * 100) (2 ^ (- e)) P) as [C _]. fold k in C.
        cbn [fval].
        assert (Eb : (B2 e * IZR (2 ^ (- e)) = 1)%R).
        { rewrite B2_Z by lia. rewrite <- B2_add. replace (e + - e) with 0 by lia. reflexivity. }
        apply Z.abs_le in C. destruct C as [C1 C2].
        apply IZR_le in C1, C2.
        rewrite opp_IZR in C1. rewrite minus_IZR, !mult_IZR in C1, C2.
        pose proof (B2_pos e) as Pb. set (b := B2 e) in *. set (N := IZR (2 ^ (- e))) in *.
        assert (PN : (0 < N)%R) by (unfold N; apply IZR_lt; exact P).
        assert (T1 : ((- N) * b <= (2 * (IZR (Z.pos m) * 100) - 2 * IZR k * N) * b)%R)
          by (apply Rmult_le_compat_r; lra).
        assert (T2 : ((2 * (IZR (Z.pos m) * 100) - 2 * IZR k * N) * b <= N * b)%R)
          by (apply Rmult_le_compat_r; lra).
        assert (Ek : (IZR k * N * b = IZR k)%R)
          by (rewrite Rmult_assoc, (Rmult_comm N b), Eb; ring).
        assert (En : (N * b = 1)%R) by (rewrite Rmult_comm; exact Eb).
        replace ((2 * (IZR (Z.pos m) * 100) - 2 * IZR k * N) * b)%R
          with (200 * (IZR (Z.pos m) * b) - 2 * (IZR k * N * b))%R in T1, T2 by ring.
        replace (- N * b)%R with (- (N * b))%R in T1 by ring.
        rewrite Ek, En in *. split; lra.
      * destruct (Z.eqb_spec k 0) as [K|K].
        -- split; [|eauto]. left. split; [exact I|]. rewrite K. unfold Rdiv. rewrite Rmult_0_l.
           apply aprox_0.
        -- split; [|intros; contradiction]. apply (float_of_ratio_error k 100); lia.
Qed.

(** *** The digits of [repr] *)

Lemma float_eqb_eq x y : float_eqb x y = true -> x = y.
Proof.
  destruct x as [a|a| |a m e], y as [b|b| |b n f]; cbn; try discriminate; intros H.
  - apply Bool.eqb_prop in H. congruence.
  - apply Bool.eqb_prop in H. congruence.
  - reflexivity.
  - apply andb_prop in H. destruct H as [H H3]. apply andb_prop in H. destruct H as [H1 H2].
    apply Bool.eqb_prop in H1. apply Pos.eqb_eq in H2. apply Z.eqb_eq in H3. congruence.
Qed.

Lemma pow10_pos k : 0 <= k -> 0 < 10 ^ k.
Proof. intros. apply Z.pow_pos_nonneg; lia. Qed.

Lemma pow10_mono a b : 0 <= a <= b -> 10 ^ a <= 10 ^ b.
Proof. intros. apply Z.pow_le_mono_r; lia. Qed.

(** [floor_log10 n d] is a lower bound: [10^p <= n / d]. *)
Lemma floor_log10_inf n d :
  0 < n -> 0 < d ->
  let p := floor_log10 n d in
  if 0 <=? p then d * 10 ^ p <= n else d <= n * 10 ^ (- p).
Proof.
  intros Hn Hd. unfold floor_log10.
  destruct (digitos10_spec n Hn) as [Pn [Ln Un]].
  destruct (digitos10_spec d Hd) as [Pd [Ld Ud]].
  set (a := digitos10 n) in *. set (b := digitos10 d) in *. clearbody a b.
  cbv zeta. destruct (Z.leb_spec 0 (a - b)) as [H0|H0].
  - destruct (Z.leb_spec (d * 10 ^ (a - b)) n) as [H1|H1].
    + destruct (Z.leb_spec 0 (a - b)); [exact H1|lia].
    + destruct (Z.leb_spec 0 (a - b - 1)) as [H2|H2].
      * assert (E : 10 ^ (a - 1) = 10 ^ (a - b - 1) * 10 ^ b)
          by (rewrite <- Z.pow_add_r by lia; f_equal; lia).
        pose proof (pow10_pos (a - b - 1) H2). nia.
      * replace (- (a - b - 1)) with 1 by lia.
        assert (b = Z.succ (a - 1)) by lia.
        assert (10 ^ b = 10 * 10 ^ (a - 1)) by (subst b; apply Z.pow_succ_r; lia).
        change (10 ^ 1) with 10. lia.
  - destruct (Z.leb_spec d (n * 10 ^ (- (a - b)))) as [H1|H1].
    + destruct (Z.leb_spec 0 (a - b)); [lia|exact H1].
    + destruct (Z.leb_spec 0 (a - b - 1)) as [H2|H2]; [lia|].
      assert (E : 10 ^ b = 10 ^ (a - 1) * 10 ^ (- (a - b - 1)))
        by (rewrite <- Z.pow_add_r by lia; f_equal; lia).
      pose proof (pow10_pos (- (a - b - 1)) ltac:(lia)). nia.
Qed.

Lemma B10_inv s : (B10 (- s) * B10 s = 1)%R.
Proof. rewrite <- B10_add. replace (- s + s) with 0 by lia. reflexivity. Qed.

(** The fallback digits, [j] places below the leading one, exceed the
    value by at most half a unit of the last place. *)
Lemma respaldo_cota n d s p j :
  0 < n -> 0 < d -> 0 <= j -> s = p - j ->
  (if 0 <=? p then d * 10 ^ p <= n else d <= n * 10 ^ (- p)) ->
  let c := if 0 <=? s then div_half_even n (d * 10 ^ s)
           else div_half_even (n * 10 ^ (- s)) d in
  0 <= c /\ (2 * B10 j * (IZR c * B10 s * IZR d - IZR n) <= IZR n)%R.
Proof.
  intros Hn Hd Hj Hs Hp. cbv zeta.
  pose proof (pow10_pos j Hj) as PJ. rewrite <- (B10_Z j Hj).
  destruct (Z.leb_spec 0 s) as [S0|S0].
  - pose proof (pow10_pos s S0) as P10.
    assert (PD : 0 < d * 10 ^ s) by nia.
    split; [apply div_half_even_nonneg; lia|].
    destruct (div_half_even_cercano n (d * 10 ^ s) PD) as [C _].
    destruct (Z.leb_spec 0 p) as [P0|P0]; [|lia].
    assert (E : 10 ^ p = 10 ^ j * 10 ^ s) by (rewrite <- Z.pow_add_r by lia; f_equal; lia).
    rewrite E in Hp.
    set (c := div_half_even n (d * 10 ^ s)) in *. clearbody c.
    set (T := 10 ^ s) in *. set (J := 10 ^ j) in *.
    assert (Z : 2 * J * (c * T * d - n) <= n).
    { clearbody T J.
      assert (Z1 : 2 * (c * T * d - n) <= d * T) by lia.
      assert (Z2 : 2 * J * (c * T * d - n) <= J * (d * T)) by nia.
      nia. }
    apply IZR_le in Z. rewrite !mult_IZR, minus_IZR, !mult_IZR in Z.
    unfold T in Z. rewrite (B10_Z s S0) in Z. exact Z.
  - pose proof (pow10_pos (- s) ltac:(lia)) as P10.
    split; [apply div_half_even_nonneg; nia|].
    destruct (div_half_even_cercano (n * 10 ^ (- s)) d Hd) as [C _].
    assert (Hd' : 10 ^ j * d <= n * 10 ^ (- s)).
    { destruct (Z.leb_spec 0 p) as [P0|P0].
      - assert (E : 10 ^ j = 10 ^ p * 10 ^ (- s))
          by (rewrite <- Z.pow_add_r by lia; f_equal; lia).
        rewrite E. nia.
      - assert (E : 10 ^ (- s) = 10 ^ j * 10 ^ (- p))
          by (rewrite <- Z.pow_add_r by lia; f_equal; lia).
        rewrite E. nia. }
    set (c := div_half_even (n * 10 ^ (- s)) d) in *. clearbody c.
    set (T := 10 ^ (- s)) in *. set (J := 10 ^ j) in *.
    assert (Z : 2 * J * (c * d - n * T) <= n * T).
    { clearbody T J.
      assert (Z1 : 2 * (c * d - n * T) <= d) by lia.
      assert (Z2 : 2 * J * (c * d - n * T) <= J * d) by nia.
      lia. }
    apply IZR_le in Z. rewrite !mult_IZR, minus_IZR, !mult_IZR in Z.
    unfold T in Z. rewrite (B10_Z (- s)) in Z by lia.
    pose proof (B10_inv s) as I. pose proof (B10_pos s) as Ps.
    apply Rmult_le_compat_r with (r := B10 s) in Z; [|lra].
    replace (2 * IZR J * (IZR c * IZR d - IZR n * B10 (- s)) * B10 s)%R
      with (2 * IZR J * (IZR c * B10 s * IZR d - IZR n * (B10 (- s) * B10 s)))%R in Z by ring.
    replace (IZR n * B10 (- s) * B10 s)%R with (IZR n * (B10 (- s) * B10 s))%R in Z by ring.
    rewrite I, !Rmult_1_r in Z. exact Z.
Qed.

Lemma eps_val : eps = (/ 4503599627370496)%R.
Proof.
  assert (E : (eps * 4503599627370496 = 1)%R).
  { unfold eps. change 4503599627370496%R with (IZR (2 ^ 52)). rewrite B2_Z by lia.
    rewrite <- B2_add. reflexivity. }
  apply Rmult_eq_reg_r with 4503599627370496%R; [|lra]. rewrite E. field.
Qed.

Lemma floor_scaled_nonneg n d s : 0 < n -> 0 < d -> 0 <= floor_scaled n d s.
Proof.
  intros Hn Hd. unfold floor_scaled. destruct (Z.leb_spec 0 s).
  - pose proof (pow10_pos s ltac:(lia)). apply Z.div_pos; nia.
  - pose proof (pow10_pos (- s) ltac:(lia)). apply Z.div_pos; nia.
Qed.

Lemma candidato_spec m e k c s :
  candidato m e k = Some (c, s) ->
  0 <= c /\ float_of_decimal (DFin c s) = S754_finite false m e.
Proof.
  unfold candidato.
  set (n := Z.pos m * 2 ^ Z.max e 0). set (d := 2 ^ Z.max (- e) 0).
  assert (Hn : 0 < n) by (unfold n; pose proof (Z.pow_pos_nonneg 2 (Z.max e 0)); nia).
  assert (Hd : 0 < d) by (unfold d; apply Z.pow_pos_nonneg; lia).
  cbv zeta. set (s0 := floor_log10 n d - k + 1).
  pose proof (floor_scaled_nonneg n d s0 Hn Hd) as L.
  set (lo := floor_scaled n d s0) in *.
  destruct (float_eqb (float_of_decimal (DFin lo s0)) _) eqn:E1;
  destruct (float_eqb (float_of_decimal (DFin (lo + 1) s0)) _) eqn:E2;
  try discriminate.
  - destruct (_ <=? _); intros [= <- <-]; (split; [lia|]); apply float_eqb_eq; assumption.
  - intros [= <- <-]. split; [lia|]. apply float_eqb_eq; assumption.
  - intros [= <- <-]. split; [lia|]. apply float_eqb_eq; assumption.
Qed.

Lemma fval_nd m e :
  let n := Z.pos m * 2 ^ Z.max e 0 in
  let d := 2 ^ Z.max (- e) 0 in
  0 < n /\ 0 < d /\ (IZR n = fval (S754_finite false m e) * IZR d)%R.
Proof.
  cbv zeta. pose proof (Z.pow_pos_nonneg 2 (Z.max e 0) ltac:(lia) ltac:(lia)).
  pose proof (Z.pow_pos_nonneg 2 (Z.max (- e) 0) ltac:(lia) ltac:(lia)).
  split; [nia|]. split; [lia|]. cbn [fval]. rewrite mult_IZR, !B2_Z by lia.
  rewrite Rmult_1_l, Rmult_assoc, <- B2_add. do 2 f_equal. lia.
Qed.

(** The digits the search returns: either they read back as the float, or
    they are the fallback with [k + fuel] digits, which exceeds the value by
    at most half a unit of its last digit. *)
Lemma mas_corto_spec m e fuel : forall k,
  1 <= k ->
  let '(c, s) := mas_corto m e fuel k in
  0 <= c
  /\ (float_of_decimal (DFin c s) = S754_finite false m e
      \/ (2 * B10 (k + Z.of_nat fuel - 1)
            * (dval (DFin c s) - fval (S754_finite false m e))
          <= fval (S754_finite false m e))%R).
Proof.
  induction fuel as [|f IH]; intros k Hk.
  - cbn [mas_corto]. destruct (fval_nd m e) as [Hn [Hd E]].
    set (n := Z.pos m * 2 ^ Z.max e 0) in *. set (d := 2 ^ Z.max (- e) 0) in *.
    cbv zeta.
    pose proof (floor_log10_inf n d Hn Hd) as P. cbv zeta in P.
    destruct (respaldo_cota n d (floor_log10 n d - k + 1) (floor_log10 n d) (k - 1)
                Hn Hd ltac:(lia) ltac:(lia) P) as [C0 C1].
    split; [exact C0|]. right. cbn [dval]. rewrite E in C1.
    replace (k + Z.of_nat 0 - 1) with (k - 1) by lia.
    apply IZR_lt in Hd.
    apply Rmult_le_reg_r with (IZR d); [exact Hd|]. lra.
  - cbn [mas_corto]. destruct (candidato m e k) as [[c s]|] eqn:E.
    + destruct (candidato_spec _ _ _ _ _ E) as [C0 C1]. split; [exact C0|]. left. exact C1.
    + specialize (IH (k + 1) ltac:(lia)).
      replace (k + 1 + Z.of_nat f - 1) with (k + Z.of_nat (S f) - 1) in IH by lia.
      exact IH.
Qed.

Lemma quitar_ceros_spec fuel : forall c s,
  0 <= c ->
  let '(c', s') := quitar_ceros fuel c s in
  0 <= c' /\ s <= s' /\ c' * 10 ^ (s' - s) = c.
Proof.
  induction fuel as [|f IH]; intros c s Hc; cbn [quitar_ceros].
  - replace (s - s) with 0 by lia. cbn. lia.
  - destruct ((c mod 10 =? 0) && negb (c =? 0)) eqn:E.
    + apply andb_prop in E. destruct E as [E _]. apply Z.eqb_eq in E.
      specialize (IH (c / 10) (s + 1) ltac:(apply Z.div_pos; lia)).
      destruct (quitar_ceros f (c / 10) (s + 1)) as [c' s'].
      destruct IH as [I0 [I1 I2]]. split; [exact I0|]. split; [lia|].
      replace (s' - s) with (Z.succ (s' - (s + 1))) by lia.
      rewrite Z.pow_succ_r by lia. lia.
    + replace (s - s) with 0 by lia. cbn. lia.
Qed.

Lemma dval_escala c s k :
  0 <= k -> dval (DFin (c * 10 ^ k) (s - k)) = dval (DFin c s).
Proof.
  intros Hk. cbn [dval]. rewrite mult_IZR, B10_Z by lia.
  replace s with (k + (s - k)) at 2 by lia. rewrite B10_add. ring.
Qed.

(** [Decimal(str(x))] of a finite non-negative float is a finite
    non-negative Decimal; it exceeds the float by at most one part in
    10^15 (and three denormal units); a zero prints as [0.0]. *)
Lemma decimal_of_str_float_cota x :
  fnn x ->
  dnn (decimal_of_str_float x)
  /\ (dval (decimal_of_str_float x)
      <= (1 + / 1000000000000000) * (fval x + 3 * eta))%R.
Proof.
  intros Fx. destruct eps_eta_pos as [Pe Pt].
  destruct x as [s|s| |sg m e]; cbn [fnn] in Fx; try contradiction.
  - cbn [decimal_of_str_float dnn dval fval]. split; [lia|]. rewrite Rmult_0_l. lra.
  - subst sg. unfold decimal_of_str_float, repr_digitos.
    pose proof (mas_corto_spec m e 16 1 ltac:(lia)) as M.
    destruct (mas_corto m e 16 1) as [c s]. destruct M as [C0 C1].
    pose proof (quitar_ceros_spec 18 c s C0) as Q.
    destruct (quitar_ceros 18 c s) as [c' s']. destruct Q as [Q0 [Q1 Q2]].
    assert (V : dval (DFin c' s') = dval (DFin c s)).
    { rewrite <- Q2. replace s with (s' - (s' - s)) at 2 by lia.
      symmetry. apply dval_escala. lia. }
    pose proof (fval_nonneg (S754_finite false m e) eq_refl) as F.
    assert (B : (dval (DFin c s)
                 <= (1 + / 1000000000000000) * (fval (S754_finite false m e) + 3 * eta))%R).
    { destruct C1 as [C1|C1].
      - pose proof (float_of_decimal_error c s C0) as A. rewrite C1 in A.
        apply aprox_o_fnn in A; [|reflexivity]. unfold aprox in A.
        rewrite eps_val in A. lra.
      - change (1 + Z.of_nat 16 - 1) with 16 in C1. rewrite <- (B10_Z 16) in C1 by lia.
        change (IZR (10 ^ 16)) with 10000000000000000%R in C1. lra. }
    destruct ((-4 <? digitos10 c' + s') && (digitos10 c' + s' <=? 16) && (0 <=? s')) eqn:E.
    + apply andb_prop in E. destruct E as [_ E]. apply Z.leb_le in E.
      split.
      * cbn [dnn]. pose proof (pow10_pos (s' + 1) ltac:(lia)). nia.
      * replace (-1) with (s' - (s' + 1)) by lia. rewrite dval_escala by lia.
        rewrite V. exact B.
    + split; [exact Q0|]. rewrite V. exact B.
Qed.

(** *** The rounding helper and the percentage *)

Lemma cien_val : cien = S754_finite false 7036874417766400 (-46).
Proof. vm_compute. reflexivity. Qed.

Lemma B2_inv s : (B2 (- s) * B2 s = 1)%R.
Proof. rewrite <- B2_add. replace (- s + s) with 0 by lia. reflexivity. Qed.

Lemma fval_cien : fval cien = 100%R.
Proof.
  rewrite cien_val. cbn [fval].
  change 7036874417766400%Z with (100 * 2 ^ 46). rewrite mult_IZR, B2_Z by lia.
  pose proof (B2_inv (-46)) as I. change (- -46) with 46 in I.
  rewrite Rmult_1_l, Rmult_assoc, I. ring.
Qed.

Lemma eta_chico : (0 < eta <= / 1000000000000000000000000000000)%R.
Proof.
  destruct eps_eta_pos as [_ P]. split; [exact P|].
  assert (E : (eta * B2 100 * B2 974 = 1)%R).
  { unfold eta. rewrite <- !B2_add. reflexivity. }
  assert (1 <= B2 974)%R by (change 1%R with (B2 0); apply B2_le; lia).
  assert (B2 100 = 1267650600228229401496703205376)%R by (rewrite <- B2_Z by lia; reflexivity).
  nra.
Qed.

Lemma B2_971 : (B2 971 = 2048 * B2 960 /\ 1 <= B2 960)%R.
Proof.
  split.
  - change 971 with (11 + 960). rewrite B2_add. f_equal. rewrite <- B2_Z by lia. reflexivity.
  - change 1%R with (B2 0). apply B2_le. lia.
Qed.

Lemma aprox_sup Q r :
  (0 <= Q)%R -> aprox Q r -> (r <= (1 + / 1000000000000000) * Q + eta)%R.
Proof. intros HQ [_ H]. rewrite eps_val in H. lra. Qed.

(** [redondear_decimal] on a finite non-negative float below the overflow
    range: a finite non-negative Decimal, at most half a cent above the
    value (up to rounding errors), and zero when the value is below half a
    cent. *)
Lemma redondear_decimal_cota y :
  fnn y -> (fval y <= B2 960)%R ->
  dnn (redondear_decimal y)
  /\ (dval (redondear_decimal y)
      <= (1 + 3 / 1000000000000000) * fval y + 5001 / 1000000)%R
  /\ ((fval y <= 45 / 10000)%R -> dval (redondear_decimal y) = 0%R).
Proof.
  intros Fy Hb. destruct B2_971 as [E971 G960]. pose proof eta_chico as Ht.
  pose proof (fval_nonneg y Fy) as Py.
  destruct (round2_error y Fy) as [k [K0 [K1 [K2 K3]]]].
  apply IZR_le in K0.
  destruct (aprox_o_fin _ _ K2 ltac:(lra)) as [F3 A3]. clear K2.
  apply aprox_sup in A3; [|lra].
  destruct (decimal_of_str_float_cota (round2 y) F3) as [D0 D1].
  unfold redondear_decimal.
  split; [exact D0|]. split; [lra|].
  intros Hs. assert (Kz : k = 0).
  { assert (IZR k < 1)%R by lra. apply lt_IZR in H. apply le_IZR in K0. lia. }
  destruct (K3 Kz) as [s ->]. cbn [decimal_of_str_float dval]. ring.
Qed.

(** [calcular_porcentaje] on finite non-negative floats whose product does
    not overflow: the amount is a finite non-negative Decimal, at most half
    a cent above the exact percentage (up to rounding errors), and it is
    zero when the product is at most 0.44. *)
Lemma calcular_porcentaje_cota x p :
  fnn x -> fnn p -> (fval x * fval p <= B2 960)%R ->
  dnn (calcular_porcentaje x p)
  /\ (dval (calcular_porcentaje x p)
      <= (1 + 6 / 1000000000000000) * (fval x * fval p / 100) + 5002 / 1000000)%R
  /\ ((fval x * fval p <= 44 / 100)%R -> dval (calcular_porcentaje x p) = 0%R).
Proof.
  intros Fx Fp Hb. destruct B2_971 as [E971 G960]. pose proof eta_chico as Ht.
  pose proof (fval_nonneg x Fx) as Px. pose proof (fval_nonneg p Fp) as Pp.
  set (XP := (fval x * fval p)%R) in *.
  assert (PXP : (0 <= XP)%R) by (unfold XP; nra).
  destruct (aprox_o_fin _ _ (fmul_error x p Fx Fp) ltac:(fold XP; lra)) as [F1 A1].
  fold XP in A1. set (y1 := fmul x p) in *.
  pose proof (fval_nonneg y1 F1) as P1. apply aprox_sup in A1; [|exact PXP].
  pose proof (fdiv_error y1 7036874417766400 (-46) F1) as A2.
  rewrite <- cien_val, fval_cien in A2.
  destruct (aprox_o_fin _ _ A2 ltac:(lra)) as [F2 A2']. clear A2.
  set (y2 := fdiv y1 cien) in *.
  pose proof (fval_nonneg y2 F2) as P2. apply aprox_sup in A2'; [|lra].
  destruct (redondear_decimal_cota y2 F2 ltac:(lra)) as [D0 [D1 D2]].
  unfold calcular_porcentaje. cbv zeta. fold y1. fold y2.
  split; [exact D0|]. split; [lra|]. intros Hs. apply D2. lra.
Qed.

Lemma float_of_decimal_cota d :
  dnn d -> (dval d <= B2 960)%R ->
  fnn (float_of_decimal d)
  /\ (fval (float_of_decimal d) <= (1 + / 1000000000000000) * dval d + eta)%R.
Proof.
  intros D Hb. destruct B2_971 as [E971 G960].
  destruct d as [c e| |]; try contradiction.
  pose proof (dval_nonneg _ D) as P.
  destruct (aprox_o_fin _ _ (float_of_decimal_error c e D) ltac:(lra)) as [F A].
  split; [exact F|]. apply aprox_sup; assumption.
Qed.

Lemma B10_m1 : B10 (-1) = (/ 10)%R.
Proof. pose proof (B10_inv 1) as I. change (B10 (-1) * (10 * 1) = 1)%R in I. lra. Qed.

Lemma B10_m2 : B10 (-2) = (/ 100)%R.
Proof. pose proof (B10_inv 2) as I. change (B10 (-2) * (10 * (10 * 1)) = 1)%R in I. lra. Qed.

Lemma B10_m3 : B10 (-3) = (/ 1000)%R.
Proof. pose proof (B10_inv 3) as I. change (B10 (-3) * (10 * (10 * (10 * 1))) = 1)%R in I. lra. Qed.

(** The magnitude bound of the inputs against the float range. *)
Lemma cota_entradas :
  (1 <= B10 100 /\ 4 * (B10 100 * B10 100) <= B2 950 /\ B2 960 = 1024 * B2 950 /\ 1 <= B2 950)%R.
Proof.
  split; [change 1%R with (B10 0); apply B10_le; lia|].
  split.
  - rewrite <- (B10_Z 100), <- (B2_Z 950) by lia. rewrite <- !mult_IZR. apply IZR_le.
    apply Z.leb_le. vm_compute. reflexivity.
  - split.
    + change 960 with (10 + 950). rewrite B2_add. f_equal. rewrite <- B2_Z by lia. reflexivity.
    + change 1%R with (B2 0). apply B2_le. lia.
Qed.

(** *** The 28-digit Decimal context *)

(** [dfix] on a non-negative coefficient: the result is non-negative and
    within one part in 10^20 of the exact value. *)
Lemma dfix_spec c e :
  0 <= c ->
  exists c' j, dfix c e = DFin c' (e + j) /\ 0 <= j /\ 0 <= c'
    /\ 99999999999999999999 * c <= 100000000000000000000 * (c' * 10 ^ j) <= 100000000000000000001 * c.
Proof.
  intros Hc. unfold dfix. cbv zeta. unfold ctx_prec.
  destruct (Z.leb_spec (digitos10 c) 28) as [L|L].
  - exists c, 0. rewrite Z.add_0_r. change (10 ^ 0) with 1. repeat split; lia.
  - assert (Pc : 0 < c).
    { destruct (Z.eq_dec c 0) as [->|]; [|lia]. cbn in L. lia. }
    destruct (digitos10_spec c Pc) as [_ [Lo _]].
    set (k := digitos10 c - 28) in *.
    replace (digitos10 c - 1) with (k + 27) in Lo by lia.
    rewrite Z.pow_add_r in Lo by lia.
    pose proof (pow10_pos k ltac:(lia)) as PT. set (T := 10 ^ k) in *.
    rewrite Z.sgn_pos, Z.abs_eq, Z.mul_1_l by lia.
    destruct (div_half_even_cercano c T PT) as [C _].
    pose proof (div_half_even_nonneg c T ltac:(lia) PT) as M0.
    set (m := div_half_even c T) in *.
    assert (P27 : 10 ^ 27 = 1000000000000000000000000000) by reflexivity.
    rewrite P27 in Lo.
    destruct (Z.gtb_spec (digitos10 m) 28) as [G|G].
    + exists (m / 10), (k + 1). rewrite Z.add_assoc. split; [reflexivity|].
      split; [lia|]. split; [apply Z.div_pos; lia|].
      assert (Pm : 0 < m) by (destruct (Z.eq_dec m 0) as [E|]; [rewrite E in G; cbn in G|]; lia).
      destruct (digitos10_spec m Pm) as [_ [Lm _]].
      assert (10 ^ 28 <= 10 ^ (digitos10 m - 1)) by (apply pow10_mono; lia).
      change (10 ^ 28) with 10000000000000000000000000000 in H.
      rewrite Z.pow_add_r by lia. fold T. change (10 ^ 1) with 10.
      set (q := m / 10).
      assert (Q : 10 * q <= m <= 10 * q + 9) by (unfold q; lia).
      clearbody q m T. clear - C Lo PT Q Lm H.
      assert (Q1 : (m - 10 * q) * T <= 9 * T) by nia.
      assert (Q2 : 0 <= (m - 10 * q) * T) by nia.
      nia.
    + exists m, k. split; [reflexivity|]. split; [lia|]. split; [exact M0|]. fold T.
      clearbody m T. clear - C Lo PT. lia.
Qed.

Lemma dfix_cota c e :
  0 <= c ->
  dnn (dfix c e)
  /\ ((1 - / 100000000000000000000) * (IZR c * B10 e) <= dval (dfix c e) <= (1 + / 100000000000000000000) * (IZR c * B10 e))%R.
Proof.
  intros Hc. destruct (dfix_spec c e Hc) as [c' [j [-> [J [C0 [L U]]]]]].
  split; [exact C0|]. cbn [dval]. rewrite B10_add, <- (B10_Z j) by lia.
  apply IZR_le in L, U. rewrite !mult_IZR in L, U.
  pose proof (B10_pos e) as Pe.
  set (a := IZR c) in *. set (b := (IZR c' * IZR (10 ^ j))%R) in *.
  replace (IZR c' * (B10 e * IZR (10 ^ j)))%R with (b * B10 e)%R by (unfold b; ring).
  assert (L' : ((1 - / 100000000000000000000) * a <= b)%R) by lra.
  assert (U' : (b <= (1 + / 100000000000000000000) * a)%R) by lra.
  rewrite <- !Rmult_assoc. split; apply Rmult_le_compat_r; lra.
Qed.

Lemma alinear_val c e e' : e' <= e -> (IZR (c * 10 ^ (e - e')) * B10 e' = IZR c * B10 e)%R.
Proof.
  intros H. rewrite mult_IZR, B10_Z by lia. rewrite Rmult_assoc, <- B10_add.
  do 2 f_equal. lia.
Qed.

Lemma dadd_cota x y :
  dnn x -> dnn y ->
  exists z, dadd x y = Ok z /\ dnn z
    /\ ((1 - / 100000000000000000000) * (dval x + dval y) <= dval z <= (1 + / 100000000000000000000) * (dval x + dval y))%R.
Proof.
  destruct x as [c1 e1| |], y as [c2 e2| |]; cbn [dnn]; try contradiction. intros H1 H2.
  unfold dadd. eexists. split; [reflexivity|].
  set (e := Z.min e1 e2).
  pose proof (pow10_pos (e1 - e) ltac:(lia)). pose proof (pow10_pos (e2 - e) ltac:(lia)).
  destruct (dfix_cota (c1 * 10 ^ (e1 - e) + c2 * 10 ^ (e2 - e)) e ltac:(nia)) as [D V].
  split; [exact D|]. rewrite plus_IZR, Rmult_plus_distr_r, !alinear_val in V by lia.
  exact V.
Qed.

Lemma dmul_cota x y :
  dnn x -> dnn y ->
  exists z, dmul x y = Ok z /\ dnn z
    /\ ((1 - / 100000000000000000000) * (dval x * dval y) <= dval z <= (1 + / 100000000000000000000) * (dval x * dval y))%R.
Proof.
  destruct x as [c1 e1| |], y as [c2 e2| |]; cbn [dnn]; try contradiction. intros H1 H2.
  unfold dmul. eexists. split; [reflexivity|].
  destruct (dfix_cota (c1 * c2) (e1 + e2) ltac:(nia)) as [D V].
  split; [exact D|]. rewrite mult_IZR, B10_add in V. cbn [dval].
  replace (IZR c1 * B10 e1 * (IZR c2 * B10 e2))%R
    with (IZR c1 * IZR c2 * (B10 e1 * B10 e2))%R by ring.
  exact V.
Qed.

(** A difference whose subtrahend is not larger is not negative. *)
Lemma dsub_nn x y :
  dnn x -> dnn y -> (dval y <= dval x)%R ->
  exists z, dsub x y = Ok z /\ dnn z.
Proof.
  destruct x as [c1 e1| |], y as [c2 e2| |]; cbn [dnn]; try contradiction. intros H1 H2 V.
  unfold dsub, dneg, dadd. eexists. split; [reflexivity|].
  set (e := Z.min e1 e2). apply dfix_cota.
  cbn [dval] in V. rewrite <- (alinear_val c1 e1 e), <- (alinear_val c2 e2 e) in V by lia.
  pose proof (B10_pos e). apply Rmult_le_reg_r in V; [|assumption].
  apply le_IZR in V. lia.
Qed.

Lemma dlt_cero_nn z : dnn z -> dlt z dzero = Ok false.
Proof.
  destruct z as [c e| |]; cbn [dnn]; try contradiction. intros H.
  unfold dlt, dzero, dcompare. rewrite Z.mul_0_l.
  pose proof (pow10_pos (e - Z.min e 0) ltac:(lia)).
  destruct (Z.compare_spec (c * 10 ^ (e - Z.min e 0)) 0); try reflexivity. nia.
Qed.

Lemma dnn_de_dlt d : dlt d dzero = Ok false -> d <> DNaN -> d <> DInf false -> dnn d.
Proof.
  destruct d as [c e|[|]|]; try congruence; try discriminate. intros H _ _. cbn [dnn].
  unfold dlt, dzero, dcompare in H. rewrite Z.mul_0_l in H.
  pose proof (pow10_pos (e - Z.min e 0) ltac:(lia)).
  destruct (Z.compare_spec (c * 10 ^ (e - Z.min e 0)) 0); try discriminate; nia.
Qed.

(** The hypothesis of the bounded cases, read from the program's own
    comparisons: [0 <= d < 10^100]. *)
Lemma acotado_val d :
  dlt d dzero = Ok false -> dlt d (DFin 1 100) = Ok true ->
  dnn d /\ (dval d <= B10 100)%R.
Proof.
  intros H0 H1. assert (D : dnn d).
  { apply dnn_de_dlt; [exact H0| |]; intros ->; discriminate. }
  split; [exact D|]. destruct d as [c e| |]; try contradiction.
  unfold dlt, dcompare in H1. set (e' := Z.min e 100) in *.
  destruct (Z.compare_spec (c * 10 ^ (e - e')) (1 * 10 ^ (100 - e'))) as [| L |]; try discriminate.
  apply IZR_lt in L. pose proof (B10_pos e') as P.
  apply Rmult_lt_compat_r with (r := B10 e') in L; [|exact P].
  rewrite !alinear_val in L by lia. cbn [dval]. lra.
Qed.

Lemma decimal_or_0_nn x :
  match x with Some d => dnn d | None => True end ->
  dnn (decimal_or_0 x)
  /\ dval (decimal_or_0 x) = match x with Some d => dval d | None => 0%R end.
Proof.
  destruct x as [d|]; cbn [decimal_or_0].
  - intros D. destruct d as [c e| |]; try contradiction. cbn [dtruthy].
    destruct (Z.eqb_spec c 0) as [->|]; cbn [negb].
    + cbn. split; [lia|]. lra.
    + split; [exact D|reflexivity].
  - intros _. cbn. split; [lia|]. lra.
Qed.

(** *** The engine on inputs in range *)

Lemma tipo_casos e :
  nombre_tipo e = ASALARIADO \/ nombre_tipo e = POR_HORAS
  \/ nombre_tipo e = POR_COMISION \/ nombre_tipo e = TEMPORAL
  \/ (String.eqb (nombre_tipo e) ASALARIADO = false
      /\ String.eqb (nombre_tipo e) POR_HORAS = false
      /\ String.eqb (nombre_tipo e) POR_COMISION = false
      /\ String.eqb (nombre_tipo e) TEMPORAL = false).
Proof.
  destruct (String.eqb_spec (nombre_tipo e) ASALARIADO); [tauto|].
  destruct (String.eqb_spec (nombre_tipo e) POR_HORAS); [tauto|].
  destruct (String.eqb_spec (nombre_tipo e) POR_COMISION); [tauto|].
  destruct (String.eqb_spec (nombre_tipo e) TEMPORAL); tauto.
Qed.

Ltac resolver_tipo :=
  repeat match goal with
  | |- context [String.eqb ?a ?b] =>
      let v := eval vm_compute in (String.eqb a b) in
      lazymatch v with
      | true => change (String.eqb a b) with true
      | false => change (String.eqb a b) with false
      end
  end;
  cbn [orb andb negb].

Ltac por_tipo e :=
  destruct (tipo_casos e) as [T|[T|[T|[T|[T1 [T2 [T3 T4]]]]]]];
  [rewrite T|rewrite T|rewrite T|rewrite T|rewrite ?T1, ?T2, ?T3, ?T4];
  resolver_tipo.

Ltac paso_dadd :=
  match goal with
  | |- context [bind (dadd ?a ?b) _] =>
      let z := fresh "z" in let Dz := fresh "Dz" in let Vz := fresh "Vz" in
      let E := fresh "E" in
      destruct (dadd_cota a b) as [z [E [Dz Vz]]];
      [try assumption; try (cbn; lia) ..|rewrite E; cbn [bind]]
  end.

Lemma dnn_dzero : dnn dzero.
Proof. cbn. lia. Qed.

Lemma dval_dzero : dval dzero = 0%R.
Proof. cbn. lra. Qed.

Lemma calcular_beneficios_nn hoy e :
  exists t ds, calcular_beneficios hoy e = Ok (t, ds) /\ dnn t.
Proof.
  pose proof dnn_dzero as Z0.
  assert (A : dnn BONO_ALIMENTACION) by (cbn; lia).
  assert (G : dgt dzero dzero = Ok false) by reflexivity.
  unfold calcular_beneficios. cbv zeta. 
  destruct (String.eqb (nombre_tipo e) ASALARIADO || String.eqb (nombre_tipo e) POR_COMISION);
    [paso_dadd|cbn [bind]];
    (destruct (String.eqb (nombre_tipo e) POR_HORAS); [|eauto]);
    (destruct ((_ >=? _) && _); [|eauto]);
    rewrite G; cbn [bind]; eauto.
Qed.

Lemma prod_cota (a b A B : R) :
  (0 <= a <= A)%R -> (0 <= b <= B)%R -> (a * b <= A * B)%R.
Proof. intros. apply Rmult_le_compat; lra. Qed.

Lemma eta_950 : (B2 950 * eta <= / 1000000000000000000000000000000)%R.
Proof.
  assert (E : (B2 950 * eta * B2 100 * B2 24 = 1)%R).
  { unfold eta. rewrite <- !B2_add. reflexivity. }
  assert (1 <= B2 24)%R by (change 1%R with (B2 0); apply B2_le; lia).
  assert (B2 100 = 1267650600228229401496703205376)%R by (rewrite <- B2_Z by lia; reflexivity).
  pose proof (B2_pos 950). destruct eps_eta_pos as [_ Pt].
  assert (0 < B2 950 * eta)%R by nra.
  nra.
Qed.

(** One percentage line on a gross amount [G] with a rate of at most
    [Pr <= 4] percent: at most half a cent above [G * Pr / 100], up to one
    part in 10^14, and zero below ten cents of gross. *)
Lemma linea_cota G P Pr :
  dnn G -> (dval G <= B2 950)%R -> dnn P -> (dval P <= Pr)%R -> (Pr <= 4)%R ->
  let d := calcular_porcentaje (float_of_decimal G) (float_of_decimal P) in
  dnn d
  /\ ((dval G < 1 / 10)%R -> dval d = 0%R)
  /\ (dval d <= (1 + / 100000000000000) * (dval G * Pr / 100) + 5003 / 1000000)%R.
Proof.
  intros DG HG DP HP HPr. cbv zeta.
  destruct cota_entradas as [_ [_ [E960 G950]]]. pose proof eta_chico as Ht.
  pose proof eta_950 as H950.
  pose proof (dval_nonneg G DG) as PG. pose proof (dval_nonneg P DP) as PP.
  destruct (float_of_decimal_cota G DG ltac:(lra)) as [Fg Vg].
  destruct (float_of_decimal_cota P DP ltac:(lra)) as [Fp Vp].
  set (g := float_of_decimal G) in *. set (p := float_of_decimal P) in *.
  pose proof (fval_nonneg g Fg) as Pg. pose proof (fval_nonneg p Fp) as Pp.
  pose proof (prod_cota (fval g) (fval p)
                ((1 + / 1000000000000000) * dval G + eta)
                ((1 + / 1000000000000000) * Pr + eta)
                ltac:(lra) ltac:(lra)) as XP.
  replace (((1 + / 1000000000000000) * dval G + eta) * ((1 + / 1000000000000000) * Pr + eta))%R
    with ((1 + / 1000000000000000) * (1 + / 1000000000000000) * (dval G * Pr)
          + (1 + / 1000000000000000) * (dval G * eta)
          + (1 + / 1000000000000000) * (eta * Pr) + eta * eta)%R in XP by ring.
  assert (Q1 : (dval G * eta <= B2 950 * eta)%R) by (apply Rmult_le_compat_r; lra).
  assert (Q2 : (0 <= dval G * Pr <= B2 950 * 4)%R)
    by (split; [apply Rmult_le_pos; lra|apply Rmult_le_compat; lra]).
  assert (Q3 : (eta * Pr <= eta * 4)%R) by (apply Rmult_le_compat_l; lra).
  assert (Q4 : (eta * eta <= eta * 1)%R) by (apply Rmult_le_compat_l; lra).
  set (A := (dval G * Pr)%R) in *.
  destruct (calcular_porcentaje_cota g p Fg Fp ltac:(lra)) as [D0 [D1 D2]].
  split; [exact D0|]. split.
  - intros Hs. apply D2.
    pose proof (prod_cota (fval g) (fval p) (1000001 / 10000000) (40000001 / 10000000)
                  ltac:(lra) ltac:(lra)).
    lra.
  - lra.
Qed.

Lemma dval_constantes :
  dval DEDUCCION_SEGURIDAD_SOCIAL_PENSION = 4%R
  /\ dval DEDUCCION_ARL = (522 / 1000)%R
  /\ dval FONDO_AHORRO_PORCENTAJE = 2%R.
Proof.
  unfold DEDUCCION_SEGURIDAD_SOCIAL_PENSION, DEDUCCION_ARL, FONDO_AHORRO_PORCENTAJE.
  cbn [dval]. rewrite B10_m2, B10_m3. repeat split; lra.
Qed.

(** The deductions of a finite non-negative gross amount are computed and
    not negative; they are at most 6.522 percent of it plus the rounding of
    the lines (1.6 cents, and one part in 10^12), and at most half of it. *)
Lemma calcular_deducciones_cota hoy e G :
  dnn G -> (dval G <= B2 950)%R ->
  exists D ds, calcular_deducciones hoy e G = Ok (D, ds) /\ dnn D
    /\ (dval D <= 6522 / 100000 * dval G * (1 + / 1000000000000) + 16 / 1000)%R
    /\ (2 * dval D <= dval G)%R.
Proof.
  intros DG HG. pose proof dnn_dzero as Z0. pose proof dval_dzero as V0.
  pose proof (dval_nonneg G DG) as PG.
  destruct dval_constantes as [C1 [C2 C3]].
  destruct (linea_cota G DEDUCCION_SEGURIDAD_SOCIAL_PENSION 4 DG HG
              ltac:(cbn; lia) ltac:(lra) ltac:(lra)) as [D1 [S1 L1]].
  destruct (linea_cota G DEDUCCION_ARL (522 / 1000) DG HG
              ltac:(cbn; lia) ltac:(lra) ltac:(lra)) as [D2 [S2 L2]].
  destruct (linea_cota G FONDO_AHORRO_PORCENTAJE 2 DG HG
              ltac:(cbn; lia) ltac:(lra) ltac:(lra)) as [D3 [S3 L3]].
  unfold calcular_deducciones. cbv zeta.
  set (d1 := calcular_porcentaje _ (float_of_decimal DEDUCCION_SEGURIDAD_SOCIAL_PENSION)) in *.
  set (d2 := calcular_porcentaje _ (float_of_decimal DEDUCCION_ARL)) in *.
  set (d3 := calcular_porcentaje _ (float_of_decimal FONDO_AHORRO_PORCENTAJE)) in *.
  pose proof (dval_nonneg d1 D1) as P1. pose proof (dval_nonneg d2 D2) as P2.
  pose proof (dval_nonneg d3 D3) as P3.
  do 2 paso_dadd.
  assert (K : ((1 + / 100000000000000000000) * (dval z0 + dval d3)
               <= 6522 / 100000 * dval G * (1 + / 1000000000000) + 16 / 1000
               /\ 2 * ((1 + / 100000000000000000000) * (dval z0 + dval d3)) <= dval G)%R).
  { destruct (Rlt_le_dec (dval G) (1 / 10)) as [Hs|Hl].
    - rewrite (S1 Hs), (S2 Hs), (S3 Hs) in *. lra.
    - lra. }
  destruct (String.eqb (nombre_tipo e) POR_HORAS).
  - destruct ((_ >=? _) && _).
    + paso_dadd. do 2 eexists. split; [reflexivity|]. split; [assumption|]. lra.
    + do 2 eexists. split; [reflexivity|]. split; [assumption|]. lra.
  - do 2 eexists. split; [reflexivity|]. split; [assumption|]. lra.
Qed.

Lemma columna_val x :
  columna_en_rango x ->
  dnn (decimal_or_0 x) /\ (dval (decimal_or_0 x) <= B10 100)%R.
Proof.
  intros H. pose proof (B10_pos 100) as PM.
  destruct x as [d|].
  - destruct H as [H0 H1]. destruct (acotado_val d H0 H1) as [D V].
    destruct (decimal_or_0_nn (Some d) D) as [D' V']. rewrite V'. split; assumption.
  - cbn [decimal_or_0]. rewrite dval_dzero. split; [exact dnn_dzero|lra].
Qed.

(** A percentage of two inputs in range is computed without overflow. *)
Lemma porcentaje_nn X P :
  dnn X -> (dval X <= B10 100)%R -> dnn P -> (dval P <= B10 100)%R ->
  dnn (calcular_porcentaje (float_of_decimal X) (float_of_decimal P))
  /\ (dval (calcular_porcentaje (float_of_decimal X) (float_of_decimal P))
      <= B10 100 * B10 100)%R.
Proof.
  intros DX HX DP HP.
  destruct cota_entradas as [M1 [M2 [E960 G950]]]. pose proof eta_chico as Ht.
  pose proof (dval_nonneg X DX) as PX. pose proof (dval_nonneg P DP) as PP.
  destruct (float_of_decimal_cota X DX ltac:(nra)) as [Fx Vx].
  destruct (float_of_decimal_cota P DP ltac:(nra)) as [Fp Vp].
  set (x := float_of_decimal X) in *. set (p := float_of_decimal P) in *.
  pose proof (fval_nonneg x Fx) as Px. pose proof (fval_nonneg p Fp) as Pp.
  set (M := B10 100) in *.
  pose proof (prod_cota (fval x) (fval p) (2 * M) (2 * M)
                ltac:(lra) ltac:(lra)) as XP.
  destruct (calcular_porcentaje_cota x p Fx Fp ltac:(nra)) as [D0 [D1 _]].
  split; [exact D0|]. nra.
Qed.

Lemma dlt_finitos a b : dnn a -> dnn b -> exists r, dlt a b = Ok r.
Proof.
  destruct a as [c1 e1| |], b as [c2 e2| |]; cbn [dnn]; try contradiction. intros _ _.
  unfold dlt, dcompare. destruct (_ ?= _); eauto.
Qed.

Ltac paso_dmul :=
  match goal with
  | |- context [bind (dmul ?a ?b) _] =>
      let z := fresh "z" in let Dz := fresh "Dz" in let Vz := fresh "Vz" in
      let E := fresh "E" in
      destruct (dmul_cota a b) as [z [E [Dz Vz]]];
      [try assumption; try (cbn; lia) ..|rewrite E; cbn [bind]]
  end.

Lemma cota_diez : (10 <= B10 100)%R.
Proof.
  rewrite <- (B10_Z 100) by lia. apply IZR_le. apply Z.leb_le. vm_compute. reflexivity.
Qed.

(** The bonuses are computed and not negative, unless the seniority bonus
    reads a missing base salary. *)
Lemma calcular_bonos_nn hoy e v :
  columna_en_rango (salario_base e) -> en_rango v ->
  (exists t ds, calcular_bonos hoy e v = Ok (t, ds) /\ dnn t)
  \/ calcular_bonos hoy e v = Raise TypeError.
Proof.
  intros Hb [V0 V1]. destruct (acotado_val v V0 V1) as [Dv Vv].
  pose proof dnn_dzero as Z0.
  destruct cota_entradas as [M1 _].
  assert (C10 : dnn BONO_ANTIGUEDAD_PORCENTAJE /\ (dval BONO_ANTIGUEDAD_PORCENTAJE <= B10 100)%R).
  { split; [cbn; lia|]. unfold BONO_ANTIGUEDAD_PORCENTAJE. cbn [dval]. rewrite B10_m2.
    pose proof cota_diez. lra. }
  assert (C3 : dnn BONO_VENTAS_PORCENTAJE /\ (dval BONO_VENTAS_PORCENTAJE <= B10 100)%R).
  { split; [cbn; lia|]. unfold BONO_VENTAS_PORCENTAJE. cbn [dval]. rewrite B10_m2.
    pose proof cota_diez. lra. }
  assert (CL : dnn COMISION_VENTAS_LIMITE) by (cbn; lia).
  unfold calcular_bonos. cbv zeta. por_tipo e; cbn [bind].
  - destruct (_ >=? _); [|cbn [bind]; left; eauto].
    destruct (salario_base e) as [b|]; [|right; reflexivity].
    cbn [float_de_columna bind].
    destruct Hb as [B0 B1]. destruct (acotado_val b B0 B1) as [Db Vb].
    destruct (porcentaje_nn b BONO_ANTIGUEDAD_PORCENTAJE Db Vb (proj1 C10) (proj2 C10)) as [Dp _].
    paso_dadd. left; eauto.
  - left; eauto.
  - unfold dgt. destruct (dlt_finitos COMISION_VENTAS_LIMITE v CL Dv) as [r ->]. cbn [bind].
    destruct r; [|left; eauto].
    destruct (porcentaje_nn v BONO_VENTAS_PORCENTAJE Dv Vv (proj1 C3) (proj2 C3)) as [Dp _].
    paso_dadd. left; eauto.
  - left; eauto.
  - left; eauto.
Qed.

(** The gross salary of inputs in range is computed, finite, not negative
    and far below the float range; the only error is the unsupported
    employee type. *)
Lemma calcular_salario_bruto_cota e h x v :
  columna_en_rango (salario_base e) -> columna_en_rango (tarifa_hora e) ->
  columna_en_rango (porcentaje_comision e) ->
  en_rango h -> en_rango x -> en_rango v ->
  (exists G, calcular_salario_bruto e h x v = Ok G /\ dnn G /\ (dval G <= B2 950)%R)
  \/ (exists c, calcular_salario_bruto e h x v = Raise (ValidacionNominaException c)).
Proof.
  intros Hb Ht Hp [H0 H1] [X0 X1] [V0 V1].
  destruct (columna_val _ Hb) as [Db Vb]. destruct (columna_val _ Ht) as [Dt Vt].
  destruct (columna_val _ Hp) as [Dp Vp].
  destruct (acotado_val h H0 H1) as [Dh Vh]. destruct (acotado_val x X0 X1) as [Dx Vx].
  destruct (acotado_val v V0 V1) as [Dv Vv].
  destruct cota_entradas as [M1 [M2 [E960 G950]]]. pose proof eta_chico as Heta.
  set (M := B10 100) in *.
  unfold calcular_salario_bruto. cbv zeta. por_tipo e.
  - left. unfold _calcular_asalariado. eexists. split; [reflexivity|]. split; [exact Db|nra].
  - left. unfold _calcular_por_horas. rewrite H0. cbn [bind]. rewrite X0. cbn [bind].
    set (t := decimal_or_0 (tarifa_hora e)) in *.
    pose proof (dval_nonneg h Dh). pose proof (dval_nonneg x Dx). pose proof (dval_nonneg t Dt).
    assert (Dm : dnn MULTIPLICADOR_HORA_EXTRA) by (cbn; lia).
    assert (Vm : dval MULTIPLICADOR_HORA_EXTRA = (15 / 10)%R)
      by (unfold MULTIPLICADOR_HORA_EXTRA; cbn [dval]; rewrite B10_m1; lra).
    do 3 paso_dmul. paso_dadd.
    pose proof (prod_cota (dval h) (dval t) M M ltac:(lra) ltac:(lra)).
    pose proof (prod_cota (dval x) (dval t) M M ltac:(lra) ltac:(lra)).
    pose proof (dval_nonneg z Dz). pose proof (dval_nonneg z0 Dz0).
    pose proof (dval_nonneg z1 Dz1). pose proof (dval_nonneg z2 Dz2).
    rewrite Vm in Vz1.
    assert (S2 : (dval z2 <= 253 / 100 * (M * M))%R) by nra.
    destruct (float_of_decimal_cota z2 Dz2 ltac:(nra)) as [Fy Vy].
    destruct (redondear_decimal_cota _ Fy ltac:(nra)) as [Dr [Vr _]].
    eexists. split; [reflexivity|]. split; [exact Dr|]. nra.
  - unfold _calcular_por_comision. rewrite V0. cbn [bind]. cbv zeta.
    destruct (porcentaje_nn v _ Dv Vv Dp Vp) as [Dc Vc]. fold M in Vc.
    pose proof (dval_nonneg _ Db). pose proof (dval_nonneg _ Dc).
    destruct (dadd_cota _ _ Db Dc) as [G [-> [DG VG]]].
    assert (M <= M * M)%R by nra.
    left. eexists. split; [reflexivity|]. split; [exact DG|]. lra.
  - left. unfold _calcular_temporal. eexists. split; [reflexivity|]. split; [exact Db|nra].
  - right. eauto.
Qed.

(** The closing steps of [calcular_nomina_completa]: with non-negative
    totals and deductions of at most half the gross salary, the net salary
    is not negative. *)
Lemma neto_no_negativo G B Be D :
  dnn G -> dnn B -> dnn Be -> dnn D -> (2 * dval D <= dval G)%R ->
  exists s1 s2 neto,
    dadd G B = Ok s1 /\ dadd s1 Be = Ok s2 /\ dsub s2 D = Ok neto
    /\ dnn neto /\ dlt neto dzero = Ok false.
Proof.
  intros DG DB DBe DD H.
  pose proof (dval_nonneg G DG). pose proof (dval_nonneg B DB).
  pose proof (dval_nonneg Be DBe). pose proof (dval_nonneg D DD).
  destruct (dadd_cota G B DG DB) as [s1 [E1 [D1 V1]]].
  destruct (dadd_cota s1 Be D1 DBe) as [s2 [E2 [D2 V2]]].
  destruct (dsub_nn s2 D D2 DD ltac:(lra)) as [neto [E3 D3]].
  exists s1, s2, neto. repeat split; try assumption. apply dlt_cero_nn. exact D3.
Qed.

(** C10, with the bound the floats need: for an employee whose monetary
    fields, where set, are not negative and below 10^100, and inputs that
    are not negative and below 10^100, [calcular_nomina_completa] never
    raises SalarioNegativoException.  When it returns, bonuses, benefits
    and net salary are not negative and the deductions are at most 6.522
    percent of the gross salary plus rounding (1.6 cents at most for the
    three lines, and one part in 10^12 for the float arithmetic). *)
Theorem C10_neto_en_rango hoy e h x v :
  columna_en_rango (salario_base e) -> columna_en_rango (tarifa_hora e) ->
  columna_en_rango (porcentaje_comision e) ->
  en_rango h -> en_rango x -> en_rango v ->
  match calcular_nomina_completa hoy e h x v with
  | Ok r =>
      dnn (c_total_bonos r) /\ dnn (c_total_beneficios r) /\ dnn (c_salario_neto r)
      /\ (dval (c_total_deducciones r)
          <= 6522 / 100000 * dval (c_salario_bruto r) * (1 + / 1000000000000) + 16 / 1000)%R
  | Raise ex => forall f i, ex <> SalarioNegativoException f i
  end.
Proof.
  intros Hb Ht Hp Hh Hx Hv. unfold calcular_nomina_completa.
  destruct (calcular_salario_bruto_cota e h x v Hb Ht Hp Hh Hx Hv) as [[G [-> [DG VG]]]|[c ->]];
    cbn [bind]; [|discriminate].
  destruct (calcular_bonos_nn hoy e v Hb Hv) as [[B [db [-> DB]]]| ->];
    cbn [bind]; [|discriminate].
  destruct (calcular_beneficios_nn hoy e) as [Be [dbe [-> DBe]]]. cbn [bind].
  destruct (calcular_deducciones_cota hoy e G DG VG) as [D [dd [-> [DD [VD VH]]]]]. cbn [bind].
  destruct (neto_no_negativo G B Be D DG DB DBe DD VH)
    as [s1 [s2 [neto [E1 [E2 [E3 [DN E4]]]]]]].
  rewrite E1. cbn [bind]. rewrite E2. cbn [bind]. rewrite E3. cbn [bind].
  rewrite E4. cbn [bind c_total_bonos c_total_beneficios c_salario_neto
                       c_total_deducciones c_salario_bruto].
  repeat split; assumption.
Qed.

(** The scenario of 160 hours and 10 overtime hours at 25000 is in range. *)
Lemma C10_neto_en_rango_testigo :
  match calcular_nomina_completa hoy_ej emp_por_horas (DFin 160 0) (DFin 10 0) dzero with
  | Ok r =>
      dnn (c_total_bonos r) /\ dnn (c_total_beneficios r) /\ dnn (c_salario_neto r)
      /\ (dval (c_total_deducciones r)
          <= 6522 / 100000 * dval (c_salario_bruto r) * (1 + / 1000000000000) + 16 / 1000)%R
  | Raise ex => forall f i, ex <> SalarioNegativoException f i
  end.
Proof.
  apply (C10_neto_en_rango hoy_ej emp_por_horas (DFin 160 0) (DFin 10 0) dzero).
  - exact I.
  - split; reflexivity.
  - exact I.
  - split; reflexivity.
  - split; reflexivity.
  - split; reflexivity.
Defined.

(** C10 as stated fails: a base salary of 1E+308 is not negative, yet its
    4 percent overflows binary64; the deduction is Infinity, the net salary
    -Infinity, and SalarioNegativoException is raised. *)
Lemma C10_contraejemplo :
  dlt (DFin 1 308) dzero = Ok false
  /\ calcular_nomina_completa hoy_ej emp_enorme dzero dzero dzero
     = Raise (SalarioNegativoException (S754_infinity true) 9).
Proof. split; vm_compute; reflexivity. Qed.

(** ** The service, the repositories and the endpoints *)

(** *** Lists *)

Lemma sin_repetidos_app {A} (eqb : A -> A -> bool) (l : list A) x :
  (forall a b, eqb a b = eqb b a) ->
  sin_repetidos eqb (l ++ [x]) = sin_repetidos eqb l && negb (existsb (eqb x) l).
Proof.
  intros Hs. induction l as [|y l IH]; cbn [sin_repetidos app existsb].
  - reflexivity.
  - rewrite IH, existsb_app. cbn [existsb]. rewrite orb_false_r, (Hs x y).
    destruct (existsb (eqb y) l), (eqb y x), (sin_repetidos eqb l), (existsb (eqb x) l);
      reflexivity.
Qed.

Lemma sin_repetidos_filter {A B} (eqb : B -> B -> bool) (f : A -> B) (p : A -> bool) l :
  sin_repetidos eqb (map f l) = true -> sin_repetidos eqb (map f (filter p l)) = true.
Proof.
  induction l as [|y l IH]; cbn [map filter sin_repetidos]; [reflexivity|].
  intros H. apply andb_prop in H. destruct H as [H1 H2].
  destruct (p y); cbn [map sin_repetidos]; [|auto].
  rewrite (IH H2), andb_true_r. apply negb_true_iff. apply negb_true_iff in H1.
  apply not_true_iff_false. intros E. apply not_true_iff_false in H1. apply H1.
  apply existsb_exists in E. destruct E as [b [Hb Eb]]. apply existsb_exists.
  exists b. split; [|exact Eb]. apply in_map_iff in Hb. destruct Hb as [a [<- Ha]].
  apply in_map. apply filter_In in Ha. tauto.
Qed.

Lemma forallb_app_uno {A} (p : A -> bool) l x :
  forallb p (l ++ [x]) = forallb p l && p x.
Proof. rewrite forallb_app. cbn. rewrite andb_true_r. reflexivity. Qed.

Lemma forallb_impl {A} (p q : A -> bool) l :
  (forall a, p a = true -> q a = true) -> forallb p l = true -> forallb q l = true.
Proof.
  intros H. rewrite !forallb_forall. auto.
Qed.

Lemma forallb_filter {A} (p q : A -> bool) l :
  forallb p l = true -> forallb p (filter q l) = true.
Proof.
  rewrite !forallb_forall. intros H a Ha. apply filter_In in Ha. apply H, Ha.
Qed.

Lemma filter_todos {A} (p : A -> bool) l : forallb p l = true -> filter p l = l.
Proof.
  induction l as [|y l IH]; cbn [forallb filter]; [reflexivity|].
  intros H. apply andb_prop in H. destruct H as [-> H]. rewrite (IH H). reflexivity.
Qed.

Lemma filter_ninguno {A} (p : A -> bool) l : forallb (fun a => negb (p a)) l = true -> filter p l = [].
Proof.
  induction l as [|y l IH]; cbn [forallb filter]; [reflexivity|].
  intros H. apply andb_prop in H. destruct H as [H1 H]. apply negb_true_iff in H1.
  rewrite H1. exact (IH H).
Qed.

Lemma find_app_none {A} (p : A -> bool) l l' :
  find p l = None -> find p (l ++ l') = find p l'.
Proof.
  induction l as [|y l IH]; cbn [find app]; [reflexivity|].
  destruct (p y); [discriminate|exact IH].
Qed.

Lemma find_app_some {A} (p : A -> bool) l l' a :
  find p l = Some a -> find p (l ++ l') = Some a.
Proof.
  induction l as [|y l IH]; cbn [find app]; [discriminate|].
  destruct (p y); [auto|exact IH].
Qed.

Lemma find_none_forallb {A} (p : A -> bool) l :
  find p l = None <-> forallb (fun a => negb (p a)) l = true.
Proof.
  induction l as [|y l IH]; cbn [find forallb]; [tauto|].
  destruct (p y); cbn [negb andb]; [split; discriminate|exact IH].
Qed.

(** *** Creation *)


Lemma bd_ok_partes bd :
  bd_ok bd = true ->
  forallb (fun n => id_nomina n <? sig_id_nomina bd) (nominas bd) = true
  /\ forallb (fun f => fst f <? sig_id_nomina bd) (bonos bd) = true
  /\ forallb (fun f => fst f <? sig_id_nomina bd) (beneficios bd) = true
  /\ forallb (fun f => fst f <? sig_id_nomina bd) (deducciones bd) = true
  /\ forallb (fun a => a_id_nomina a <? sig_id_nomina bd) (auditorias bd) = true
  /\ sin_repetidos Z.eqb (map id_nomina (nominas bd)) = true
  /\ sin_repetidos par_eqb (map par_de (nominas bd)) = true.
Proof.
  unfold bd_ok. rewrite !andb_true_iff. tauto.
Qed.

Lemma bd_ok_de_partes bd :
  forallb (fun n => id_nomina n <? sig_id_nomina bd) (nominas bd) = true ->
  forallb (fun f => fst f <? sig_id_nomina bd) (bonos bd) = true ->
  forallb (fun f => fst f <? sig_id_nomina bd) (beneficios bd) = true ->
  forallb (fun f => fst f <? sig_id_nomina bd) (deducciones bd) = true ->
  forallb (fun a => a_id_nomina a <? sig_id_nomina bd) (auditorias bd) = true ->
  sin_repetidos Z.eqb (map id_nomina (nominas bd)) = true ->
  sin_repetidos par_eqb (map par_de (nominas bd)) = true ->
  bd_ok bd = true.
Proof.
  intros. unfold bd_ok. rewrite !andb_true_iff. tauto.
Qed.

Lemma nominas_sin_id bd :
  forallb (fun n => id_nomina n <? sig_id_nomina bd) (nominas bd) = true ->
  find (fun n => id_nomina n =? sig_id_nomina bd) (nominas bd) = None.
Proof.
  intros H. apply find_none_forallb. eapply forallb_impl; [|exact H]. cbn beta.
  intros a Ha. apply Z.ltb_lt in Ha. apply negb_true_iff, Z.eqb_neq. lia.
Qed.

(** What a successful creation returns and stores. *)
Lemma crear_exito hoy bd datos usr emp per c :
  empleado_get_by_id bd (nc_id_empleado datos) = Some emp ->
  periodo_get_by_id bd (nc_id_periodo datos) = Some per ->
  esta_cerrado per = false ->
  get_by_empleado_periodo bd (nc_id_empleado datos) (nc_id_periodo datos) = None ->
  calcular_nomina_completa hoy emp
    (decimal_or_0 (nc_horas_trabajadas datos)) (decimal_or_0 (nc_horas_extras datos))
    (decimal_or_0 (nc_ventas_realizadas datos)) = Ok c ->
  exists n a,
    calcular_y_crear_nomina hoy bd datos usr
    = (mkBD (empleados bd) (periodos bd) (nominas bd ++ [n])
         (bonos bd ++ filas (id_nomina n) (c_detalles_bonos c))
         (beneficios bd ++ filas (id_nomina n) (c_detalles_beneficios c))
         (deducciones bd ++ filas (id_nomina n) (c_detalles_deducciones c))
         (auditorias bd ++ [a]) (sig_id_nomina bd + 1), Ok n)
    /\ n = mkNomina (sig_id_nomina bd) (nc_id_empleado datos) (nc_id_periodo datos)
           (decimal_or_0 (nc_horas_trabajadas datos)) (decimal_or_0 (nc_horas_extras datos))
           (decimal_or_0 (nc_ventas_realizadas datos))
           (c_salario_bruto c) (c_total_bonos c) (c_total_beneficios c)
           (c_total_deducciones c) (c_salario_neto c) usr
    /\ a_id_nomina a = sig_id_nomina bd /\ accion a = "CREAR" /\ usuario a = usr
    /\ valores_anteriores a = None.
Proof.
  intros He Hp Hc Hn Hk. unfold calcular_y_crear_nomina.
  rewrite He, Hp, Hc, Hn, Hk. cbv zeta. cbn [id_nomina].
  exists (mkNomina (sig_id_nomina bd) (nc_id_empleado datos) (nc_id_periodo datos)
            (decimal_or_0 (nc_horas_trabajadas datos)) (decimal_or_0 (nc_horas_extras datos))
            (decimal_or_0 (nc_ventas_realizadas datos))
            (c_salario_bruto c) (c_total_bonos c) (c_total_beneficios c)
            (c_total_deducciones c) (c_salario_neto c) usr).
  eexists. split; [reflexivity|]. repeat split.
Qed.



(** X2.  Creating twice: after a successful creation, any further creation for
    the same employee and period fails with the duplicate error that names
    the id of the first payroll, and writes nothing. *)
Theorem crear_dos_veces hoy bd datos usr bd' n hoy2 datos2 usr2 :
  calcular_y_crear_nomina hoy bd datos usr = (bd', Ok n) ->
  nc_id_empleado datos2 = nc_id_empleado datos ->
  nc_id_periodo datos2 = nc_id_periodo datos ->
  calcular_y_crear_nomina hoy2 bd' datos2 usr2
  = (bd', Raise (NominaDuplicada (nc_id_empleado datos) (nc_id_periodo datos) (id_nomina n))).
Proof.
  intros E H1 H2. unfold calcular_y_crear_nomina in E.
  destruct (empleado_get_by_id bd (nc_id_empleado datos)) as [emp|] eqn:He; [|discriminate].
  destruct (periodo_get_by_id bd (nc_id_periodo datos)) as [per|] eqn:Hp; [|discriminate].
  destruct (esta_cerrado per) eqn:Hc; [discriminate|].
  destruct (get_by_empleado_periodo bd _ _) as [x|] eqn:Hn; [discriminate|].
  destruct (calcular_nomina_completa hoy emp _ _ _) as [c|ex] eqn:Hk; [|discriminate].
  cbv zeta in E. inversion E as [[Ebd En]]. clear E.
  unfold calcular_y_crear_nomina. rewrite H1, H2.
  unfold empleado_get_by_id, periodo_get_by_id, get_by_empleado_periodo in *.
  cbn [empleados periodos nominas]. rewrite He, Hp, Hc.
  rewrite find_app_none by exact Hn. cbn [find n_id_empleado n_id_periodo].
  rewrite !Z.eqb_refl. cbn [andb id_nomina]. reflexivity.
Qed.

Lemma crear_dos_veces_testigo :
  calcular_y_crear_nomina hoy_ej bd_creada datos_ej "luis"
  = (bd_creada, Raise (NominaDuplicada 3 1 1)).
Proof.
  assert (E : calcular_y_crear_nomina hoy_ej bd_nueva datos_ej "ana"
              = (bd_creada, Ok nomina_creada)) by (vm_compute; reflexivity).
  exact (crear_dos_veces hoy_ej bd_nueva datos_ej "ana" bd_creada nomina_creada
           hoy_ej datos_ej "luis" E eq_refl eq_refl).
Defined.

(** *** Deletion *)

Lemma filter_filter_sub {A} (p q : A -> bool) l :
  (forall a, p a = true -> q a = true) -> filter p (filter q l) = filter p l.
Proof.
  intros H. induction l as [|y l IH]; cbn [filter]; [reflexivity|].
  destruct (q y) eqn:Q; cbn [filter].
  - rewrite IH. reflexivity.
  - destruct (p y) eqn:P; [rewrite (H y P) in Q; discriminate|exact IH].
Qed.

Lemma filter_filter_vacio {A} (p q : A -> bool) l :
  (forall a, p a = true -> q a = false) -> filter p (filter q l) = [].
Proof.
  intros H. induction l as [|y l IH]; cbn [filter]; [reflexivity|].
  destruct (q y) eqn:Q; cbn [filter]; [|exact IH].
  destruct (p y) eqn:P; [rewrite (H y P) in Q; discriminate|exact IH].
Qed.

Lemma find_filter_sub {A} (p q : A -> bool) l :
  (forall a, p a = true -> q a = true) -> find p (filter q l) = find p l.
Proof.
  intros H. induction l as [|y l IH]; cbn [filter find]; [reflexivity|].
  destruct (q y) eqn:Q; cbn [find].
  - rewrite IH. reflexivity.
  - destruct (p y) eqn:P; [rewrite (H y P) in Q; discriminate|exact IH].
Qed.

Lemma find_filter_vacio {A} (p q : A -> bool) l :
  (forall a, p a = true -> q a = false) -> find p (filter q l) = None.
Proof.
  intros H. induction l as [|y l IH]; cbn [filter find]; [reflexivity|].
  destruct (q y) eqn:Q; cbn [find]; [|exact IH].
  destruct (p y) eqn:P; [rewrite (H y P) in Q; discriminate|exact IH].
Qed.

Lemma nomina_get_by_id_id bd id n : nomina_get_by_id bd id = Some n -> id_nomina n = id.
Proof.
  unfold nomina_get_by_id. intros H. apply find_some in H. destruct H as [_ H].
  apply Z.eqb_eq. exact H.
Qed.

(** What a deletion that passes the checks leaves. *)
Lemma eliminar_exito bd id usr n per :
  nomina_get_by_id bd id = Some n ->
  periodo_get_by_id bd (n_id_periodo n) = Some per ->
  esta_cerrado per = false ->
  eliminar_nomina bd id usr
  = (mkBD (empleados bd) (periodos bd)
       (filter (fun x => negb (id_nomina x =? id)) (nominas bd))
       (filter (no_es_de id) (bonos bd))
       (filter (no_es_de id) (beneficios bd))
       (filter (no_es_de id) (deducciones bd))
       (filter (fun a => negb (a_id_nomina a =? id)) (auditorias bd))
       (sig_id_nomina bd), Ok true).
Proof.
  intros Hn Hp Hc. pose proof (nomina_get_by_id_id _ _ _ Hn) as Hid.
  unfold eliminar_nomina. rewrite Hn, Hp, Hc. cbv zeta.
  unfold nomina_delete, nomina_get_by_id in *. cbn [nominas]. rewrite Hn.
  cbn [empleados periodos nominas bonos beneficios deducciones auditorias sig_id_nomina].
  rewrite Hid. rewrite filter_app. cbn [filter a_id_nomina]. rewrite Z.eqb_refl.
  cbn [negb]. rewrite app_nil_r. reflexivity.
Qed.

(** X3.  Deleting a payroll of an open period: the call returns True; after it
    the payroll is not found, no bonus, benefit or deduction line and no
    audit entry refers to it (the entry ELIMINAR written by the call is
    deleted with the payroll); the other payrolls, their lines and their
    audit entries are as before; deleting again returns False and changes
    nothing. *)
Theorem eliminar_borra_todo bd id usr n per :
  nomina_get_by_id bd id = Some n ->
  periodo_get_by_id bd (n_id_periodo n) = Some per ->
  esta_cerrado per = false ->
  exists bd',
    eliminar_nomina bd id usr = (bd', Ok true)
    /\ obtener_nomina_detallada bd' id = None
    /\ filas_de id (bonos bd') = [] /\ filas_de id (beneficios bd') = []
    /\ filas_de id (deducciones bd') = []
    /\ auditorias_de id (auditorias bd') = []
    /\ (forall id', id' <> id ->
          obtener_nomina_detallada bd' id' = obtener_nomina_detallada bd id'
          /\ filas_de id' (bonos bd') = filas_de id' (bonos bd)
          /\ filas_de id' (beneficios bd') = filas_de id' (beneficios bd)
          /\ filas_de id' (deducciones bd') = filas_de id' (deducciones bd)
          /\ auditorias_de id' (auditorias bd') = auditorias_de id' (auditorias bd))
    /\ forall usr2, eliminar_nomina bd' id usr2 = (bd', Ok false).
Proof.
  intros Hn Hp Hc. eexists. split; [exact (eliminar_exito bd id usr n per Hn Hp Hc)|].
  unfold obtener_nomina_detallada, nomina_get_by_id, filas_de, auditorias_de, no_es_de.
  cbn [nominas bonos beneficios deducciones auditorias].
  assert (V : forall (A : Type) (f : A -> Z) (l : list A),
            filter (fun a => f a =? id) (filter (fun a => negb (f a =? id)) l) = []).
  { intros. apply filter_filter_vacio. intros a ->. reflexivity. }
  assert (S : forall (A : Type) (f : A -> Z) (l : list A) id', id' <> id ->
            filter (fun a => f a =? id') (filter (fun a => negb (f a =? id)) l)
            = filter (fun a => f a =? id') l).
  { intros A f l id' Hne. apply filter_filter_sub. intros a Ha. apply Z.eqb_eq in Ha.
    apply negb_true_iff, Z.eqb_neq. lia. }
  assert (F0 : find (fun x => id_nomina x =? id)
                 (filter (fun x => negb (id_nomina x =? id)) (nominas bd)) = None).
  { apply find_filter_vacio. intros a ->. reflexivity. }
  split; [exact F0|].
  split; [apply (V _ fst)|]. split; [apply (V _ fst)|]. split; [apply (V _ fst)|].
  split; [apply (V _ a_id_nomina)|]. split.
  - intros id' Hne. split.
    + apply find_filter_sub. intros a Ha. apply Z.eqb_eq in Ha.
      apply negb_true_iff, Z.eqb_neq. lia.
    + split; [apply (S _ fst); exact Hne|]. split; [apply (S _ fst); exact Hne|].
      split; [apply (S _ fst); exact Hne|]. apply (S _ a_id_nomina); exact Hne.
  - intros usr2. unfold eliminar_nomina, nomina_get_by_id. cbn [nominas]. rewrite F0.
    reflexivity.
Qed.

Lemma eliminar_borra_todo_testigo :
  exists bd',
    eliminar_nomina bd_creada 1 "ana" = (bd', Ok true)
    /\ obtener_nomina_detallada bd' 1 = None
    /\ auditorias_de 1 (auditorias bd') = [].
Proof.
  destruct (eliminar_borra_todo bd_creada 1 "ana" nomina_creada (mkPeriodo 1 2024 6 ABIERTO)
              eq_refl eq_refl eq_refl) as (bd' & E & H1 & _ & _ & _ & H5 & _).
  exists bd'. repeat split; assumption.
Defined.

(** X4.  Creation undone by deletion: on a well-formed store, deleting the
    payroll that a creation has just returned restores the payrolls, the
    three detail tables and the audit table to what they were before the
    creation; only the counter of the next id has moved. *)
Theorem crear_y_eliminar hoy bd datos usr bd1 n usr2 :
  bd_ok bd = true ->
  calcular_y_crear_nomina hoy bd datos usr = (bd1, Ok n) ->
  eliminar_nomina bd1 (id_nomina n) usr2
  = (mkBD (empleados bd) (periodos bd) (nominas bd) (bonos bd) (beneficios bd)
       (deducciones bd) (auditorias bd) (sig_id_nomina bd + 1), Ok true).
Proof.
  intros Hok E.
  destruct (bd_ok_partes bd Hok) as (I1 & I2 & I3 & I4 & I5 & I6 & I7).
  pose proof E as E0. unfold calcular_y_crear_nomina in E0.
  destruct (empleado_get_by_id bd (nc_id_empleado datos)) as [emp|] eqn:He; [|discriminate].
  destruct (periodo_get_by_id bd (nc_id_periodo datos)) as [per|] eqn:Hp; [|discriminate].
  destruct (esta_cerrado per) eqn:Hc; [discriminate|].
  destruct (get_by_empleado_periodo bd _ _) as [x|] eqn:Hn; [discriminate|].
  destruct (calcular_nomina_completa hoy emp _ _ _) as [c|ex] eqn:Hk; [|discriminate].
  clear E0.
  destruct (crear_exito hoy bd datos usr emp per c He Hp Hc Hn Hk)
    as (n' & a & E' & En & A1 & _).
  rewrite E in E'. injection E' as Ebd Enn. rewrite <- Enn in *. clear Enn n'.
  assert (Hid : id_nomina n = sig_id_nomina bd) by (rewrite En; reflexivity).
  assert (Hper : n_id_periodo n = nc_id_periodo datos) by (rewrite En; reflexivity).
  assert (G : nomina_get_by_id bd1 (id_nomina n) = Some n).
  { rewrite Ebd. unfold nomina_get_by_id. cbn [nominas].
    rewrite find_app_none; [cbn [find]; rewrite Z.eqb_refl; reflexivity|].
    rewrite Hid. apply nominas_sin_id, I1. }
  assert (P : periodo_get_by_id bd1 (n_id_periodo n) = Some per).
  { rewrite Ebd, Hper. exact Hp. }
  rewrite (eliminar_exito bd1 (id_nomina n) usr2 n per G P Hc).
  rewrite Ebd. cbn [empleados periodos nominas bonos beneficios deducciones auditorias
                    sig_id_nomina].
  assert (K : forall (A : Type) (f : A -> Z) (l l' : list A),
            forallb (fun a => f a <? sig_id_nomina bd) l = true ->
            forallb (fun a => f a =? sig_id_nomina bd) l' = true ->
            filter (fun a => negb (f a =? sig_id_nomina bd)) (l ++ l') = l).
  { intros A f l l' H1 H2. rewrite filter_app.
    rewrite (filter_todos _ l), (filter_ninguno _ l'), app_nil_r; [reflexivity| |].
    - eapply forallb_impl; [|exact H2]. cbn beta. intros b ->. reflexivity.
    - eapply forallb_impl; [|exact H1]. cbn beta. intros b Hb. apply Z.ltb_lt in Hb.
      apply negb_true_iff, Z.eqb_neq. lia. }
  assert (KF : forall d, forallb (fun f : fila_detalle => fst f =? sig_id_nomina bd)
                           (filas (sig_id_nomina bd) d) = true).
  { intros d. unfold filas. rewrite forallb_forall. intros f Hf. apply in_map_iff in Hf.
    destruct Hf as [kv [<- _]]. cbn. apply Z.eqb_refl. }
  rewrite Hid. unfold no_es_de.
  rewrite (K _ id_nomina (nominas bd) [n] I1)
    by (cbn [forallb]; rewrite Hid, Z.eqb_refl; reflexivity).
  rewrite (K _ fst (bonos bd) _ I2 (KF _)).
  rewrite (K _ fst (beneficios bd) _ I3 (KF _)).
  rewrite (K _ fst (deducciones bd) _ I4 (KF _)).
  rewrite (K _ a_id_nomina (auditorias bd) [a] I5)
    by (cbn [forallb]; rewrite A1, Z.eqb_refl; reflexivity).
  reflexivity.
Qed.

Lemma crear_y_eliminar_testigo :
  eliminar_nomina bd_creada 1 "luis"
  = (mkBD [emp_por_horas] [mkPeriodo 1 2024 6 ABIERTO] [] [] [] [] [] 2, Ok true).
Proof.
  assert (E : calcular_y_crear_nomina hoy_ej bd_nueva datos_ej "ana"
              = (bd_creada, Ok nomina_creada)) by (vm_compute; reflexivity).
  exact (crear_y_eliminar hoy_ej bd_nueva datos_ej "ana" bd_creada nomina_creada "luis"
           eq_refl E).
Defined.

(** *** Failures *)

(** Whatever a creation returns, it is either a failure that leaves the
    store as it was, or the success described by [crear_exito]. *)
Lemma crear_casos hoy bd datos usr :
  (exists ex, calcular_y_crear_nomina hoy bd datos usr = (bd, Raise ex))
  \/ (exists emp per c,
        empleado_get_by_id bd (nc_id_empleado datos) = Some emp
        /\ periodo_get_by_id bd (nc_id_periodo datos) = Some per
        /\ esta_cerrado per = false
        /\ get_by_empleado_periodo bd (nc_id_empleado datos) (nc_id_periodo datos) = None
        /\ calcular_nomina_completa hoy emp
             (decimal_or_0 (nc_horas_trabajadas datos)) (decimal_or_0 (nc_horas_extras datos))
             (decimal_or_0 (nc_ventas_realizadas datos)) = Ok c).
Proof.
  unfold calcular_y_crear_nomina.
  destruct (empleado_get_by_id bd (nc_id_empleado datos)) as [emp|] eqn:He; [|left; eauto].
  destruct (periodo_get_by_id bd (nc_id_periodo datos)) as [per|] eqn:Hp; [|left; eauto].
  destruct (esta_cerrado per) eqn:Hc; [left; eauto|].
  destruct (get_by_empleado_periodo bd _ _) as [x|] eqn:Hn; [left; eauto|].
  destruct (calcular_nomina_completa hoy emp _ _ _) as [c|ex] eqn:Hk; [|left; eauto].
  right. exists emp, per, c. repeat split; assumption.
Qed.

Lemma recalcular_casos hoy bd id upd usr :
  (exists ex, recalcular_nomina hoy bd id upd usr = (bd, Raise ex))
  \/ (exists n per emp c,
        nomina_get_by_id bd id = Some n
        /\ periodo_get_by_id bd (n_id_periodo n) = Some per
        /\ esta_cerrado per = false
        /\ empleado_get_by_id bd (n_id_empleado n) = Some emp
        /\ calcular_nomina_completa hoy emp
             (actualizar (nu_horas_trabajadas upd) (horas_trabajadas n))
             (actualizar (nu_horas_extras upd) (horas_extras n))
             (actualizar (nu_ventas_realizadas upd) (ventas_realizadas n)) = Ok c
        /\ exists a,
             recalcular_nomina hoy bd id upd usr
             = (mkBD (empleados bd) (periodos bd)
                  (reemplazar_nomina
                     (mkNomina (id_nomina n) (n_id_empleado n) (n_id_periodo n)
                        (actualizar (nu_horas_trabajadas upd) (horas_trabajadas n))
                        (actualizar (nu_horas_extras upd) (horas_extras n))
                        (actualizar (nu_ventas_realizadas upd) (ventas_realizadas n))
                        (c_salario_bruto c) (c_total_bonos c) (c_total_beneficios c)
                        (c_total_deducciones c) (c_salario_neto c) usr) (nominas bd))
                  (filter (no_es_de (id_nomina n)) (bonos bd)
                     ++ filas (id_nomina n) (c_detalles_bonos c))
                  (filter (no_es_de (id_nomina n)) (beneficios bd)
                     ++ filas (id_nomina n) (c_detalles_beneficios c))
                  (filter (no_es_de (id_nomina n)) (deducciones bd)
                     ++ filas (id_nomina n) (c_detalles_deducciones c))
                  (auditorias bd ++ [a]) (sig_id_nomina bd),
                Ok (mkNomina (id_nomina n) (n_id_empleado n) (n_id_periodo n)
                      (actualizar (nu_horas_trabajadas upd) (horas_trabajadas n))
                      (actualizar (nu_horas_extras upd) (horas_extras n))
                      (actualizar (nu_ventas_realizadas upd) (ventas_realizadas n))
                      (c_salario_bruto c) (c_total_bonos c) (c_total_beneficios c)
                      (c_total_deducciones c) (c_salario_neto c) usr))
             /\ a_id_nomina a = id_nomina n /\ accion a = "RECALCULAR").
Proof.
  unfold recalcular_nomina.
  destruct (nomina_get_by_id bd id) as [n|] eqn:Hn; [|left; eauto].
  destruct (periodo_get_by_id bd (n_id_periodo n)) as [per|] eqn:Hp; [|left; eauto].
  destruct (esta_cerrado per) eqn:Hc; [left; eauto|]. cbv zeta.
  destruct (empleado_get_by_id bd (n_id_empleado n)) as [emp|] eqn:He; [|left; eauto].
  destruct (calcular_nomina_completa hoy emp _ _ _) as [c|ex] eqn:Hk; [|left; eauto].
  right. exists n, per, emp, c. repeat split; try assumption.
  eexists. split; [reflexivity|]. split; reflexivity.
Qed.

Lemma eliminar_casos bd id usr :
  eliminar_nomina bd id usr = (bd, Ok false) /\ nomina_get_by_id bd id = None
  \/ (exists ex, eliminar_nomina bd id usr = (bd, Raise ex))
  \/ (exists n per, nomina_get_by_id bd id = Some n
                    /\ periodo_get_by_id bd (n_id_periodo n) = Some per
                    /\ esta_cerrado per = false).
Proof.
  unfold eliminar_nomina.
  destruct (nomina_get_by_id bd id) as [n|] eqn:Hn; [|left; split; reflexivity].
  destruct (periodo_get_by_id bd (n_id_periodo n)) as [per|] eqn:Hp; [|right; left; eauto].
  destruct (esta_cerrado per) eqn:Hc; [right; left; eauto|].
  right; right. exists n, per. repeat split; assumption.
Qed.

(** X5.  All or nothing: a call of the service that fails (creation,
    recalculation or deletion raising an exception, deletion returning
    False) leaves payrolls, detail lines and audit trail exactly as they
    were. *)
Theorem fallo_sin_escrituras hoy bd :
  (forall datos usr bd' ex,
     calcular_y_crear_nomina hoy bd datos usr = (bd', Raise ex) -> bd' = bd)
  /\ (forall id upd usr bd' ex,
        recalcular_nomina hoy bd id upd usr = (bd', Raise ex) -> bd' = bd)
  /\ (forall id usr bd' ex, eliminar_nomina bd id usr = (bd', Raise ex) -> bd' = bd)
  /\ (forall id usr bd', eliminar_nomina bd id usr = (bd', Ok false) -> bd' = bd).
Proof.
  split; [|split; [|split]].
  - intros datos usr bd' ex E.
    destruct (crear_casos hoy bd datos usr) as [[ex' E']|(emp & per & c & He & Hp & Hc & Hn & Hk)].
    + rewrite E' in E. congruence.
    + destruct (crear_exito hoy bd datos usr emp per c He Hp Hc Hn Hk) as (n & a & E' & _).
      rewrite E' in E. discriminate.
  - intros id upd usr bd' ex E.
    destruct (recalcular_casos hoy bd id upd usr)
      as [[ex' E']|(n & per & emp & c & _ & _ & _ & _ & _ & a & E' & _)];
      rewrite E' in E; [congruence|discriminate].
  - intros id usr bd' ex E.
    destruct (eliminar_casos bd id usr) as [[E' _]|[[ex' E']|(n & per & Hn & Hp & Hc)]].
    + rewrite E' in E. discriminate.
    + rewrite E' in E. congruence.
    + rewrite (eliminar_exito bd id usr n per Hn Hp Hc) in E. discriminate.
  - intros id usr bd' E.
    destruct (eliminar_casos bd id usr) as [[E' _]|[[ex' E']|(n & per & Hn & Hp & Hc)]].
    + rewrite E' in E. congruence.
    + rewrite E' in E. discriminate.
    + rewrite (eliminar_exito bd id usr n per Hn Hp Hc) in E. discriminate.
Qed.

Lemma fallo_sin_escrituras_testigo :
  fst (recalcular_nomina hoy_ej bd_cerrada 1 update_ej "ana") = bd_cerrada.
Proof.
  exact (proj1 (proj2 (fallo_sin_escrituras hoy_ej bd_cerrada)) 1 update_ej "ana"
           (fst (recalcular_nomina hoy_ej bd_cerrada 1 update_ej "ana"))
           (PeriodoCerradoException 1) eq_refl).
Defined.

(** *** The store stays well-formed *)

Lemma forallb_map {A B} (f : A -> B) (p : B -> bool) l :
  forallb p (map f l) = forallb (fun a => p (f a)) l.
Proof. induction l as [|y l IH]; cbn [map forallb]; [reflexivity|]. rewrite IH. reflexivity. Qed.

Lemma existsb_map {A B} (f : A -> B) (p : B -> bool) l :
  existsb p (map f l) = existsb (fun a => p (f a)) l.
Proof. induction l as [|y l IH]; cbn [map existsb]; [reflexivity|]. rewrite IH. reflexivity. Qed.

Lemma existsb_false_forallb {A} (p : A -> bool) l :
  forallb (fun a => negb (p a)) l = true -> existsb p l = false.
Proof.
  induction l as [|y l IH]; cbn [forallb existsb]; [reflexivity|].
  intros H. apply andb_prop in H. destruct H as [H1 H]. apply negb_true_iff in H1.
  rewrite H1, (IH H). reflexivity.
Qed.

Lemma par_eqb_sym a b : par_eqb a b = par_eqb b a.
Proof. unfold par_eqb. rewrite (Z.eqb_sym (fst a)), (Z.eqb_sym (snd a)). reflexivity. Qed.

Lemma filas_menores id sig (d : detalles) :
  id < sig -> forallb (fun f : fila_detalle => fst f <? sig) (filas id d) = true.
Proof.
  intros H. unfold filas. rewrite forallb_forall. intros f Hf. apply in_map_iff in Hf.
  destruct Hf as [kv [<- _]]. cbn. apply Z.ltb_lt. exact H.
Qed.

Lemma forallb_sube {A} (f : A -> Z) a b l :
  a <= b -> forallb (fun x => f x <? a) l = true -> forallb (fun x => f x <? b) l = true.
Proof.
  intros H. apply forallb_impl. cbn beta. intros x Hx. apply Z.ltb_lt in Hx.
  apply Z.ltb_lt. lia.
Qed.

Lemma crear_conserva hoy bd datos usr :
  bd_ok bd = true -> bd_ok (fst (calcular_y_crear_nomina hoy bd datos usr)) = true.
Proof.
  intros Hok.
  destruct (crear_casos hoy bd datos usr) as [[ex E]|(emp & per & c & He & Hp & Hc & Hn & Hk)].
  - rewrite E. exact Hok.
  - destruct (crear_exito hoy bd datos usr emp per c He Hp Hc Hn Hk)
      as (n & a & E & En & A1 & _).
    rewrite E. cbn [fst].
    destruct (bd_ok_partes bd Hok) as (I1 & I2 & I3 & I4 & I5 & I6 & I7).
    assert (Hid : id_nomina n = sig_id_nomina bd) by (rewrite En; reflexivity).
    assert (Hpar : par_de n = (nc_id_empleado datos, nc_id_periodo datos))
      by (rewrite En; reflexivity).
    apply bd_ok_de_partes;
      cbn [nominas bonos beneficios deducciones auditorias sig_id_nomina].
    + rewrite forallb_app_uno, (forallb_sube id_nomina (sig_id_nomina bd) (sig_id_nomina bd + 1) _ ltac:(lia) I1), Hid.
      apply Z.ltb_lt. lia.
    + rewrite forallb_app. apply andb_true_intro. split;
        [exact (forallb_sube fst (sig_id_nomina bd) (sig_id_nomina bd + 1) _ ltac:(lia) I2)
        |apply filas_menores; lia].
    + rewrite forallb_app. apply andb_true_intro. split;
        [exact (forallb_sube fst (sig_id_nomina bd) (sig_id_nomina bd + 1) _ ltac:(lia) I3)
        |apply filas_menores; lia].
    + rewrite forallb_app. apply andb_true_intro. split;
        [exact (forallb_sube fst (sig_id_nomina bd) (sig_id_nomina bd + 1) _ ltac:(lia) I4)
        |apply filas_menores; lia].
    + rewrite forallb_app_uno, (forallb_sube a_id_nomina (sig_id_nomina bd) (sig_id_nomina bd + 1) _ ltac:(lia) I5), A1.
      apply Z.ltb_lt. lia.
    + rewrite map_app. cbn [map]. rewrite sin_repetidos_app by apply Z.eqb_sym.
      rewrite I6, existsb_map, existsb_false_forallb; [reflexivity|].
      eapply forallb_impl; [|exact I1]. cbn beta. intros x Hx. apply Z.ltb_lt in Hx.
      apply negb_true_iff, Z.eqb_neq. lia.
    + rewrite map_app. cbn [map]. rewrite sin_repetidos_app by apply par_eqb_sym.
      rewrite I7, existsb_map, existsb_false_forallb; [reflexivity|].
      unfold get_by_empleado_periodo in Hn. apply find_none_forallb in Hn.
      eapply forallb_impl; [|exact Hn]. cbn beta. intros x Hx. rewrite Hpar.
      unfold par_eqb, par_de. cbn [fst snd].
      rewrite (Z.eqb_sym (nc_id_empleado datos)), (Z.eqb_sym (nc_id_periodo datos)). exact Hx.
Qed.

Lemma sin_repetidos_unico (l : list Nomina) x n :
  sin_repetidos Z.eqb (map id_nomina l) = true ->
  In x l -> In n l -> id_nomina x = id_nomina n -> x = n.
Proof.
  induction l as [|y l IH]; cbn [map sin_repetidos]; [intros _ []|].
  intros H Hx Hn E. apply andb_prop in H. destruct H as [H1 H2].
  apply negb_true_iff in H1.
  assert (N : forall z, In z l -> id_nomina z <> id_nomina y).
  { intros z Hz Ez. apply not_true_iff_false in H1. apply H1. apply existsb_exists.
    exists (id_nomina z). split; [apply in_map; exact Hz|]. apply Z.eqb_eq. congruence. }
  destruct Hx as [->|Hx], Hn as [->|Hn].
  - reflexivity.
  - exfalso. exact (N n Hn (eq_sym E)).
  - exfalso. exact (N x Hx E).
  - exact (IH H2 Hx Hn E).
Qed.

Lemma reemplazar_conserva_claves (l : list Nomina) n n' :
  sin_repetidos Z.eqb (map id_nomina l) = true -> In n l ->
  id_nomina n' = id_nomina n -> par_de n' = par_de n ->
  map id_nomina (reemplazar_nomina n' l) = map id_nomina l
  /\ map par_de (reemplazar_nomina n' l) = map par_de l.
Proof.
  intros Hu Hn Hid Hpar. unfold reemplazar_nomina. rewrite !map_map.
  split; apply map_ext_in; intros x Hx; destruct (Z.eqb_spec (id_nomina x) (id_nomina n')) as [E|E];
    try reflexivity.
  - congruence.
  - rewrite Hid in E. rewrite (sin_repetidos_unico l x n Hu Hx Hn E). exact Hpar.
Qed.

Lemma recalcular_conserva hoy bd id upd usr :
  bd_ok bd = true -> bd_ok (fst (recalcular_nomina hoy bd id upd usr)) = true.
Proof.
  intros Hok.
  destruct (recalcular_casos hoy bd id upd usr)
    as [[ex E]|(n & per & emp & c & Hn & _ & _ & _ & _ & a & E & A1 & _)];
    rewrite E; [exact Hok|]. cbn [fst].
  destruct (bd_ok_partes bd Hok) as (I1 & I2 & I3 & I4 & I5 & I6 & I7).
  assert (Hin : In n (nominas bd)).
  { unfold nomina_get_by_id in Hn. apply find_some in Hn. tauto. }
  assert (Hlt : id_nomina n < sig_id_nomina bd).
  { rewrite forallb_forall in I1. apply Z.ltb_lt. exact (I1 n Hin). }
  set (n' := mkNomina _ _ _ _ _ _ _ _ _ _ _ _).
  destruct (reemplazar_conserva_claves (nominas bd) n n' I6 Hin eq_refl eq_refl) as [K1 K2].
  apply bd_ok_de_partes;
    cbn [nominas bonos beneficios deducciones auditorias sig_id_nomina].
  - rewrite <- (forallb_map id_nomina (fun i => i <? sig_id_nomina bd)), K1, forallb_map.
    exact I1.
  - rewrite forallb_app. apply andb_true_intro. split;
      [exact (forallb_filter _ _ _ I2)|apply filas_menores, Hlt].
  - rewrite forallb_app. apply andb_true_intro. split;
      [exact (forallb_filter _ _ _ I3)|apply filas_menores, Hlt].
  - rewrite forallb_app. apply andb_true_intro. split;
      [exact (forallb_filter _ _ _ I4)|apply filas_menores, Hlt].
  - rewrite forallb_app_uno, I5, A1. apply Z.ltb_lt, Hlt.
  - rewrite K1. exact I6.
  - rewrite K2. exact I7.
Qed.

Lemma eliminar_conserva bd id usr :
  bd_ok bd = true -> bd_ok (fst (eliminar_nomina bd id usr)) = true.
Proof.
  intros Hok.
  destruct (eliminar_casos bd id usr) as [[E _]|[[ex E]|(n & per & Hn & Hp & Hc)]];
    try (rewrite E; exact Hok).
  rewrite (eliminar_exito bd id usr n per Hn Hp Hc). cbn [fst].
  destruct (bd_ok_partes bd Hok) as (I1 & I2 & I3 & I4 & I5 & I6 & I7).
  apply bd_ok_de_partes;
    cbn [nominas bonos beneficios deducciones auditorias sig_id_nomina];
    try (apply forallb_filter; assumption);
    apply sin_repetidos_filter; assumption.
Qed.

Lemma procesar_conserva hoy idp usr bd r e :
  bd_ok bd = true -> bd_ok (fst (procesar_empleado hoy idp usr (bd, r) e)) = true.
Proof.
  intros Hok. unfold procesar_empleado.
  destruct (exists_nomina bd (id_empleado e) idp); [exact Hok|].
  pose proof (crear_conserva hoy bd
                (mkNominaCreate (id_empleado e) idp (Some dzero) (Some dzero) (Some dzero))
                usr Hok) as H.
  destruct (calcular_y_crear_nomina hoy bd _ usr) as [bd' [n|ex]]; exact H.
Qed.

Lemma bucle_conserva hoy idp usr l : forall bd r,
  bd_ok bd = true -> bd_ok (fst (fold_left (procesar_empleado hoy idp usr) l (bd, r))) = true.
Proof.
  induction l as [|e l IH]; intros bd r Hok; cbn [fold_left]; [exact Hok|].
  pose proof (procesar_conserva hoy idp usr bd r e Hok) as H.
  destruct (procesar_empleado hoy idp usr (bd, r) e) as [bd1 r1]. apply IH. exact H.
Qed.

(** X6.  Every operation of the service keeps the store well-formed, whatever
    its arguments and its outcome: after a creation, a recalculation, a
    deletion or a batch run, payroll ids are still distinct and below the
    counter, detail lines and audit entries refer to ids below the counter,
    and there is still at most one payroll per employee and period. *)
Theorem servicio_conserva_bd_ok hoy bd :
  bd_ok bd = true ->
  (forall datos usr, bd_ok (fst (calcular_y_crear_nomina hoy bd datos usr)) = true)
  /\ (forall id upd usr, bd_ok (fst (recalcular_nomina hoy bd id upd usr)) = true)
  /\ (forall id usr, bd_ok (fst (eliminar_nomina bd id usr)) = true)
  /\ (forall idp usr, bd_ok (fst (calcular_nominas_periodo hoy bd idp usr)) = true).
Proof.
  intros Hok. split; [|split; [|split]].
  - intros. apply crear_conserva, Hok.
  - intros. apply recalcular_conserva, Hok.
  - intros. apply eliminar_conserva, Hok.
  - intros idp usr. unfold calcular_nominas_periodo.
    destruct (periodo_get_by_id bd idp) as [per|]; [|exact Hok].
    destruct (esta_cerrado per); [exact Hok|]. cbv zeta.
    match goal with |- context [fold_left ?f ?l (bd, ?r0)] =>
      pose proof (bucle_conserva hoy idp usr l bd r0 Hok) as H;
      destruct (fold_left f l (bd, r0)) as [bd' r] end.
    exact H.
Qed.

Lemma servicio_conserva_bd_ok_testigo :
  bd_ok (fst (calcular_nominas_periodo hoy_ej bd_abierta 1 "SYSTEM")) = true.
Proof.
  exact (proj2 (proj2 (proj2 (servicio_conserva_bd_ok hoy_ej bd_abierta eq_refl))) 1 "SYSTEM").
Defined.

(** *** The batch *)

Lemma exists_nomina_app bd bd' e idp extra :
  nominas bd' = (nominas bd ++ extra)%list ->
  exists_nomina bd e idp = true -> exists_nomina bd' e idp = true.
Proof.
  unfold exists_nomina, get_by_empleado_periodo. intros ->.
  destruct (find _ (nominas bd)) as [x|] eqn:F; [|discriminate].
  rewrite (find_app_some _ _ extra x F). reflexivity.
Qed.

(** One turn of the loop: it appends at most one payroll, of the employee
    and as the batch builds it, recorded as a success with its id; after
    it, either the employee has a payroll in the period, or the creation
    fails for reasons that no payroll can change. *)
Lemma procesar_paso hoy idp usr bd r e bd' r' :
  procesar_empleado hoy idp usr (bd, r) e = (bd', r') ->
  empleados bd' = empleados bd /\ periodos bd' = periodos bd
  /\ ((nominas bd' = nominas bd /\ nominas_exitosas r' = nominas_exitosas r
       /\ total_exitosas r' = total_exitosas r)
      \/ (exists n x, nominas bd' = (nominas bd ++ [n])%list
                      /\ nominas_exitosas r' = (nominas_exitosas r ++ [x])%list
                      /\ ex_nomina_id x = id_nomina n
                      /\ ex_empleado_id x = n_id_empleado n
                      /\ n_id_empleado n = id_empleado e
                      /\ nomina_de_lote idp n))
  /\ (exists_nomina bd' (id_empleado e) idp = true \/ falla_en_todas hoy bd e idp).
Proof.
  unfold procesar_empleado. fold (datos_lote e idp).
  destruct (exists_nomina bd (id_empleado e) idp) eqn:X.
  - intros E. injection E as <- <-. cbn [nominas_exitosas agregar_fallida total_exitosas].
    repeat split; auto.
  - destruct (crear_casos hoy bd (datos_lote e idp) usr)
      as [[ex E]|(emp & per & c & He & Hp & Hc & Hn & Hk)].
    + rewrite E. intros E'. injection E' as <- <-.
      cbn [nominas_exitosas agregar_fallida total_exitosas]. repeat split; auto.
      right. intros bdx usr2 Ee Ep Xx.
      destruct (crear_casos hoy bdx (datos_lote e idp) usr2)
        as [[ex2 E2]|(emp2 & per2 & c2 & He2 & Hp2 & Hc2 & Hn2 & Hk2)]; [eauto|].
      exfalso.
      unfold empleado_get_by_id, periodo_get_by_id in *. rewrite Ee in He2. rewrite Ep in Hp2.
      assert (Hn : get_by_empleado_periodo bd (nc_id_empleado (datos_lote e idp))
                     (nc_id_periodo (datos_lote e idp)) = None).
      { unfold exists_nomina in X. cbn [datos_lote nc_id_empleado nc_id_periodo].
        destruct (get_by_empleado_periodo bd (id_empleado e) idp); [discriminate|reflexivity]. }
      destruct (crear_exito hoy bd (datos_lote e idp) usr emp2 per2 c2 He2 Hp2 Hc2 Hn Hk2)
        as (n & a & E3 & _).
      rewrite E3 in E. discriminate.
    + destruct (crear_exito hoy bd (datos_lote e idp) usr emp per c He Hp Hc Hn Hk)
        as (n & a & E & En & _).
      rewrite E. intros E'. injection E' as <- <-.
      cbn [empleados periodos nominas nominas_exitosas agregar_exitosa total_exitosas].
      split; [reflexivity|]. split; [reflexivity|]. split.
      * right. eexists. eexists. split; [reflexivity|]. split; [reflexivity|].
        rewrite En. cbn. repeat split.
      * left. unfold exists_nomina, get_by_empleado_periodo. cbn [nominas].
        rewrite find_app_none by exact Hn. cbn [find]. rewrite En.
        cbn [n_id_empleado n_id_periodo datos_lote nc_id_empleado nc_id_periodo].
        rewrite !Z.eqb_refl. reflexivity.
Qed.

Lemma falla_en_todas_ext hoy bd bd' e idp :
  empleados bd' = empleados bd -> periodos bd' = periodos bd ->
  falla_en_todas hoy bd e idp -> falla_en_todas hoy bd' e idp.
Proof.
  intros Ee Ep H bdx usr E1 E2. apply H; congruence.
Qed.

(** The whole loop. *)
Lemma bucle_efecto hoy idp usr (l : list Empleado) : forall bd r bd' r',
  fold_left (procesar_empleado hoy idp usr) l (bd, r) = (bd', r') ->
  empleados bd' = empleados bd /\ periodos bd' = periodos bd
  /\ (exists nuevas xs,
        nominas bd' = (nominas bd ++ nuevas)%list
        /\ nominas_exitosas r' = (nominas_exitosas r ++ xs)%list
        /\ map ex_nomina_id xs = map id_nomina nuevas
        /\ map ex_empleado_id xs = map n_id_empleado nuevas
        /\ incl (map n_id_empleado nuevas) (map id_empleado l)
        /\ Forall (nomina_de_lote idp) nuevas)
  /\ forall e, In e l ->
       exists_nomina bd' (id_empleado e) idp = true \/ falla_en_todas hoy bd e idp.
Proof.
  induction l as [|e l IH]; intros bd r bd' r' H; cbn [fold_left] in H.
  - injection H as <- <-. split; [reflexivity|]. split; [reflexivity|]. split.
    + exists [], []. rewrite !app_nil_r. repeat split; auto. intros x [].
    + intros e [].
  - destruct (procesar_empleado hoy idp usr (bd, r) e) as [bd1 r1] eqn:E.
    destruct (procesar_paso _ _ _ _ _ _ _ _ E) as (Ee & Ep & Hn & Hx).
    destruct (IH _ _ _ _ H) as (Ee' & Ep' & (nuevas & xs & N1 & N2 & N3 & N4 & N5 & N6) & Hall).
    split; [congruence|]. split; [congruence|]. split.
    + destruct Hn as [(Hn1 & Hn2 & _)|(n & x & Hn1 & Hn2 & Hn3 & Hn4 & Hn5 & Hn6)].
      * exists nuevas, xs. rewrite N1, N2, Hn1, Hn2. repeat split; auto.
        intros z Hz. right. apply N5, Hz.
      * exists (n :: nuevas), (x :: xs). rewrite N1, N2, Hn1, Hn2, <- !app_assoc.
        cbn [app map]. repeat split; auto; try congruence.
        intros z [Hz|Hz]; [left; congruence|right; apply N5, Hz].
    + intros e0 [->|Hin].
      * destruct Hx as [Hx|Hx]; [|right; exact Hx].
        left. exact (exists_nomina_app bd1 bd' (id_empleado e0) idp nuevas N1 Hx).
      * destruct (Hall e0 Hin) as [K|K]; [left; exact K|right].
        exact (falla_en_todas_ext hoy bd1 bd e0 idp (eq_sym Ee) (eq_sym Ep) K).
Qed.

(** X7.  What a batch run writes: on an open period it appends one payroll per
    success entry, in the order of the entries, each with the id and the
    employee of its entry, of the period, with zero hours and zero sales;
    the payrolls that existed are untouched, and so are employees and
    periods. *)
Theorem lote_crea_las_exitosas hoy bd idp usr bd' r :
  calcular_nominas_periodo hoy bd idp usr = (bd', Ok r) ->
  empleados bd' = empleados bd /\ periodos bd' = periodos bd
  /\ exists nuevas,
       nominas bd' = (nominas bd ++ nuevas)%list
       /\ map id_nomina nuevas = map ex_nomina_id (nominas_exitosas r)
       /\ map n_id_empleado nuevas = map ex_empleado_id (nominas_exitosas r)
       /\ Forall (nomina_de_lote idp) nuevas
       /\ Z.of_nat (List.length nuevas) = total_exitosas r.
Proof.
  intros E.
  destruct (periodo_get_by_id bd idp) as [per|] eqn:Hp;
    [|unfold calcular_nominas_periodo in E; rewrite Hp in E; discriminate].
  destruct (esta_cerrado per) eqn:Hc;
    [unfold calcular_nominas_periodo in E; rewrite Hp, Hc in E; discriminate|].
  destruct (calcular_nominas_periodo_procesa hoy bd idp usr per Hp Hc)
    as (bd2 & r2 & E2 & _ & _ & Tx & _).
  rewrite E in E2. injection E2 as <- <-.
  unfold calcular_nominas_periodo in E. rewrite Hp, Hc in E. cbv zeta in E.
  match type of E with context [fold_left ?f ?l (bd, ?r0)] =>
    destruct (fold_left f l (bd, r0)) as [bd3 r3] eqn:F end.
  injection E as -> ->.
  destruct (bucle_efecto _ _ _ _ _ _ _ _ F)
    as (Ee & Ep & (nuevas & xs & N1 & N2 & N3 & N4 & _ & N6) & _).
  cbn [nominas_exitosas app] in N2.
  split; [exact Ee|]. split; [exact Ep|]. exists nuevas.
  rewrite N2. repeat split; auto.
  rewrite Tx, N2. rewrite <- (length_map id_nomina nuevas), <- N3, length_map. reflexivity.
Qed.

Lemma lote_crea_las_exitosas_testigo :
  exists nuevas,
    nominas (fst (calcular_nominas_periodo hoy_ej bd_nueva 1 "SYSTEM"))
    = (nominas bd_nueva ++ nuevas)%list
    /\ Forall (nomina_de_lote 1) nuevas.
Proof.
  destruct (calcular_nominas_periodo hoy_ej bd_nueva 1 "SYSTEM") as [bd' [r|ex]] eqn:E.
  - destruct (lote_crea_las_exitosas hoy_ej bd_nueva 1 "SYSTEM" bd' r E)
      as (_ & _ & nuevas & N1 & _ & _ & N4 & _).
    exists nuevas. split; assumption.
  - exfalso. vm_compute in E. discriminate E.
Defined.

Lemma bucle_sin_efecto hoy idp usr bd (l : list Empleado) : forall r,
  (forall e, In e l ->
     exists_nomina bd (id_empleado e) idp = true
     \/ exists ex, calcular_y_crear_nomina hoy bd (datos_lote e idp) usr = (bd, Raise ex)) ->
  exists r', fold_left (procesar_empleado hoy idp usr) l (bd, r) = (bd, r')
             /\ nominas_exitosas r' = nominas_exitosas r
             /\ total_exitosas r' = total_exitosas r.
Proof.
  induction l as [|e l IH]; intros r H; cbn [fold_left].
  - exists r. repeat split.
  - assert (E : exists r1, procesar_empleado hoy idp usr (bd, r) e = (bd, r1)
                          /\ nominas_exitosas r1 = nominas_exitosas r
                          /\ total_exitosas r1 = total_exitosas r).
    { unfold procesar_empleado. fold (datos_lote e idp).
      destruct (exists_nomina bd (id_empleado e) idp) eqn:X.
      - eexists. repeat split.
      - destruct (H e (or_introl eq_refl)) as [K|[ex K]]; [congruence|].
        rewrite K. eexists. repeat split. }
    destruct E as (r1 & E & Q1 & Q2). rewrite E.
    destruct (IH r1 (fun e0 H0 => H e0 (or_intror H0))) as (r' & F & Q3 & Q4).
    exists r'. split; [exact F|]. split; congruence.
Qed.

(** X8.  Running the batch again: a second run on the store the first run left
    (same period, same day, any actor) creates nothing.  The store is
    unchanged, the run reports no success, and every employee of the run is
    reported as failed. *)
Theorem lote_repetido hoy bd idp usr bd1 r1 usr2 :
  calcular_nominas_periodo hoy bd idp usr = (bd1, Ok r1) ->
  exists r2,
    calcular_nominas_periodo hoy bd1 idp usr2 = (bd1, Ok r2)
    /\ nominas_exitosas r2 = [] /\ total_exitosas r2 = 0
    /\ total_empleados r2 = total_empleados r1
    /\ total_fallidas r2 = total_empleados r2.
Proof.
  intros E.
  destruct (periodo_get_by_id bd idp) as [per|] eqn:Hp;
    [|unfold calcular_nominas_periodo in E; rewrite Hp in E; discriminate].
  destruct (esta_cerrado per) eqn:Hc;
    [unfold calcular_nominas_periodo in E; rewrite Hp, Hc in E; discriminate|].
  destruct (calcular_nominas_periodo_procesa hoy bd idp usr per Hp Hc)
    as (bdA & rA & EA & TA & _).
  rewrite E in EA. injection EA as <- <-.
  pose proof E as E0.
  unfold calcular_nominas_periodo in E0. rewrite Hp, Hc in E0. cbv zeta in E0.
  match type of E0 with context [fold_left ?f ?l (bd, ?r0)] =>
    destruct (fold_left f l (bd, r0)) as [bd3 r3] eqn:F end.
  injection E0 as -> ->.
  destruct (bucle_efecto _ _ _ _ _ _ _ _ F) as (Ee & Ep & _ & Hall).
  assert (Hp1 : periodo_get_by_id bd1 idp = Some per).
  { unfold periodo_get_by_id. rewrite Ep. exact Hp. }
  assert (L : get_all_activos bd1 0 100 = get_all_activos bd 0 100).
  { unfold get_all_activos. rewrite Ee. reflexivity. }
  destruct (calcular_nominas_periodo_procesa hoy bd1 idp usr2 per Hp1 Hc)
    as (bd2 & r2 & E2 & T2 & _ & _ & _ & S2).
  pose proof E2 as E3.
  unfold calcular_nominas_periodo in E3. rewrite Hp1, Hc in E3. cbv zeta in E3.
  rewrite L in E3.
  match type of E3 with context [fold_left ?f ?l (bd1, ?r0)] =>
    destruct (bucle_sin_efecto hoy idp usr2 bd1 l r0) as (r' & F' & Q1 & Q2) end.
  { intros e He. destruct (Hall e He) as [K|K]; [left; exact K|].
    destruct (exists_nomina bd1 (id_empleado e) idp) eqn:X; [left; reflexivity|right].
    exact (K bd1 usr2 Ee Ep X). }
  rewrite F' in E3. injection E3 as <- <-.
  exists r'. cbn [nominas_exitosas total_exitosas] in Q1, Q2.
  split; [exact E2|]. split; [exact Q1|]. split; [exact Q2|].
  split; [rewrite T2, TA, L; reflexivity|]. lia.
Qed.

Lemma lote_repetido_testigo :
  exists r2,
    calcular_nominas_periodo hoy_ej bd_lote 1 "luis" = (bd_lote, Ok r2)
    /\ nominas_exitosas r2 = [].
Proof.
  assert (E : exists r1, calcular_nominas_periodo hoy_ej bd_nueva 1 "ana" = (bd_lote, Ok r1))
    by (eexists; vm_compute; reflexivity).
  destruct E as [r1 E].
  destruct (lote_repetido hoy_ej bd_nueva 1 "ana" bd_lote r1 "luis" E)
    as (r2 & E2 & Q & _).
  exists r2. split; assumption.
Defined.

(** *** Recalculation *)





(** *** The summary of a period *)

Lemma firstn_app_izq {A} (l l' : list A) k :
  (k <= List.length l)%nat -> firstn k (l ++ l') = firstn k l.
Proof.
  intros H. rewrite firstn_app. replace (k - List.length l)%nat with 0%nat by lia.
  cbn [firstn]. apply app_nil_r.
Qed.

(** X10.  The summary of a period reads at most 100 payrolls: the count it
    reports is the number of payrolls of the period capped at 100, and
    once the period has 100 payrolls, one more payroll changes nothing in
    the summary, neither the count, nor the totals, nor the average. *)
Theorem resumen_hasta_100 (sum : list float -> float) bd idp :
  r_total_nominas (obtener_resumen_periodo sum bd idp)
  = Z.of_nat (Nat.min 100 (count_by_periodo bd idp))
  /\ forall n,
       (100 <= count_by_periodo bd idp)%nat ->
       obtener_resumen_periodo sum
         (mkBD (empleados bd) (periodos bd) (nominas bd ++ [n]) (bonos bd) (beneficios bd)
            (deducciones bd) (auditorias bd) (sig_id_nomina bd)) idp
       = obtener_resumen_periodo sum bd idp.
Proof.
  split.
  - unfold obtener_resumen_periodo, get_by_periodo, count_by_periodo. cbn [skipn].
    set (l := filter _ (nominas bd)).
    pose proof (length_firstn 100 l) as L.
    destruct (firstn 100 l) as [|x r] eqn:F; cbn [r_total_nominas].
    + cbn [List.length] in L. lia.
    + rewrite L. reflexivity.
  - intros n H. unfold obtener_resumen_periodo, get_by_periodo, count_by_periodo in *.
    cbn [nominas skipn] in *. rewrite filter_app.
    rewrite firstn_app_izq by exact H. reflexivity.
Qed.

Lemma resumen_hasta_100_testigo :
  r_total_nominas (obtener_resumen_periodo (fun _ => S754_zero false) bd_creada 1) = 1.
Proof.
  exact (proj1 (resumen_hasta_100 (fun _ => S754_zero false) bd_creada 1)).
Defined.

(** *** Pages *)

Lemma pagina_compone {A} (l : list A) s a b :
  firstn (a + b) (skipn s l) = (firstn a (skipn s l) ++ firstn b (skipn (s + a) l))%list.
Proof.
  rewrite Nat.add_comm with (n := s), <- skipn_skipn.
  generalize (skipn s l). clear l s. intros l. revert l.
  induction a as [|a IH]; intros l; cbn [Nat.add firstn skipn app]; [reflexivity|].
  destruct l as [|x l]; cbn [firstn skipn app].
  - rewrite firstn_nil. reflexivity.
  - rewrite IH. reflexivity.
Qed.

Lemma en_firstn {A} (x : A) k l : In x (firstn k l) -> In x l.
Proof.
  revert l. induction k as [|k IH]; intros l; cbn [firstn]; [intros []|].
  destruct l as [|y l]; [intros []|]. intros [->|H]; [left; reflexivity|right; auto].
Qed.

Lemma en_skipn {A} (x : A) k l : In x (skipn k l) -> In x l.
Proof.
  revert l. induction k as [|k IH]; intros l; cbn [skipn]; [auto|].
  destruct l as [|y l]; [intros []|]. intros H. right. auto.
Qed.

(** X11.  Paging loses and repeats nothing: for the active employees and for
    the payrolls of a period, a page of [a + b] rows is the page of [a]
    rows followed by the page of the next [b] rows (rows in table order);
    the first page has as many rows as its limit or as the table has
    matching rows, whichever is less, and the rows of a page all satisfy
    the filter. *)
Theorem paginas_consecutivas bd idp (skip a b : nat) :
  get_all_activos bd skip (a + b)
  = (get_all_activos bd skip a ++ get_all_activos bd (skip + a) b)%list
  /\ listar_nominas_periodo bd idp skip (a + b)
     = (listar_nominas_periodo bd idp skip a ++ listar_nominas_periodo bd idp (skip + a) b)%list
  /\ List.length (get_all_activos bd 0 a) = Nat.min a (count_activos bd)
  /\ List.length (listar_nominas_periodo bd idp 0 a) = Nat.min a (count_by_periodo bd idp)
  /\ Forall (fun e => estado e = ACTIVO) (get_all_activos bd skip a)
  /\ Forall (fun n => n_id_periodo n = idp) (listar_nominas_periodo bd idp skip a).
Proof.
  unfold listar_nominas_periodo, get_all_activos, get_by_periodo.
  split; [apply pagina_compone|]. split; [apply pagina_compone|].
  split; [apply length_firstn|]. split; [apply length_firstn|].
  assert (K : forall (A : Type) (p : A -> bool) (l : list A) s k,
            Forall (fun x => p x = true) (firstn k (skipn s (filter p l)))).
  { intros A p l s k. apply Forall_forall. intros x Hx.
    apply en_firstn, en_skipn in Hx. apply filter_In in Hx. tauto. }
  split.
  - eapply Forall_impl; [|apply K]. cbn beta. intros e He. unfold es_activo in He.
    destruct (estado e); [reflexivity|discriminate|discriminate].
  - eapply Forall_impl; [|apply K]. cbn beta. intros n Hn. apply Z.eqb_eq. exact Hn.
Qed.

(** *** The endpoints *)

(** X12.  DELETE on a payroll that does not exist answers 500, never 404: the
    404 that the endpoint raises for the False of the service is raised
    inside the [try], and the clause [except Exception] turns it into a
    500.  The endpoint answers 204 exactly when the service deleted the
    payroll, 400 exactly when its period is closed, and 500 otherwise. *)
Theorem ep_eliminar_nunca_404 bd id usr :
  (nomina_get_by_id bd id = None -> ep_eliminar_nomina bd id usr = (bd, 500))
  /\ snd (ep_eliminar_nomina bd id usr) <> 404
  /\ (snd (ep_eliminar_nomina bd id usr) = 204
      <-> snd (eliminar_nomina bd id usr) = Ok true)
  /\ (snd (ep_eliminar_nomina bd id usr) = 400
      <-> exists p, snd (eliminar_nomina bd id usr) = Raise (PeriodoCerradoException p)).
Proof.
  unfold ep_eliminar_nomina.
  split.
  - intros H. unfold eliminar_nomina. rewrite H. reflexivity.
  - destruct (eliminar_nomina bd id usr) as [bd' [[|]|ex]]; cbn [snd subir negb];
      [| |destruct ex]; cbn; (split; [discriminate|]);
      (split; split; try discriminate; try reflexivity; try (intros [p Hp]; discriminate));
      eauto.
Qed.

Lemma ep_eliminar_nunca_404_testigo :
  ep_eliminar_nomina bd_nueva 7 "ana" = (bd_nueva, 500).
Proof.
  exact (proj1 (ep_eliminar_nunca_404 bd_nueva 7 "ana") eq_refl).
Defined.

(** X13.  POST /calcular for an ASALARIADO employee with five years of tenure
    and a NULL base salary: the employee and the open period exist and
    there is no payroll yet, but the seniority bonus stops on
    [float(None)]; the TypeError is no NominaException, the endpoint
    answers 500 and nothing is stored. *)
Theorem ep_calcular_sin_salario hoy bd datos usr emp per :
  empleado_get_by_id bd (nc_id_empleado datos) = Some emp ->
  periodo_get_by_id bd (nc_id_periodo datos) = Some per ->
  esta_cerrado per = false ->
  get_by_empleado_periodo bd (nc_id_empleado datos) (nc_id_periodo datos) = None ->
  nombre_tipo emp = ASALARIADO -> salario_base emp = None ->
  5 <= calcular_anio_antiguedad (fecha_ingreso emp) hoy ->
  ep_calcular_nomina hoy bd datos usr = (bd, 500).
Proof.
  intros He Hp Hc Hn Ht Hs H5.
  assert (K : calcular_nomina_completa hoy emp
                (decimal_or_0 (nc_horas_trabajadas datos))
                (decimal_or_0 (nc_horas_extras datos))
                (decimal_or_0 (nc_ventas_realizadas datos)) = Raise TypeError).
  { destruct (nomina_completa_orden hoy emp (decimal_or_0 (nc_horas_trabajadas datos))
                (decimal_or_0 (nc_horas_extras datos))
                (decimal_or_0 (nc_ventas_realizadas datos))) as (_ & O2 & _).
    apply (O2 (decimal_or_0 (salario_base emp))).
    - unfold calcular_salario_bruto. rewrite Ht. reflexivity.
    - apply bono_antiguedad_sin_salario; assumption. }
  unfold ep_calcular_nomina, calcular_y_crear_nomina. rewrite He, Hp, Hc, Hn, K.
  reflexivity.
Qed.

Lemma ep_calcular_sin_salario_testigo :
  ep_calcular_nomina hoy_ej bd_sin_salario (mkNominaCreate 4 1 None None None) "ana"
  = (bd_sin_salario, 500).
Proof.
  apply (ep_calcular_sin_salario hoy_ej bd_sin_salario (mkNominaCreate 4 1 None None None)
           "ana" emp_sin_salario (mkPeriodo 1 2024 6 ABIERTO));
    try reflexivity.
  vm_compute. discriminate.
Defined.

(** X14.  The status of POST /calcular and of PUT /{id}: 201 (200 for PUT) when
    the service returns; 404 only for a missing employee or period on
    POST; 500 exactly for the exceptions that are no NominaException
    (TypeError, AttributeError, InvalidOperation); 400 for every other
    failure, a payroll that does not exist on PUT included. *)
Theorem ep_estados hoy bd :
  (forall datos usr,
     snd (ep_calcular_nomina hoy bd datos usr)
     = match snd (calcular_y_crear_nomina hoy bd datos usr) with
       | Ok _ => 201
       | Raise (EmpleadoNoEncontradoException _) | Raise (PeriodoNoEncontradoException _) => 404
       | Raise ex => if es_NominaException ex then 400 else 500
       end)
  /\ (forall id upd usr,
        snd (ep_recalcular_nomina hoy bd id upd usr)
        = match snd (recalcular_nomina hoy bd id upd usr) with
          | Ok _ => 200
          | Raise ex => if es_NominaException ex then 400 else 500
          end)
  /\ (forall id upd usr,
        nomina_get_by_id bd id = None ->
        ep_recalcular_nomina hoy bd id upd usr = (bd, 400)).
Proof.
  split; [|split].
  - intros datos usr. unfold ep_calcular_nomina.
    destruct (calcular_y_crear_nomina hoy bd datos usr) as [bd' [n|ex]]; cbn [snd subir];
      [reflexivity|destruct ex; reflexivity].
  - intros id upd usr. unfold ep_recalcular_nomina.
    destruct (recalcular_nomina hoy bd id upd usr) as [bd' [n|ex]]; cbn [snd subir];
      [reflexivity|destruct ex; reflexivity].
  - intros id upd usr H. unfold ep_recalcular_nomina, recalcular_nomina. rewrite H.
    reflexivity.
Qed.

Lemma ep_estados_testigo :
  ep_recalcular_nomina hoy_ej bd_nueva 7 update_ej "ana" = (bd_nueva, 400).
Proof.
  exact (proj2 (proj2 (ep_estados hoy_ej bd_nueva)) 7 update_ej "ana" eq_refl).
Defined.

(** X25.  POST /calcular-periodo answers by the period alone: 404 when the
    period does not exist and 400 when it is closed, with nothing written
    in both cases, and 200 in every other case, whatever happens to the
    employees.  The failures of single payrolls stay inside the result: a
    run in which every payroll fails still answers 200, and no state of
    the store makes the endpoint answer 500. *)
Theorem ep_lote_estados hoy bd idp usr :
  snd (ep_calcular_nominas_periodo hoy bd idp usr)
  = match periodo_get_by_id bd idp with
    | None => 404
    | Some p => if esta_cerrado p then 400 else 200
    end
  /\ (snd (ep_calcular_nominas_periodo hoy bd idp usr) <> 200 ->
      fst (ep_calcular_nominas_periodo hoy bd idp usr) = bd)
  /\ (snd (ep_calcular_nominas_periodo hoy bd idp usr) = 200 ->
      exists r, snd (calcular_nominas_periodo hoy bd idp usr) = Ok r
                /\ total_exitosas r + total_fallidas r = total_empleados r).
Proof.
  unfold ep_calcular_nominas_periodo.
  destruct (periodo_get_by_id bd idp) as [p|] eqn:P.
  - destruct (esta_cerrado p) eqn:C.
    + unfold calcular_nominas_periodo. rewrite P, C. cbn.
      split; [reflexivity|]. split; [reflexivity|]. discriminate.
    + destruct (calcular_nominas_periodo_procesa hoy bd idp usr p P C)
        as [bd' [r [E [_ [_ [_ [_ T]]]]]]].
      rewrite E. cbn. split; [reflexivity|]. split; [congruence|].
      intros _. exists r. split; [reflexivity|exact T].
  - unfold calcular_nominas_periodo. rewrite P. cbn.
    split; [reflexivity|]. split; [reflexivity|]. discriminate.
Qed.

Lemma ep_lote_estados_testigo :
  fst (ep_calcular_nominas_periodo hoy_ej bd_cerrada 1 "ana") = bd_cerrada.
Proof.
  apply (proj1 (proj2 (ep_lote_estados hoy_ej bd_cerrada 1 "ana"))).
  vm_compute. discriminate.
Defined.

(** *** The seniority query of the employee repository *)

Lemma dias_del_mes_febrero y : 28 <= dias_del_mes y 2 <= 29.
Proof. unfold dias_del_mes. cbn. destruct (isleap y); lia. Qed.

Lemma dias_del_mes_otro y y' m : m <> 2 -> dias_del_mes y m = dias_del_mes y' m.
Proof.
  intros H. unfold dias_del_mes. destruct (Z.eqb_spec m 2); [contradiction|reflexivity].
Qed.

Lemma date_leb_iff a b :
  date_leb a b = true
  <-> ~ (year b < year a
         \/ (year b = year a
             /\ (month b < month a \/ (month b = month a /\ day b < day a)))).
Proof.
  unfold date_leb. rewrite negb_true_iff. apply date_ltb_false_iff.
Qed.

(** X15.  The query against the tenure helper.  Every employee the query
    returns is active, of the requested type, and has at least [anios]
    years of tenure by [calcular_anios_antiguedad]; an active employee
    with that tenure is returned, except one hired on a 29 February when
    today is the 28 February of a common year, exactly [anios] years
    later: for the helper the year is complete that day, for the query it
    is not. *)
Theorem consulta_antiguedad hoy bd anios tipo l e :
  fecha_valida hoy = true -> fecha_valida (fecha_ingreso e) = true -> 1 <= anios ->
  get_con_antiguedad_mayor_a hoy bd anios tipo = Some l ->
  let del_tipo := match tipo with Some t => nombre_tipo e = t | None => True end in
  (In e l ->
     In e (empleados bd) /\ estado e = ACTIVO /\ del_tipo
     /\ anios <= calcular_anios_antiguedad (fecha_ingreso e) hoy)
  /\ (In e (empleados bd) -> estado e = ACTIVO -> del_tipo ->
      anios <= calcular_anios_antiguedad (fecha_ingreso e) hoy ->
      In e l
      \/ (month (fecha_ingreso e) = 2 /\ day (fecha_ingreso e) = 29
          /\ hoy = mkdate (year (fecha_ingreso e) + anios) 2 28)).
Proof.
  intros Vh Vi Hn Hq del_tipo.
  pose proof (antiguedad_aniversario (fecha_ingreso e) hoy anios Vi Vh Hn) as T.
  unfold get_con_antiguedad_mayor_a, date_replace_year in Hq.
  destruct ((1 <=? year hoy - anios) && (year hoy - anios <=? 9999)
            && fecha_valida (mkdate (year hoy - anios) (month hoy) (day hoy))) eqn:R;
    [|discriminate].
  cbv zeta in Hq. injection Hq as <-.
  assert (A : es_activo e = true <-> estado e = ACTIVO).
  { unfold es_activo. destruct (estado e); split; intros; congruence. }
  assert (Q : date_leb (fecha_ingreso e) (mkdate (year hoy - anios) (month hoy) (day hoy)) = true
              -> date_leb (aniversario anios (fecha_ingreso e)) hoy = true).
  { rewrite !date_leb_iff. unfold aniversario, rd_radd. cbn [rd_years rd_months Z.eqb].
    cbn [year month day]. lia. }
  assert (Q' : date_leb (aniversario anios (fecha_ingreso e)) hoy = true ->
               date_leb (fecha_ingreso e) (mkdate (year hoy - anios) (month hoy) (day hoy)) = true
               \/ (month (fecha_ingreso e) = 2 /\ day (fecha_ingreso e) = 29
                   /\ hoy = mkdate (year (fecha_ingreso e) + anios) 2 28)).
  { intros H. apply fecha_valida_iff in Vh, Vi.
    destruct (date_leb (fecha_ingreso e) _) eqn:L; [left; reflexivity|right].
    apply not_true_iff_false in L. rewrite date_leb_iff in L. rewrite date_leb_iff in H.
    unfold aniversario, rd_radd in H. cbn [rd_years rd_months Z.eqb year month day] in *.
    destruct (fecha_ingreso e) as [y m d]. destruct hoy as [Y M D].
    cbn [year month day] in *.
    pose proof (dias_del_mes_febrero y) as F1.
    pose proof (dias_del_mes_febrero (y + anios)) as F2.
    pose proof (dias_del_mes_febrero Y) as F3.
    destruct (Z.eq_dec m 2) as [->|Hm].
    - assert (Y = y + anios /\ M = 2 /\ d = 29 /\ D = 28) as (-> & -> & -> & ->) by lia.
      repeat split.
    - rewrite (dias_del_mes_otro (y + anios) y m Hm) in H. exfalso. lia. }
  split.
  - intros Hin.
    assert (Hin' : In e (filter (fun e0 => date_leb (fecha_ingreso e0)
                                            (mkdate (year hoy - anios) (month hoy) (day hoy))
                                          && es_activo e0) (empleados bd)) /\ del_tipo).
    { unfold del_tipo. destruct tipo as [t|]; [|tauto].
      apply filter_In in Hin. destruct Hin as [Hin Ht]. split; [exact Hin|].
      apply String.eqb_eq. exact Ht. }
    destruct Hin' as [Hin' Ht]. apply filter_In in Hin'. destruct Hin' as [He Hc].
    apply andb_prop in Hc. destruct Hc as [Hl Ha].
    split; [exact He|]. split; [apply A; exact Ha|]. split; [exact Ht|].
    apply T, Q, Hl.
  - intros He Ha Ht Hten. apply T in Hten. destruct (Q' Hten) as [Hl|Hx]; [left|right; exact Hx].
    assert (Hin' : In e (filter (fun e0 => date_leb (fecha_ingreso e0)
                                            (mkdate (year hoy - anios) (month hoy) (day hoy))
                                          && es_activo e0) (empleados bd))).
    { apply filter_In. split; [exact He|]. rewrite Hl. apply A in Ha. rewrite Ha. reflexivity. }
    unfold del_tipo in Ht. destruct tipo as [t|]; [|exact Hin'].
    apply filter_In. split; [exact Hin'|]. apply String.eqb_eq. exact Ht.
Qed.

(** The employee hired on 29 February 2020 has five years of tenure on
    28 February 2025 and is not returned by the query for five years that
    day. *)
Lemma consulta_antiguedad_testigo :
  get_con_antiguedad_mayor_a (mkdate 2025 2 28) bd_bisiesto 5 None = Some []
  /\ calcular_anios_antiguedad (fecha_ingreso emp_bisiesto) (mkdate 2025 2 28) = 5
  /\ (In emp_bisiesto []
      \/ (month (fecha_ingreso emp_bisiesto) = 2 /\ day (fecha_ingreso emp_bisiesto) = 29
          /\ mkdate 2025 2 28 = mkdate (year (fecha_ingreso emp_bisiesto) + 5) 2 28)).
Proof.
  split; [reflexivity|]. split; [reflexivity|].
  apply (proj2 (consulta_antiguedad (mkdate 2025 2 28) bd_bisiesto 5 None [] emp_bisiesto
                  eq_refl eq_refl ltac:(lia) eq_refl)).
  - left. reflexivity.
  - reflexivity.
  - exact I.
  - vm_compute. discriminate.
Defined.

(** X16.  On a 29 February the query raises ValueError whenever the year
    [anios] years back is not a leap year (and on any day when that year
    is before year 1), whatever the employees are: [date.replace] cannot
    build the limit date. *)
Theorem consulta_antiguedad_29_febrero hoy bd anios tipo :
  (month hoy = 2 /\ day hoy = 29 /\ isleap (year hoy - anios) = false)
  \/ year hoy <= anios ->
  get_con_antiguedad_mayor_a hoy bd anios tipo = None.
Proof.
  intros H. unfold get_con_antiguedad_mayor_a, date_replace_year.
  destruct H as [(Hm & Hd & Hl)|Hy].
  - unfold fecha_valida, dias_del_mes. cbn [year month day]. rewrite Hm, Hd, Hl.
    cbn. rewrite !andb_false_r. reflexivity.
  - destruct (Z.leb_spec 1 (year hoy - anios)); [lia|]. reflexivity.
Qed.

Lemma consulta_antiguedad_29_febrero_testigo :
  get_con_antiguedad_mayor_a (mkdate 2024 2 29) bd_bisiesto 5 None = None.
Proof.
  apply consulta_antiguedad_29_febrero. left. repeat split.
Defined.

(** *** Tenure in closed form *)

Lemma antiguedad_cerrada ingreso referencia :
  fecha_valida ingreso = true -> fecha_valida referencia = true ->
  date_leb ingreso referencia = true ->
  calcular_anios_antiguedad ingreso referencia
  = (if date_ltb referencia (aniversario (year referencia - year ingreso) ingreso)
     then year referencia - year ingreso - 1 else year referencia - year ingreso)
  /\ 0 <= calcular_anios_antiguedad ingreso referencia <= year referencia - year ingreso.
Proof.
  intros Vi Vr Hle. apply fecha_valida_iff in Vi, Vr.
  destruct Vi as [Mi Di], Vr as [Mr Dr].
  set (k := year referencia - year ingreso).
  unfold calcular_anios_antiguedad, relativedelta_entre.
  rewrite (rd_ajustar_un_paso 10 referencia ingreso _ Mr Mi). cbv zeta.
  apply date_leb_iff in Hle.
  assert (A : date_ltb referencia ingreso = false) by (apply date_ltb_false_iff; tauto).
  rewrite A. unfold aniversario, rd_radd. cbn [rd_years rd_months Z.eqb].
  destruct ingreso as [y2 m2 d2], referencia as [y1 m1 d1]. cbn [year month day] in *.
  subst k. replace (y2 + (y1 - y2)) with y1 by lia.
  pose proof (dias_del_mes_febrero y1) as F1. pose proof (dias_del_mes_febrero y2) as F2.
  assert (F3 : m2 <> 2 -> dias_del_mes y1 m2 = dias_del_mes y2 m2)
    by (intros; apply dias_del_mes_otro; assumption).
  destruct (date_ltb (mkdate y1 m1 d1) (mkdate y1 m1 _)) eqn:B;
    [apply date_ltb_iff in B | apply date_ltb_false_iff in B]; cbn [year month day] in B;
    (destruct (date_ltb (mkdate y1 m1 d1) (mkdate y1 m2 _)) eqn:C;
     [apply date_ltb_iff in C | apply date_ltb_false_iff in C]; cbn [year month day] in C);
    unfold set_months;
    (destruct (Z.abs _ >? 11) eqn:G; cbn [rd_years]; [destruct (_ <? 0) eqn:S|]);
    try apply Z.ltb_lt in S; try apply Z.ltb_ge in S;
    try apply Z.gtb_lt in G; try (apply Z.gtb_ltb in G; apply Z.ltb_ge in G);
    (destruct (Z.eq_dec m1 m2) as [->|]; [|destruct (Z.eq_dec m2 2) as [->|]]);
    try lia.
Qed.

(** X17.  For a reference date on or after the hire date, the tenure is the
    difference of the years, less one while the anniversary of that year
    (the day clipped to the month) is still ahead.  It is 0 on the hire
    date, never negative and at most the difference of the years. *)
Theorem antiguedad_forma_cerrada ingreso referencia :
  fecha_valida ingreso = true -> fecha_valida referencia = true ->
  date_leb ingreso referencia = true ->
  let k := year referencia - year ingreso in
  calcular_anios_antiguedad ingreso referencia
  = (if date_ltb referencia (aniversario k ingreso) then k - 1 else k)
  /\ 0 <= calcular_anios_antiguedad ingreso referencia <= k
  /\ calcular_anios_antiguedad ingreso ingreso = 0.
Proof.
  intros Vi Vr Hle k.
  destruct (antiguedad_cerrada ingreso referencia Vi Vr Hle) as [F1 F2].
  split; [exact F1|]. split; [exact F2|].
  assert (R : date_leb ingreso ingreso = true) by (apply date_leb_iff; lia).
  destruct (antiguedad_cerrada ingreso ingreso Vi Vi R) as [_ F3]. lia.
Qed.

Lemma antiguedad_forma_cerrada_testigo :
  calcular_anios_antiguedad (mkdate 2020 2 29) (mkdate 2025 2 28) = 5
  /\ calcular_anios_antiguedad (mkdate 2020 2 29) (mkdate 2025 2 27) = 4.
Proof.
  split.
  - exact (proj1 (antiguedad_forma_cerrada (mkdate 2020 2 29) (mkdate 2025 2 28)
                    eq_refl eq_refl eq_refl)).
  - exact (proj1 (antiguedad_forma_cerrada (mkdate 2020 2 29) (mkdate 2025 2 27)
                    eq_refl eq_refl eq_refl)).
Defined.

(** X18.  Tenure never goes back: from the hire date on, a later reference date
    gives at least the same number of years. *)
Theorem antiguedad_monotona ingreso r1 r2 :
  fecha_valida ingreso = true -> fecha_valida r1 = true -> fecha_valida r2 = true ->
  date_leb ingreso r1 = true -> date_leb r1 r2 = true ->
  calcular_anios_antiguedad ingreso r1 <= calcular_anios_antiguedad ingreso r2.
Proof.
  intros Vi V1 V2 H1 H12.
  assert (H2 : date_leb ingreso r2 = true).
  { apply date_leb_iff. apply date_leb_iff in H1, H12. lia. }
  destruct (antiguedad_cerrada ingreso r1 Vi V1 H1) as [E1 _].
  destruct (antiguedad_cerrada ingreso r2 Vi V2 H2) as [E2 _].
  rewrite E1, E2.
  apply date_leb_iff in H1, H12, H2.
  unfold aniversario, rd_radd. cbn [rd_years rd_months Z.eqb].
  destruct ingreso as [y m d], r1 as [y1 m1 d1], r2 as [y2 m2 d2]. cbn [year month day] in *.
  destruct (date_ltb (mkdate y1 m1 d1) _) eqn:B1;
    [apply date_ltb_iff in B1 | apply date_ltb_false_iff in B1]; cbn [year month day] in B1;
    (destruct (date_ltb (mkdate y2 m2 d2) _) eqn:B2;
     [apply date_ltb_iff in B2 | apply date_ltb_false_iff in B2]; cbn [year month day] in B2);
    try lia.
  destruct (Z.eq_dec y1 y2) as [->|]; [|lia]. exfalso. lia.
Qed.

Lemma antiguedad_monotona_testigo :
  calcular_anios_antiguedad (mkdate 2018 1 15) (mkdate 2023 1 14)
  <= calcular_anios_antiguedad (mkdate 2018 1 15) (mkdate 2023 1 15).
Proof.
  exact (antiguedad_monotona (mkdate 2018 1 15) (mkdate 2023 1 14) (mkdate 2023 1 15)
           eq_refl eq_refl eq_refl eq_refl eq_refl).
Defined.

(** *** The engine by employee type *)

(** X19.  The benefits never fail and never pay the savings fund.  The result
    is the food benefit of 1,000,000.00 as the only line for ASALARIADO
    and POR_COMISION, and a total of 0 with no line for every other type;
    the line FONDO_AHORRO is never produced, not even for an hourly
    employee with tenure who accepts the fund. *)
Theorem beneficios_forma hoy e :
  (exists t ds, calcular_beneficios hoy e = Ok (t, ds)
                /\ buscar "FONDO_AHORRO" ds = None
                /\ forall k d, In (k, d) ds -> k = "BONO_ALIMENTACION" /\ monto d = BONO_ALIMENTACION)
  /\ (nombre_tipo e = ASALARIADO \/ nombre_tipo e = POR_COMISION ->
      exists d, calcular_beneficios hoy e
                = Ok (DFin 100000000 (-2), [("BONO_ALIMENTACION", d)]))
  /\ (nombre_tipo e <> ASALARIADO -> nombre_tipo e <> POR_COMISION ->
      calcular_beneficios hoy e = Ok (dzero, [])).
Proof.
  assert (G : dgt dzero dzero = Ok false) by reflexivity.
  assert (A : dadd dzero BONO_ALIMENTACION = Ok (DFin 100000000 (-2))) by reflexivity.
  split; [|split].
  - unfold calcular_beneficios. cbv zeta.
    destruct (String.eqb (nombre_tipo e) ASALARIADO || String.eqb (nombre_tipo e) POR_COMISION);
      [rewrite A|]; cbn [bind];
      (destruct (String.eqb (nombre_tipo e) POR_HORAS);
       [destruct ((_ >=? _) && _); [rewrite G; cbn [bind]|]|]);
      eexists; eexists; (split; [reflexivity|]); (split; [reflexivity|]);
      intros k d; cbn; intros K; try (destruct K as [K|K]); try contradiction;
      inversion K; split; reflexivity.
  - intros T. unfold calcular_beneficios. cbv zeta.
    assert (B : String.eqb (nombre_tipo e) ASALARIADO || String.eqb (nombre_tipo e) POR_COMISION
                = true) by (destruct T as [-> | ->]; reflexivity).
    assert (H : String.eqb (nombre_tipo e) POR_HORAS = false)
      by (destruct T as [-> | ->]; reflexivity).
    rewrite B, A, H. cbn [bind]. eexists. reflexivity.
  - intros T1 T2. unfold calcular_beneficios. cbv zeta.
    apply String.eqb_neq in T1, T2. rewrite T1, T2. cbn [orb bind].
    destruct (String.eqb (nombre_tipo e) POR_HORAS); [|reflexivity].
    destruct ((_ >=? _) && _); [rewrite G|]; reflexivity.
Qed.

Lemma beneficios_forma_testigo :
  calcular_beneficios hoy_ej emp_por_horas = Ok (dzero, []).
Proof.
  apply (proj2 (proj2 (beneficios_forma hoy_ej emp_por_horas))); vm_compute; discriminate.
Defined.

(** X20.  The bonuses by type.  POR_HORAS, TEMPORAL and unsupported types get
    no bonus: the call never fails for them, the total is 0 and there is
    no line.  For every employee the result has at most one line, and a
    line is BONO_ANTIGUEDAD or BONO_VENTAS. *)
Theorem bonos_forma hoy e v :
  (nombre_tipo e <> ASALARIADO -> nombre_tipo e <> POR_COMISION ->
   calcular_bonos hoy e v = Ok (dzero, []))
  /\ forall t ds, calcular_bonos hoy e v = Ok (t, ds) ->
       (List.length ds <= 1)%nat
       /\ forall k d, In (k, d) ds -> k = "BONO_ANTIGUEDAD" \/ k = "BONO_VENTAS".
Proof.
  split.
  - intros T1 T2. unfold calcular_bonos. cbv zeta.
    apply String.eqb_neq in T1, T2. rewrite T1, T2. reflexivity.
  - intros t ds. unfold calcular_bonos. cbv zeta.
    destruct (String.eqb_spec (nombre_tipo e) ASALARIADO) as [T|T].
    + rewrite T. change (String.eqb ASALARIADO POR_COMISION) with false.
      destruct (_ >=? _).
      * destruct (float_de_columna (salario_base e)) as [b|]; cbn [bind]; [|discriminate].
        destruct (dadd dzero _) as [z|]; cbn [bind]; [|discriminate].
        intros H. injection H as <- <-. cbn. split; [lia|].
        intros k d [K|[]]. inversion K. left. reflexivity.
      * cbn [bind]. intros H. injection H as <- <-. cbn. split; [lia|]. intros k d [].
    + cbn [bind]. destruct (String.eqb (nombre_tipo e) POR_COMISION).
      * destruct (dgt v COMISION_VENTAS_LIMITE) as [[|]|]; cbn [bind]; [| |discriminate].
        -- destruct (dadd dzero _) as [z|]; cbn [bind]; [|discriminate].
           intros H. injection H as <- <-. cbn. split; [lia|].
           intros k d [K|[]]. inversion K. right. reflexivity.
        -- intros H. injection H as <- <-. cbn. split; [lia|]. intros k d [].
      * intros H. injection H as <- <-. cbn. split; [lia|]. intros k d [].
Qed.

Lemma bonos_forma_testigo :
  calcular_bonos hoy_ej emp_por_horas (DFin 99000000 0) = Ok (dzero, []).
Proof.
  apply (proj1 (bonos_forma hoy_ej emp_por_horas (DFin 99000000 0))); vm_compute; discriminate.
Defined.

(** *** Success of the whole computation *)

Lemma dmul_raise a b ex : dmul a b = Raise ex -> ex = InvalidOperation.
Proof.
  destruct a as [c1 e1|s1|], b as [c2 e2|s2|]; unfold dmul; try discriminate;
    match goal with |- context [?c =? 0] => destruct (c =? 0) end;
    intros H; inversion H; reflexivity.
Qed.

Lemma dadd_raise a b ex : dadd a b = Raise ex -> ex = InvalidOperation.
Proof.
  destruct a as [c1 e1|s1|], b as [c2 e2|s2|]; unfold dadd; try discriminate.
  destruct (Bool.eqb s1 s2); intros H; inversion H; reflexivity.
Qed.

Lemma dlt_raise a b ex : dlt a b = Raise ex -> ex = InvalidOperation.
Proof.
  unfold dlt. destruct (dcompare a b) as [[ | | ]|]; intros H; inversion H; reflexivity.
Qed.

Ltac paso_raise lema :=
  match goal with
  | |- context [bind ?op _] =>
      let E := fresh "E" in let ex := fresh "ex" in
      destruct op as [?|ex] eqn:E; cbn [bind];
      [|apply lema in E; subst ex; discriminate]
  end.

(** With validated inputs the gross salary of a supported type raises no
    validation error. *)
Lemma bruto_sin_validacion e h x v c :
  dlt h dzero = Ok false -> dlt x dzero = Ok false -> dlt v dzero = Ok false ->
  calcular_salario_bruto e h x v = Raise (ValidacionNominaException c) ->
  c = "tipo_empleado" /\ tipo_soportado e = false.
Proof.
  intros H0 X0 V0. unfold calcular_salario_bruto, tipo_soportado. cbv zeta.
  destruct (tipo_casos e) as [T|[T|[T|[T|[T1 [T2 [T3 T4]]]]]]];
    [rewrite T|rewrite T|rewrite T|rewrite T|rewrite ?T1, ?T2, ?T3, ?T4]; resolver_tipo.
  - discriminate.
  - unfold _calcular_por_horas. rewrite H0. cbn [bind]. rewrite X0. cbn [bind].
    paso_raise dmul_raise. paso_raise dmul_raise. paso_raise dmul_raise.
    paso_raise dadd_raise. discriminate.
  - unfold _calcular_por_comision. rewrite V0. cbn [bind].
    intros E. apply dadd_raise in E. discriminate.
  - discriminate.
  - intros E. inversion E. split; reflexivity.
Qed.

Lemma bonos_type_error hoy e v :
  calcular_bonos hoy e v = Raise TypeError -> sin_base_con_antiguedad hoy e.
Proof.
  unfold calcular_bonos, sin_base_con_antiguedad. cbv zeta.
  destruct (String.eqb_spec (nombre_tipo e) ASALARIADO) as [T|T].
  - rewrite T. change (String.eqb ASALARIADO POR_COMISION) with false.
    destruct (_ >=? _) eqn:G; [|discriminate].
    destruct (salario_base e) as [d|]; cbn [float_de_columna bind].
    + paso_raise dadd_raise. discriminate.
    + intros _. apply Z.geb_le in G. unfold anio_PARA_BONO_ANTIGUEDAD in G. tauto.
  - cbn [bind]. destruct (String.eqb (nombre_tipo e) POR_COMISION); [|discriminate].
    paso_raise dlt_raise.
    match goal with |- context [if ?b then _ else _] => destruct b end; [|discriminate].
    paso_raise dadd_raise. discriminate.
Qed.

(** X21.  When the whole computation succeeds.  For an employee whose monetary
    fields, where set, are not negative and below 10^100, and inputs that
    are not negative and below 10^100, [calcular_nomina_completa] fails in
    exactly two cases: the type is none of the four supported ones (the
    validation error on [tipo_empleado]), or the employee is ASALARIADO
    with a NULL base salary and at least five years of tenure (TypeError
    from [float(None)]).  In every other case it returns a result. *)
Theorem nomina_completa_exito hoy e h x v :
  columna_en_rango (salario_base e) -> columna_en_rango (tarifa_hora e) ->
  columna_en_rango (porcentaje_comision e) ->
  en_rango h -> en_rango x -> en_rango v ->
  (tipo_soportado e = false ->
   calcular_nomina_completa hoy e h x v = Raise (ValidacionNominaException "tipo_empleado"))
  /\ (sin_base_con_antiguedad hoy e ->
      calcular_nomina_completa hoy e h x v = Raise TypeError)
  /\ (tipo_soportado e = true -> ~ sin_base_con_antiguedad hoy e ->
      exists r, calcular_nomina_completa hoy e h x v = Ok r).
Proof.
  intros Hb Ht Hp Hh Hx Hv. split; [|split].
  - unfold tipo_soportado, calcular_nomina_completa, calcular_salario_bruto.
    rewrite !orb_false_iff. intros [[[-> ->] ->] ->]. reflexivity.
  - intros [T [B A]]. unfold calcular_nomina_completa.
    rewrite (bono_antiguedad_sin_salario hoy e v T B A).
    unfold calcular_salario_bruto. rewrite T. reflexivity.
  - intros S N. unfold calcular_nomina_completa.
    destruct (calcular_salario_bruto_cota e h x v Hb Ht Hp Hh Hx Hv) as [[G [-> [DG VG]]]|[c E]].
    2:{ destruct (bruto_sin_validacion e h x v c (proj1 Hh) (proj1 Hx) (proj1 Hv) E) as [_ F].
        congruence. }
    cbn [bind].
    destruct (calcular_bonos_nn hoy e v Hb Hv) as [[B [db [-> DB]]]| E].
    2:{ elim N. exact (bonos_type_error hoy e v E). }
    cbn [bind].
    destruct (calcular_beneficios_nn hoy e) as [Be [dbe [-> DBe]]]. cbn [bind].
    destruct (calcular_deducciones_cota hoy e G DG VG) as [D [dd [-> [DD [VD VH]]]]]. cbn [bind].
    destruct (neto_no_negativo G B Be D DG DB DBe DD VH)
      as [s1 [s2 [neto [E1 [E2 [E3 [DN E4]]]]]]].
    rewrite E1. cbn [bind]. rewrite E2. cbn [bind]. rewrite E3. cbn [bind].
    rewrite E4. cbn [bind]. eexists. reflexivity.
Qed.

Lemma nomina_completa_exito_testigo :
  exists r, calcular_nomina_completa hoy_ej emp_comision dzero dzero (DFin 2500000000 (-2))
            = Ok r.
Proof.
  refine (proj2 (proj2 (nomina_completa_exito hoy_ej emp_comision dzero dzero
                          (DFin 2500000000 (-2)) _ _ _ _ _ _)) eq_refl _).
  - vm_compute. tauto.
  - vm_compute. tauto.
  - vm_compute. tauto.
  - split; reflexivity.
  - split; reflexivity.
  - split; reflexivity.
  - intros [T _]. vm_compute in T. discriminate.
Defined.

(** X22.  The schema validator and the engine.  A value [validar_no_negativo]
    accepts is never below zero and never NaN, and NULL becomes 0; so with
    hours, overtime and sales that passed the validator, the engine's own
    checks of negative inputs never fire: the only validation error the
    gross salary can still raise is the one on [tipo_empleado], for an
    unsupported type. *)
Theorem validado_pasa_el_motor e h x v dh dx dv c :
  validar_no_negativo h = inl dh -> validar_no_negativo x = inl dx ->
  validar_no_negativo v = inl dv ->
  dlt dh dzero = Ok false
  /\ (h = None -> dh = dzero)
  /\ (calcular_salario_bruto e dh dx dv = Raise (ValidacionNominaException c) ->
      c = "tipo_empleado" /\ tipo_soportado e = false).
Proof.
  assert (V : forall o d, validar_no_negativo o = inl d -> dlt d dzero = Ok false).
  { intros [d0|] d; cbn.
    - destruct (dlt d0 dzero) as [[|]|] eqn:E; try discriminate.
      intros H. injection H as <-. destruct (dtruthy d0); [exact E|reflexivity].
    - intros H. injection H as <-. reflexivity. }
  intros Eh Ex Ev. split; [exact (V _ _ Eh)|split].
  - intros ->. cbn in Eh. congruence.
  - apply bruto_sin_validacion; eauto.
Qed.

Lemma validado_pasa_el_motor_testigo :
  dlt (DFin 160 0) dzero = Ok false.
Proof.
  exact (proj1 (validado_pasa_el_motor emp_por_horas (Some (DFin 160 0)) None (Some (DFin 0 2))
                  (DFin 160 0) dzero dzero "horas_trabajadas" eq_refl eq_refl eq_refl)).
Defined.

(** ** Accuracy of the percentage amounts *)

(** The fallback digits, [j] places below the leading one, fall short of
    the value by at most half a unit of the last place. *)
Lemma respaldo_cota_inf n d s p j :
  0 < n -> 0 < d -> 0 <= j -> s = p - j ->
  (if 0 <=? p then d * 10 ^ p <= n else d <= n * 10 ^ (- p)) ->
  let c := if 0 <=? s then div_half_even n (d * 10 ^ s)
           else div_half_even (n * 10 ^ (- s)) d in
  (2 * B10 j * (IZR n - IZR c * B10 s * IZR d) <= IZR n)%R.
Proof.
  intros Hn Hd Hj Hs Hp. cbv zeta.
  pose proof (pow10_pos j Hj) as PJ. rewrite <- (B10_Z j Hj).
  destruct (Z.leb_spec 0 s) as [S0|S0].
  - pose proof (pow10_pos s S0) as P10.
    assert (PD : 0 < d * 10 ^ s) by nia.
    destruct (div_half_even_cercano n (d * 10 ^ s) PD) as [C _].
    destruct (Z.leb_spec 0 p) as [P0|P0]; [|lia].
    assert (E : 10 ^ p = 10 ^ j * 10 ^ s) by (rewrite <- Z.pow_add_r by lia; f_equal; lia).
    rewrite E in Hp.
    set (c := div_half_even n (d * 10 ^ s)) in *. clearbody c.
    set (T := 10 ^ s) in *. set (J := 10 ^ j) in *.
    assert (Z : 2 * J * (n - c * T * d) <= n).
    { clearbody T J.
      assert (Z1 : 2 * (n - c * T * d) <= d * T) by lia.
      assert (Z2 : 2 * J * (n - c * T * d) <= J * (d * T)) by nia.
      nia. }
    apply IZR_le in Z. rewrite !mult_IZR, minus_IZR, !mult_IZR in Z.
    unfold T in Z. rewrite (B10_Z s S0) in Z. exact Z.
  - pose proof (pow10_pos (- s) ltac:(lia)) as P10.
    destruct (div_half_even_cercano (n * 10 ^ (- s)) d Hd) as [C _].
    assert (Hd' : 10 ^ j * d <= n * 10 ^ (- s)).
    { destruct (Z.leb_spec 0 p) as [P0|P0].
      - assert (E : 10 ^ j = 10 ^ p * 10 ^ (- s))
          by (rewrite <- Z.pow_add_r by lia; f_equal; lia).
        rewrite E. nia.
      - assert (E : 10 ^ (- s) = 10 ^ j * 10 ^ (- p))
          by (rewrite <- Z.pow_add_r by lia; f_equal; lia).
        rewrite E. nia. }
    set (c := div_half_even (n * 10 ^ (- s)) d) in *. clearbody c.
    set (T := 10 ^ (- s)) in *. set (J := 10 ^ j) in *.
    assert (Z : 2 * J * (n * T - c * d) <= n * T).
    { clearbody T J.
      assert (Z1 : 2 * (n * T - c * d) <= d) by lia.
      assert (Z2 : 2 * J * (n * T - c * d) <= J * d) by nia.
      lia. }
    apply IZR_le in Z. rewrite !mult_IZR, minus_IZR, !mult_IZR in Z.
    unfold T in Z. rewrite (B10_Z (- s)) in Z by lia.
    pose proof (B10_inv s) as I. pose proof (B10_pos (- s)) as Ps.
    apply Rmult_le_reg_r with (B10 (- s)); [exact Ps|].
    replace (2 * IZR J * (IZR n - IZR c * B10 s * IZR d) * B10 (- s))%R
      with (2 * IZR J * (IZR n * B10 (- s) - IZR c * IZR d * (B10 (- s) * B10 s)))%R by ring.
    rewrite I, Rmult_1_r. exact Z.
Qed.

(** The digits the search returns read back as the float, or they are the
    fallback, which falls short of the value by at most half a unit of its
    last digit. *)
Lemma mas_corto_inf m e fuel : forall k,
  1 <= k ->
  let '(c, s) := mas_corto m e fuel k in
  float_of_decimal (DFin c s) = S754_finite false m e
  \/ (2 * B10 (k + Z.of_nat fuel - 1)
        * (fval (S754_finite false m e) - dval (DFin c s))
      <= fval (S754_finite false m e))%R.
Proof.
  induction fuel as [|f IH]; intros k Hk.
  - cbn [mas_corto]. destruct (fval_nd m e) as [Hn [Hd E]].
    set (n := Z.pos m * 2 ^ Z.max e 0) in *. set (d := 2 ^ Z.max (- e) 0) in *.
    cbv zeta.
    pose proof (floor_log10_inf n d Hn Hd) as P. cbv zeta in P.
    pose proof (respaldo_cota_inf n d (floor_log10 n d - k + 1) (floor_log10 n d) (k - 1)
                  Hn Hd ltac:(lia) ltac:(lia) P) as C1.
    cbv zeta in C1. right. cbn [dval]. rewrite E in C1.
    replace (k + Z.of_nat 0 - 1) with (k - 1) by lia.
    apply IZR_lt in Hd.
    apply Rmult_le_reg_r with (IZR d); [exact Hd|]. lra.
  - cbn [mas_corto]. destruct (candidato m e k) as [[c s]|] eqn:E.
    + destruct (candidato_spec _ _ _ _ _ E) as [C0 C1]. left. exact C1.
    + specialize (IH (k + 1) ltac:(lia)).
      replace (k + 1 + Z.of_nat f - 1) with (k + Z.of_nat (S f) - 1) in IH by lia.
      exact IH.
Qed.

(** [Decimal(str(x))] of a finite non-negative float falls short of the
    float by at most one part in 10^15 (and one denormal unit). *)
Lemma decimal_of_str_float_inf x :
  fnn x ->
  (fval x <= (1 + / 1000000000000000) * dval (decimal_of_str_float x) + eta)%R.
Proof.
  intros Fx. destruct eps_eta_pos as [Pe Pt].
  destruct x as [s|s| |sg m e]; cbn [fnn] in Fx; try contradiction.
  - cbn [decimal_of_str_float dval fval]. lra.
  - subst sg. unfold decimal_of_str_float, repr_digitos.
    pose proof (mas_corto_spec m e 16 1 ltac:(lia)) as M.
    pose proof (mas_corto_inf m e 16 1 ltac:(lia)) as N.
    destruct (mas_corto m e 16 1) as [c s]. destruct M as [C0 _].
    pose proof (quitar_ceros_spec 18 c s C0) as Q.
    destruct (quitar_ceros 18 c s) as [c' s']. destruct Q as [Q0 [Q1 Q2]].
    assert (V : dval (DFin c' s') = dval (DFin c s)).
    { rewrite <- Q2. replace s with (s' - (s' - s)) at 2 by lia.
      symmetry. apply dval_escala. lia. }
    pose proof (fval_nonneg (S754_finite false m e) eq_refl) as F.
    pose proof (dval_nonneg (DFin c s) C0) as PD.
    assert (B : (fval (S754_finite false m e)
                 <= (1 + / 1000000000000000) * dval (DFin c s) + eta)%R).
    { destruct N as [C1|C1].
      - pose proof (float_of_decimal_error c s C0) as A. rewrite C1 in A.
        apply aprox_o_fnn in A; [|reflexivity]. unfold aprox in A.
        rewrite eps_val in A. lra.
      - change (1 + Z.of_nat 16 - 1) with 16 in C1. rewrite <- (B10_Z 16) in C1 by lia.
        change (IZR (10 ^ 16)) with 10000000000000000%R in C1. lra. }
    destruct ((-4 <? digitos10 c' + s') && (digitos10 c' + s' <=? 16) && (0 <=? s')) eqn:E.
    + apply andb_prop in E. destruct E as [_ E]. apply Z.leb_le in E.
      replace (-1) with (s' - (s' + 1)) by lia. rewrite dval_escala by lia.
      rewrite V. exact B.
    + rewrite V. exact B.
Qed.

Lemma aprox_inf Q r :
  (0 <= Q)%R -> aprox Q r -> (Q <= (1 + / 1000000000000000) * (r + 3 * eta))%R.
Proof.
  intros HQ [H _]. rewrite eps_val in H. destruct eps_eta_pos as [_ Pt].
  assert (0 <= r + 3 * eta)%R by lra. lra.
Qed.

(** [redondear_decimal] falls short of the value by at most half a cent
    (up to rounding errors). *)
Lemma redondear_decimal_inf y :
  fnn y -> (fval y <= B2 960)%R ->
  (fval y <= (1 + 3 / 1000000000000000) * dval (redondear_decimal y) + 5001 / 1000000)%R.
Proof.
  intros Fy Hb. destruct B2_971 as [E971 G960]. pose proof eta_chico as Ht.
  pose proof (fval_nonneg y Fy) as Py.
  destruct (round2_error y Fy) as [k [K0 [K1 [K2 K3]]]].
  apply IZR_le in K0.
  destruct (aprox_o_fin _ _ K2 ltac:(lra)) as [F3 A3]. clear K2.
  apply aprox_inf in A3; [|lra].
  pose proof (decimal_of_str_float_inf (round2 y) F3) as D1.
  destruct (decimal_of_str_float_cota (round2 y) F3) as [D0 _].
  pose proof (dval_nonneg _ D0) as PD.
  unfold redondear_decimal. 
  set (D := dval (decimal_of_str_float (round2 y))) in *.
  set (R2 := fval (round2 y)) in *. lra.
Qed.

(** [calcular_porcentaje] falls short of the exact percentage by at most
    half a cent (up to rounding errors). *)
Lemma calcular_porcentaje_inf x p :
  fnn x -> fnn p -> (fval x * fval p <= B2 960)%R ->
  (fval x * fval p / 100
   <= (1 + / 100000000000000) * dval (calcular_porcentaje x p) + 5002 / 1000000)%R.
Proof.
  intros Fx Fp Hb. destruct B2_971 as [E971 G960]. pose proof eta_chico as Ht.
  pose proof (fval_nonneg x Fx) as Px. pose proof (fval_nonneg p Fp) as Pp.
  set (XP := (fval x * fval p)%R) in *.
  assert (PXP : (0 <= XP)%R) by (unfold XP; nra).
  destruct (aprox_o_fin _ _ (fmul_error x p Fx Fp) ltac:(fold XP; lra)) as [F1 A1].
  fold XP in A1. set (y1 := fmul x p) in *.
  pose proof (fval_nonneg y1 F1) as P1.
  pose proof (aprox_sup _ _ PXP A1) as U1. apply aprox_inf in A1; [|exact PXP].
  pose proof (fdiv_error y1 7036874417766400 (-46) F1) as A2.
  rewrite <- cien_val, fval_cien in A2.
  destruct (aprox_o_fin _ _ A2 ltac:(lra)) as [F2 A2']. clear A2.
  set (y2 := fdiv y1 cien) in *.
  pose proof (fval_nonneg y2 F2) as P2.
  assert (P100 : (0 <= fval y1 / 100)%R) by lra.
  pose proof (aprox_sup _ _ P100 A2') as U2. apply aprox_inf in A2'; [|exact P100].
  pose proof (redondear_decimal_inf y2 F2 ltac:(lra)) as D1.
  destruct (redondear_decimal_cota y2 F2 ltac:(lra)) as [D0 _].
  pose proof (dval_nonneg _ D0) as PD.
  unfold calcular_porcentaje. cbv zeta. fold y1. fold y2.
  set (D := dval (redondear_decimal y2)) in *. lra.
Qed.

Lemma float_of_decimal_inf d :
  dnn d -> (dval d <= B2 960)%R ->
  (dval d <= (1 + / 1000000000000000) * (fval (float_of_decimal d) + 3 * eta))%R.
Proof.
  intros D Hb. destruct B2_971 as [E971 G960].
  destruct d as [c e| |]; try contradiction.
  pose proof (dval_nonneg _ D) as P.
  destruct (aprox_o_fin _ _ (float_of_decimal_error c e D) ltac:(lra)) as [F A].
  apply aprox_inf; assumption.
Qed.

Lemma B2_959 : (B2 959 = 512 * B2 950 /\ B2 960 = 2 * B2 959)%R.
Proof.
  split.
  - change 959 with (9 + 950). rewrite B2_add. f_equal. rewrite <- B2_Z by lia. reflexivity.
  - change 960 with (1 + 959). rewrite B2_add. f_equal. rewrite <- B2_Z by lia. reflexivity.
Qed.

(** A percentage line on Decimal operands: the amount is within half a
    cent of the exact percentage, up to one part in 10^13. *)
Lemma linea_dos_lados G P :
  dnn G -> dnn P -> (dval G <= B2 950)%R -> (dval P <= B2 950)%R ->
  (dval G * dval P <= B2 959)%R ->
  let d := calcular_porcentaje (float_of_decimal G) (float_of_decimal P) in
  dnn d
  /\ (dval G * dval P / 100 <= (1 + / 10000000000000) * dval d + 5003 / 1000000)%R
  /\ (dval d <= (1 + / 10000000000000) * (dval G * dval P / 100) + 5003 / 1000000)%R.
Proof.
  intros DG DP HG HP HGP. cbv zeta.
  destruct cota_entradas as [_ [_ [E960 G950]]]. destruct B2_959 as [E959 E960'].
  pose proof eta_chico as Ht. pose proof eta_950 as H950.
  pose proof (dval_nonneg G DG) as PG. pose proof (dval_nonneg P DP) as PP.
  destruct (float_of_decimal_cota G DG ltac:(lra)) as [Fg Vg].
  destruct (float_of_decimal_cota P DP ltac:(lra)) as [Fp Vp].
  pose proof (float_of_decimal_inf G DG ltac:(lra)) as Ig.
  pose proof (float_of_decimal_inf P DP ltac:(lra)) as Ip.
  set (g := float_of_decimal G) in *. set (p := float_of_decimal P) in *.
  pose proof (fval_nonneg g Fg) as Pg. pose proof (fval_nonneg p Fp) as Pp.
  set (A := (dval G * dval P)%R) in *.
  assert (PA : (0 <= A)%R) by (apply Rmult_le_pos; lra).
  assert (Q1 : (dval G * eta <= B2 950 * eta)%R) by (apply Rmult_le_compat_r; lra).
  assert (Q2 : (dval P * eta <= B2 950 * eta)%R) by (apply Rmult_le_compat_r; lra).
  assert (Q3 : (eta * eta <= eta * 1)%R) by (apply Rmult_le_compat_l; lra).
  assert (Q4 : (fval g * eta <= 2 * (B2 950 * eta))%R).
  { replace (2 * (B2 950 * eta))%R with (2 * B2 950 * eta)%R by ring.
    apply Rmult_le_compat_r; lra. }
  assert (Q5 : (fval p * eta <= 2 * (B2 950 * eta))%R).
  { replace (2 * (B2 950 * eta))%R with (2 * B2 950 * eta)%R by ring.
    apply Rmult_le_compat_r; lra. }
  pose proof (prod_cota (fval g) (fval p)
                ((1 + / 1000000000000000) * dval G + eta)
                ((1 + / 1000000000000000) * dval P + eta)
                ltac:(lra) ltac:(lra)) as XP.
  replace (((1 + / 1000000000000000) * dval G + eta) * ((1 + / 1000000000000000) * dval P + eta))%R
    with ((1 + / 1000000000000000) * (1 + / 1000000000000000) * A
          + (1 + / 1000000000000000) * (dval G * eta)
          + (1 + / 1000000000000000) * (dval P * eta) + eta * eta)%R in XP by (unfold A; ring).
  pose proof (prod_cota (dval G) (dval P)
                ((1 + / 1000000000000000) * (fval g + 3 * eta))
                ((1 + / 1000000000000000) * (fval p + 3 * eta))
                ltac:(lra) ltac:(lra)) as PX.
  fold A in PX.
  replace ((1 + / 1000000000000000) * (fval g + 3 * eta)
           * ((1 + / 1000000000000000) * (fval p + 3 * eta)))%R
    with ((1 + / 1000000000000000) * (1 + / 1000000000000000) * (fval g * fval p)
          + (1 + / 1000000000000000) * (1 + / 1000000000000000) * 3 * (fval g * eta)
          + (1 + / 1000000000000000) * (1 + / 1000000000000000) * 3 * (fval p * eta)
          + (1 + / 1000000000000000) * (1 + / 1000000000000000) * 9 * (eta * eta))%R
    in PX by ring.
  set (X := (fval g * fval p)%R) in *.
  assert (HX : (X <= B2 960)%R) by lra.
  destruct (calcular_porcentaje_cota g p Fg Fp HX) as [D0 [D1 _]].
  pose proof (calcular_porcentaje_inf g p Fg Fp HX) as D2.
  fold X in D1, D2. pose proof (dval_nonneg _ D0) as PD.
  set (D := dval (calcular_porcentaje g p)) in *.
  assert (PXX : (0 <= X)%R) by (unfold X; apply Rmult_le_pos; lra).
  split; [exact D0|]. split; lra.
Qed.

(** X23.  Accuracy of the percentage helper, as the engine calls it.  For an
    amount and a percentage that are not negative and below 10^100,
    [calcular_porcentaje(float(v), float(P))] is a finite Decimal that is
    not negative and differs from the exact [v * P / 100] by at most half
    a cent, up to one part in 10^13 of the amount (the float roundings). *)
Theorem porcentaje_exactitud v P :
  en_rango v -> en_rango P ->
  let d := calcular_porcentaje (float_of_decimal v) (float_of_decimal P) in
  dnn d
  /\ (dval v * dval P / 100 <= (1 + / 10000000000000) * dval d + 5003 / 1000000)%R
  /\ (dval d <= (1 + / 10000000000000) * (dval v * dval P / 100) + 5003 / 1000000)%R.
Proof.
  intros [V0 V1] [P0 P1].
  destruct (acotado_val v V0 V1) as [Dv Vv]. destruct (acotado_val P P0 P1) as [Dp Vp].
  destruct cota_entradas as [M1 [M2 [E960 G950]]]. destruct B2_959 as [E959 _].
  pose proof (dval_nonneg v Dv) as Pv. pose proof (dval_nonneg P Dp) as Pp.
  pose proof (prod_cota (dval v) (dval P) (B10 100) (B10 100) ltac:(lra) ltac:(lra)) as XP.
  pose proof (prod_cota 1 (B10 100) (B10 100) (B10 100) ltac:(lra) ltac:(lra)) as MM.
  apply linea_dos_lados; try assumption; lra.
Qed.

Lemma porcentaje_exactitud_testigo :
  let d := calcular_porcentaje (float_of_decimal (DFin 123456789 (-2)))
                               (float_of_decimal DEDUCCION_ARL) in
  dnn d
  /\ (dval (DFin 123456789 (-2)) * dval DEDUCCION_ARL / 100
      <= (1 + / 10000000000000) * dval d + 5003 / 1000000)%R
  /\ (dval d <= (1 + / 10000000000000)
                * (dval (DFin 123456789 (-2)) * dval DEDUCCION_ARL / 100)
                + 5003 / 1000000)%R.
Proof.
  apply (porcentaje_exactitud (DFin 123456789 (-2)) DEDUCCION_ARL).
  - split; reflexivity.
  - split; reflexivity.
Defined.

(** X24.  The deductions as a share of the gross salary.  For a finite gross
    amount that is not negative and below 10^100, [calcular_deducciones]
    returns a total within 1.6 cents (and one part in 10^12) of the
    employee's rate times the gross: 4.522 percent, or 6.522 percent for
    an hourly employee with a year of tenure who accepts the savings
    fund. *)
Theorem deducciones_exactitud hoy e G :
  en_rango G ->
  exists D ds, calcular_deducciones hoy e G = Ok (D, ds) /\ dnn D
    /\ (tasa_deducciones hoy e * dval G
        <= (1 + / 1000000000000) * dval D + 16 / 1000)%R
    /\ (dval D
        <= (1 + / 1000000000000) * (tasa_deducciones hoy e * dval G) + 16 / 1000)%R.
Proof.
  intros [G0 G1]. destruct (acotado_val G G0 G1) as [DG VG].
  destruct cota_entradas as [M1 [M2 [E960 G950]]]. destruct B2_959 as [E959 _].
  pose proof (prod_cota 1 (B10 100) (B10 100) (B10 100) ltac:(lra) ltac:(lra)) as MM.
  assert (HG : (dval G <= B2 950)%R) by lra.
  pose proof dnn_dzero as Z0. pose proof dval_dzero as V0.
  pose proof (dval_nonneg G DG) as PG.
  destruct dval_constantes as [C1 [C2 C3]].
  assert (K1 : (dval G * dval DEDUCCION_SEGURIDAD_SOCIAL_PENSION <= B2 959)%R)
    by (rewrite C1; lra).
  assert (K2 : (dval G * dval DEDUCCION_ARL <= B2 959)%R) by (rewrite C2; lra).
  assert (K3 : (dval G * dval FONDO_AHORRO_PORCENTAJE <= B2 959)%R) by (rewrite C3; lra).
  destruct (linea_dos_lados G DEDUCCION_SEGURIDAD_SOCIAL_PENSION DG
              ltac:(cbn; lia) HG ltac:(lra) K1) as [D1 [I1 L1]].
  destruct (linea_dos_lados G DEDUCCION_ARL DG
              ltac:(cbn; lia) HG ltac:(lra) K2) as [D2 [I2 L2]].
  destruct (linea_dos_lados G FONDO_AHORRO_PORCENTAJE DG
              ltac:(cbn; lia) HG ltac:(lra) K3) as [D3 [I3 L3]].
  rewrite C1 in I1, L1. rewrite C2 in I2, L2. rewrite C3 in I3, L3.
  unfold calcular_deducciones, tasa_deducciones, en_fondo_ahorro. cbv zeta.
  set (d1 := calcular_porcentaje _ (float_of_decimal DEDUCCION_SEGURIDAD_SOCIAL_PENSION)) in *.
  set (d2 := calcular_porcentaje _ (float_of_decimal DEDUCCION_ARL)) in *.
  set (d3 := calcular_porcentaje _ (float_of_decimal FONDO_AHORRO_PORCENTAJE)) in *.
  pose proof (dval_nonneg d1 D1) as P1. pose proof (dval_nonneg d2 D2) as P2.
  pose proof (dval_nonneg d3 D3) as P3.
  do 2 paso_dadd.
  pose proof (dval_nonneg z Dz) as Pz. pose proof (dval_nonneg z0 Dz0) as Pz0.
  destruct (String.eqb (nombre_tipo e) POR_HORAS); cbn [andb].
  - destruct ((_ >=? _) && _).
    + paso_dadd. pose proof (dval_nonneg z1 Dz1) as Pz1.
      do 2 eexists. split; [reflexivity|]. split; [assumption|]. split; lra.
    + do 2 eexists. split; [reflexivity|]. split; [assumption|]. split; lra.
  - do 2 eexists. split; [reflexivity|]. split; [assumption|]. split; lra.
Qed.

Lemma deducciones_exactitud_testigo :
  exists D ds, calcular_deducciones hoy_ej emp_por_horas (DFin 437500000 (-2)) = Ok (D, ds)
    /\ dnn D
    /\ (tasa_deducciones hoy_ej emp_por_horas * dval (DFin 437500000 (-2))
        <= (1 + / 1000000000000) * dval D + 16 / 1000)%R
    /\ (dval D
        <= (1 + / 1000000000000)
           * (tasa_deducciones hoy_ej emp_por_horas * dval (DFin 437500000 (-2)))
           + 16 / 1000)%R.
Proof.
  apply (deducciones_exactitud hoy_ej emp_por_horas (DFin 437500000 (-2))).
  split; reflexivity.
Defined.
